(** * Compressed-NFT minting client: proxies, metadata stub and mint orchestrator

    A shallow embedding of
      - [src/app/api/helius/route.ts]     (the RPC proxy route handler),
      - the mint proxy route handler       ([/api/mint-cnft]),
      - the [useMintCNFT] hook             ([uploadMetadata],
        [mintWithExistingTree], [mintWithHeliusAPI], [mutationFn],
        [onSuccess], [onError]).

    Conventions of the embedding.
      - A JavaScript string is the list of its UTF-16 code units
        ([jsstring]); [lit] turns an ASCII literal into such a list.
      - A JSON value is [json]; a JavaScript value that may be [undefined]
        is [jsval = option json].  A number is kept as the text
        [Number.prototype.toString] gives it, which is all this code reads
        of one.
      - Asynchronous code is sequential here: every [await] is a call.
        A computation returns the list of the effects it performed, in
        order, and either a value or the exception it threw ([Eff]).
      - The outside world (the upstream provider, the mint proxy seen from
        the browser, the transaction SDK, the wallet objects, the
        environment) is an explicit argument.
      - [console.*] output is not part of the recorded effects. *)

From Stdlib Require Import String Ascii.
From Stdlib Require Import List Arith NArith Bool Lia.
Import ListNotations.

Set Implicit Arguments.
Set Warnings "-register-all".

(* ================================================================== *)
(** ** JavaScript values                                               *)
(* ================================================================== *)

Module JS.

Local Open Scope N_scope.

(** UTF-16 code units; every unit of a real string is below [2^16]. *)
Definition jsstring := list N.

Definition code_unit (u : N) : Prop := u < 65536.

Definition lit (s : string) : jsstring :=
  map N_of_ascii (list_ascii_of_string s).
Arguments lit s%_string.

Definition jsstring_eqb (a b : jsstring) : bool :=
  if list_eq_dec N.eq_dec a b then true else false.

(** [s.startsWith(p)] and [s.includes(p)]. *)
Fixpoint startsWith (s p : jsstring) : bool :=
  match p, s with
  | [], _ => true
  | _ :: _, [] => false
  | c :: p', d :: s' => (c =? d) && startsWith s' p'
  end.

Fixpoint includes (s p : jsstring) : bool :=
  startsWith s p ||
  match s with
  | [] => false
  | _ :: s' => includes s' p
  end.

(** [s.substring(0, n)]. *)
Definition substring0 (n : nat) (s : jsstring) : jsstring := firstn n s.

(** *** [Number.prototype.toString(radix)] on non-negative integers *)

(** Digits ['0'..'9'] then ['a'..'z']. *)
Definition digit_char (d : N) : N := if d <? 10 then 48 + d else 87 + d.

Definition digit_value (c : N) : N := if c <? 58 then c - 48 else c - 87.

Fixpoint digits_fuel (fuel : nat) (radix n : N) (acc : jsstring) : jsstring :=
  match fuel with
  | O => acc
  | S fuel' =>
      let acc' := digit_char (n mod radix) :: acc in
      if n / radix =? 0 then acc' else digits_fuel fuel' radix (n / radix) acc'
  end.

(** One unit of fuel per binary digit of [n] is enough for any radix [>= 2]
    (lemma [fromDigits_toString]). *)
Definition toString (radix n : N) : jsstring :=
  digits_fuel (S (N.to_nat (N.log2 n))) radix n [].

Definition fromDigits (radix : N) (s : jsstring) : N :=
  fold_left (fun a c => a * radix + digit_value c) s 0.

(** Numbers up to [Number.MAX_SAFE_INTEGER] are added without rounding. *)
Definition MAX_SAFE_INTEGER : N := 2 ^ 53 - 1.

(** [s.padStart(target, fill)]: the filler is repeated and cut to size. *)
Fixpoint cycle (k : nat) (fill cur : jsstring) : jsstring :=
  match k with
  | O => []
  | S k' =>
      match cur with
      | c :: cur' => c :: cycle k' fill cur'
      | [] =>
          match fill with
          | c :: cur' => c :: cycle k' fill cur'
          | [] => []
          end
      end
  end.

Definition padStart (target : nat) (fill s : jsstring) : jsstring :=
  cycle (target - length s) fill fill ++ s.

(** *** The string iterator ([Array.from(s)]) *)

Definition is_high_surrogate (u : N) : bool := (55296 <=? u) && (u <=? 56319).
Definition is_low_surrogate (u : N) : bool := (56320 <=? u) && (u <=? 57343).

(** One element per code point: a high surrogate followed by a low one is
    kept together, every other unit stands alone. *)
Fixpoint Array_from (s : jsstring) : list jsstring :=
  match s with
  | [] => []
  | u :: rest =>
      match rest with
      | v :: rest' =>
          if is_high_surrogate u && is_low_surrogate v
          then [u; v] :: Array_from rest'
          else [u] :: Array_from rest
      | [] => [[u]]
      end
  end.

(** [c.charCodeAt(0)]; the elements of [Array_from] are never empty, so the
    [NaN] of an empty string does not arise. *)
Definition charCodeAt0 (c : jsstring) : N :=
  match c with
  | u :: _ => u
  | [] => 0
  end.

(** *** JSON values *)

(** A number is represented by its canonical text, the one
    [Number.prototype.toString] prints ([500], [-32602], [0.5], [1e+21]):
    two numbers with the same text are the same number, but for the two
    zeros, which both print [0] and which this code cannot tell apart.
    Only such texts stand for numbers; the code reads a number in two ways,
    its truth value and its text. *)
Inductive json : Type :=
| JNull
| JBool (b : bool)
| JNum (text : jsstring)
| JStr (s : jsstring)
| JArr (l : list json)
| JObj (fields : list (jsstring * json)).

(** A value or [undefined]. *)
Definition jsval := option json.

(** [!!v] *)
Definition truthy (v : json) : bool :=
  match v with
  | JNull => false
  | JBool b => b
  | JNum text => negb (jsstring_eqb text (lit "0"))
  | JStr s => match s with [] => false | _ => true end
  | JArr _ => true
  | JObj _ => true
  end.

Definition truthyv (v : jsval) : bool :=
  match v with
  | Some j => truthy j
  | None => false
  end.

Definition truthy_str (s : option jsstring) : bool :=
  match s with
  | Some (_ :: _) => true
  | _ => false
  end.

(** [a || b] *)
Definition or_else (a : jsval) (b : jsval) : jsval :=
  if truthyv a then a else b.

Fixpoint assoc (k : jsstring) (fields : list (jsstring * json)) : jsval :=
  match fields with
  | [] => None
  | (k', v) :: rest => if jsstring_eqb k k' then Some v else assoc k rest
  end.

(** [v.k] for a [v] that is neither [null] nor [undefined], and for the
    property names this code reads ([name], [symbol], [owner], [method],
    [error], ...), none of which a prototype provides: own properties of an
    object, [undefined] on every other value. *)
Definition get (v : json) (k : jsstring) : jsval :=
  match v with
  | JObj fields => assoc k fields
  | _ => None
  end.

(** The object literal [{k1: v1, ...}] as [JSON.stringify] sees it:
    properties whose value is [undefined] are left out. *)
Fixpoint object (fields : list (jsstring * jsval)) : list (jsstring * json) :=
  match fields with
  | [] => []
  | (k, Some v) :: rest => (k, v) :: object rest
  | (_, None) :: rest => object rest
  end.

Fixpoint join (sep : jsstring) (parts : list jsstring) : jsstring :=
  match parts with
  | [] => []
  | [p] => p
  | p :: rest => p ++ sep ++ join sep rest
  end.

(** [String(v)], the conversion a template literal and [new Error(v)]
    apply; [None] when the conversion throws a [TypeError].

    An array is joined with commas, [null] elements giving the empty text
    and every other element its own conversion.  An object is converted
    through its [toString] property: a parsed object that has a key
    [toString] of its own holds a value there that cannot be called, and
    [valueOf] does not give a primitive either, so the conversion throws;
    without such a key the inherited method prints ["[object Object]"]. *)
Fixpoint String_ (v : json) : option jsstring :=
  match v with
  | JNull => Some (lit "null")
  | JBool true => Some (lit "true")
  | JBool false => Some (lit "false")
  | JNum text => Some text
  | JStr s => Some s
  | JArr l =>
      option_map (join (lit ","))
        ((fix elements (l : list json) : option (list jsstring) :=
            match l with
            | [] => Some []
            | x :: rest =>
                match match x with JNull => Some [] | _ => String_ x end,
                      elements rest with
                | Some s, Some ss => Some (s :: ss)
                | _, _ => None
                end
            end) l)
  | JObj fields =>
      match assoc (lit "toString") fields with
      | Some _ => None
      | None => Some (lit "[object Object]")
      end
  end.

(** The same for a value that may be [undefined]. *)
Definition String_v (v : jsval) : option jsstring :=
  match v with
  | Some j => String_ j
  | None => Some (lit "undefined")
  end.

(** Thrown values that are [Error] objects: [name] and [message]. *)
Record Error := mkError { err_name : jsstring; err_message : jsstring }.

(** [err.message || String(err)] *)
Definition message_or_String (e : Error) : jsstring :=
  match err_message e with
  | [] => err_name e
  | m => m
  end.

End JS.

(* ================================================================== *)
(** ** Effects: a trace of events and a value or a thrown exception    *)
(* ================================================================== *)

Module Effects.

Inductive outcome (X A : Type) : Type :=
| Returns (a : A)
| Throws (x : X).
Arguments Returns {X A} a.
Arguments Throws {X A} x.

(** The events performed so far, then how the computation ended. *)
Definition Eff (Ev X A : Type) : Type := (list Ev * outcome X A)%type.

Section Monad.
Variables Ev X : Type.

Definition ret {A} (a : A) : Eff Ev X A := ([], Returns a).
Definition throw {A} (x : X) : Eff Ev X A := ([], Throws x).
Definition emit (ev : Ev) : Eff Ev X unit := ([ev], Returns tt).
Definition lift {A} (r : outcome X A) : Eff Ev X A := ([], r).

Definition bind {A B} (m : Eff Ev X A) (k : A -> Eff Ev X B) : Eff Ev X B :=
  match m with
  | (t, Returns a) => let (t', r) := k a in (t ++ t', r)
  | (t, Throws x) => (t, Throws x)
  end.

(** [try { m } catch (err) { return h err }] for a handler that returns. *)
Definition try_catch {A} (m : Eff Ev X A) (h : X -> A) : list Ev * A :=
  match m with
  | (t, Returns a) => (t, a)
  | (t, Throws x) => (t, h x)
  end.
End Monad.

Arguments ret {Ev X A} a.
Arguments throw {Ev X A} x.
Arguments emit {Ev X} ev.
Arguments lift {Ev X A} r.

Notation "x <- m ;; k" := (bind m (fun x => k))
  (at level 61, m at next level, right associativity).
Notation "m ;;; k" := (bind m (fun _ => k))
  (at level 61, right associativity).

End Effects.

(* ================================================================== *)
(** ** HTTP: the handlers' responses and what [fetch] gives back       *)
(* ================================================================== *)

Module Http.
Import JS Effects.

(** The body handed to [new Response]: a text as it is, or
    [JSON.stringify v]. *)
Inductive Body : Type :=
| Text (s : jsstring)
| Stringify (v : json).

(** A [Response] the handler has built: its status, its content type and
    its body.  The constructor itself is [new_Response] below. *)
Record Response := mkResponse {
  status : N;
  content_type : jsstring;
  body : Body
}.

(** What [await fetch(...)] resolves to. *)
Record FetchResponse := mkFetchResponse {
  resp_status : N;
  resp_content_type : option jsstring;   (* [resp.headers.get('content-type')] *)
  resp_text : jsstring;                  (* [await resp.text()] *)
  resp_json : outcome Error json         (* [await resp.json()] *)
}.

(** [resp.ok] *)
Definition ok (r : FetchResponse) : bool :=
  ((200 <=? resp_status r) && (resp_status r <=? 299))%N.

(** The incoming request: [await req.json()] rejects or gives the parsed
    body. *)
Record NextRequest := mkRequest { req_json : outcome Error json }.

(** The server side of the world: the provider endpoint of
    [getHeliusRpcUrl] ([@/lib/helius], taken as given: it returns a URL or
    throws), the upstream provider behind [fetch], and the error the
    platform itself raises in this call when it raises one: reading a
    property of [null] or [undefined], converting to a string an object
    that cannot be converted, or constructing a [Response] with a status
    the constructor refuses. *)
Record Server := mkServer {
  getHeliusRpcUrl : outcome Error jsstring;
  fetch : jsstring -> json -> outcome Error FetchResponse;
  typeError : Error
}.

(** The one effect of a handler: a POST of [JSON.stringify payload] to
    [endpoint], with a JSON content type. *)
Inductive event : Type :=
| Fetch (endpoint : jsstring) (payload : json).

Definition application_json : jsstring := lit "application/json".

(** The statuses [new Response] refuses when it is given a body: those
    outside [200..599] (a [RangeError]) and the null-body statuses
    (a [TypeError]). *)
Definition null_body_status (status : N) : bool :=
  ((status =? 101) || (status =? 103) || (status =? 204) || (status =? 205)
   || (status =? 304))%N.

Definition accepts_status (status : N) : bool :=
  ((200 <=? status) && (status <=? 599))%N && negb (null_body_status status).

(** [new Response(body, { status, headers: { 'content-type': ct } })] for a
    [body] that is a string, the empty one included. *)
Definition new_Response (sv : Server) (body : Body) (status : N)
    (ct : jsstring) : Eff event Error Response :=
  if accepts_status status then ret (mkResponse status ct body)
  else throw (typeError sv).

(** The handlers' own answers carry the literal statuses [200], [400],
    [500] and [502], which the constructor accepts (lemma
    [literal_statuses_accepted]); they are built directly. *)
Definition error_response (code : N) (v : json) : Response :=
  mkResponse code application_json (Stringify (JObj [(lit "error", v)])).

(** [v.k]: a [TypeError] on [null] and [undefined]. *)
Definition member (sv : Server) (v : jsval) (k : jsstring)
  : Eff event Error jsval :=
  match v with
  | None | Some JNull => throw (typeError sv)
  | Some j => ret (get j k)
  end.

(** [const { k1, k2, ... } = v]: a [TypeError] when [v] is [null]; each [ki]
    is then [get v ki]. *)
Definition destructure (sv : Server) (v : json) : Eff event Error unit :=
  match v with
  | JNull => throw (typeError sv)
  | _ => ret tt
  end.

(** [await fetch(endpoint, { method: 'POST', headers, body: JSON.stringify payload })] *)
Definition fetch_POST (sv : Server) (endpoint : jsstring) (payload : json)
  : Eff event Error FetchResponse :=
  emit (Fetch endpoint payload) ;;;
  lift (fetch sv endpoint payload).

(** The upstream was called. *)
Definition called_upstream (t : list event) : bool :=
  match t with
  | [] => false
  | _ :: _ => true
  end.

End Http.

(* ================================================================== *)
(** ** The RPC proxy, [/api/helius] ([src/app/api/helius/route.ts])     *)
(* ================================================================== *)

Module RpcProxy.
Import JS Effects Http.

Definition missing_method : Response :=
  error_response 400 (JStr (lit "Missing method in request body")).

(** The JSON-RPC envelope [{ jsonrpc: '2.0', id: 'proxy', method, params }]. *)
Definition envelope (method params : jsval) : json :=
  JObj (object [ (lit "jsonrpc", Some (JStr (lit "2.0")));
                 (lit "id", Some (JStr (lit "proxy")));
                 (lit "method", method);
                 (lit "params", params) ]).

(** The body of the [try] block. *)
Definition POST_try (sv : Server) (req : NextRequest)
  : Eff event Error Response :=
  body <- lift (req_json req) ;;
  (* const { method, params } = body; *)
  destructure sv body ;;;
  let method := get body (lit "method") in
  let params := get body (lit "params") in
  if negb (truthyv method) then ret missing_method
  else
    endpoint <- lift (getHeliusRpcUrl sv) ;;
    resp <- fetch_POST sv endpoint (envelope method params) ;;
    let text := resp_text resp in
    let contentType :=
      match resp_content_type resp with
      | Some (c :: ct) => c :: ct
      | _ => application_json
      end in
    new_Response sv (Text text) (resp_status resp) contentType.

Definition POST (sv : Server) (req : NextRequest) : list event * Response :=
  try_catch (POST_try sv req)
    (fun err => error_response 500 (JStr (message_or_String err))).

Definition GET : Response :=
  mkResponse 200 application_json
    (Stringify (JObj [(lit "status", JStr (lit "helius proxy endpoint"))])).

End RpcProxy.

(* ================================================================== *)
(** ** The mint proxy, [/api/mint-cnft]                                *)
(* ================================================================== *)

Module MintProxy.
Import JS Effects Http.

Definition missing_fields : Response :=
  error_response 400 (JStr (lit "Missing required fields: name, symbol, owner")).

Definition or_default (v : jsval) (d : json) : json :=
  match or_else v (Some d) with
  | Some j => j
  | None => d
  end.

(** The [mintCompressedNft] call, once the three defaults are settled. *)
Definition mint_call (name symbol owner : jsval)
    (description attributes imageUrl : json) : json :=
  JObj (object
    [ (lit "jsonrpc", Some (JStr (lit "2.0")));
      (lit "id", Some (JStr (lit "helius-mint")));
      (lit "method", Some (JStr (lit "mintCompressedNft")));
      (lit "params", Some (JObj (object
         [ (lit "name", name);
           (lit "symbol", symbol);
           (lit "owner", owner);
           (lit "description", Some description);
           (lit "attributes", Some attributes);
           (lit "imageUrl", Some imageUrl);
           (lit "sellerFeeBasisPoints", Some (JNum (lit "500"))) ]))) ]).

(** [`A compressed NFT: ${name}`]: converting [name] may throw. *)
Definition template (sv : Server) (name : jsval) : Eff event Error json :=
  match String_v name with
  | Some text => ret (JStr (lit "A compressed NFT: " ++ text))
  | None => throw (typeError sv)
  end.

(** [description || `A compressed NFT: ${name}`]: the template is evaluated
    only when [description] is falsy. *)
Definition description_or_template (sv : Server) (name description : jsval)
  : Eff event Error json :=
  match description with
  | Some d => if truthy d then ret d else template sv name
  | None => template sv name
  end.

(** The object literal handed to [JSON.stringify]: it is evaluated, and may
    throw, before [fetch] is called.  [name], [symbol] and [owner] are
    truthy when this is built. *)
Definition mint_request (sv : Server)
    (name symbol owner description imageUrl attributes : jsval)
  : Eff event Error json :=
  description' <- description_or_template sv name description ;;
  ret (mint_call name symbol owner description'
         (or_default attributes (JArr []))
         (or_default imageUrl (JStr (lit "https://arweave.net/placeholder-image")))).

Definition POST_try (sv : Server) (req : NextRequest)
  : Eff event Error Response :=
  body <- lift (req_json req) ;;
  (* const { name, symbol, owner, description, imageUrl, attributes } = body; *)
  destructure sv body ;;;
  let name := get body (lit "name") in
  let symbol := get body (lit "symbol") in
  let owner := get body (lit "owner") in
  let description := get body (lit "description") in
  let imageUrl := get body (lit "imageUrl") in
  let attributes := get body (lit "attributes") in
  if negb (truthyv name) || negb (truthyv symbol) || negb (truthyv owner)
  then ret missing_fields
  else
    endpoint <- lift (getHeliusRpcUrl sv) ;;
    payload <- mint_request sv name symbol owner description imageUrl attributes ;;
    resp <- fetch_POST sv endpoint payload ;;
    if negb (ok resp) then
      let txt := resp_text resp in
      ret (error_response 502
             (JStr (lit "Helius error: " ++ toString 10 (resp_status resp)
                    ++ lit " - " ++ txt)))
    else
      data <- lift (resp_json resp) ;;
      error <- member sv (Some data) (lit "error") ;;
      if truthyv error then
        ret (mkResponse 502 application_json
               (Stringify (JObj (object [(lit "error", error)]))))
      else
        result <- member sv (Some data) (lit "result") ;;
        signature <- member sv result (lit "signature") ;;
        assetId <- member sv result (lit "assetId") ;;
        ret (mkResponse 200 application_json
               (Stringify (JObj (object [ (lit "signature", signature);
                                          (lit "assetId", assetId) ])))).

Definition POST (sv : Server) (req : NextRequest) : list event * Response :=
  try_catch (POST_try sv req)
    (fun err => error_response 500 (JStr (message_or_String err))).

Definition GET : Response :=
  mkResponse 200 application_json
    (Stringify (JObj [(lit "status", JStr (lit "mint-cnft endpoint"))])).

End MintProxy.

(* ================================================================== *)
(** ** The mint hook, [useMintCNFT]                                    *)
(* ================================================================== *)

Module MintHook.
Import JS Effects.

Record MintCNFTParams := mkParams {
  name : jsstring;
  symbol : jsstring;
  description : option jsstring;
  imageUrl : option jsstring;
  forceHelius : option bool
}.

Record MintResult := mkResult { signature : jsval; assetId : jsval }.

(** [process.env], as far as the hook reads it. *)
Record Env := mkEnv {
  NEXT_PUBLIC_MERKLE_TREE_ADDRESS : option jsstring;
  NEXT_PUBLIC_HELIUS_API_KEY : option jsstring;
  NEXT_PUBLIC_SOLANA_NETWORK : option jsstring
}.

(** A public key, by its base-58 text ([toBase58()], [toString()]). *)
Definition PublicKey := jsstring.

(** Where a [signTransaction] function comes from: the connected wallet
    adapter, or the wrapper this hook builds around [window.solana].  The
    functions themselves run only inside the SDK's [sendAndConfirm]. *)
Inductive SignTransaction : Type :=
| AdapterSigner
| PhantomForwarder.

(** [WalletContextState], as far as the hook reads it. *)
Record WalletContextState := mkAdapter {
  publicKey : option PublicKey;
  signTransaction : option SignTransaction;
  signAllTransactions : option SignTransaction
}.

(** [window.solana]: [publicKey] is [null] until the extension is
    connected. *)
Record Sol := mkSol {
  isPhantom : bool;
  sol_publicKey : option PublicKey
}.

Record Account := mkAccount { address : jsstring }.

Inductive Connection : Type := connection.

(** The argument of [mintV1] together with the [umi] it is sent through. *)
Record Creator := mkCreator {
  creator_address : PublicKey;
  verified : bool;
  share : N
}.

Record Metadata := mkMetadata {
  md_name : jsstring;
  md_symbol : jsstring;
  uri : jsstring;
  sellerFeeBasisPoints : N;
  creators : list Creator
}.

Record MintV1 := mkMintV1 {
  umi_endpoint : jsstring;
  umi_identity : WalletContextState;
  leafOwner : PublicKey;
  merkleTree : PublicKey;
  metadata : Metadata
}.

(** The exceptions of a mint attempt, by the place that throws them. *)
Inductive exn : Type :=
| TreeNotConfigured                                (* mintWithExistingTree *)
| WalletNotConnectedForTree                        (* mutationFn, mode 1 *)
| SigningUnsupported                               (* mutationFn, mode 1 *)
| WalletNotConnected                               (* mutationFn, mode 2 *)
| ServerMintError (status : N) (text : jsstring)   (* mintWithHeliusAPI *)
| ServerMintFailed (msg : jsstring)                (* mintWithHeliusAPI *)
| Foreign (e : Error).                             (* fetch, json(), the SDK, the engine *)

Definition message (e : exn) : jsstring :=
  match e with
  | TreeNotConfigured =>
      lit "NEXT_PUBLIC_MERKLE_TREE_ADDRESS not configured. See TREE_SETUP_GUIDE.md"
  | WalletNotConnectedForTree =>
      lit "Wallet not connected. To mint with the configured Merkle tree you must connect a signing wallet. Alternatively, unset NEXT_PUBLIC_MERKLE_TREE_ADDRESS to use the Helius API fallback."
  | SigningUnsupported => lit "Wallet does not support transaction signing"
  | WalletNotConnected => lit "Wallet not connected"
  | ServerMintError status text =>
      lit "Server mint error: " ++ toString 10 status ++ lit " - " ++ text
  | ServerMintFailed msg => msg
  | Foreign e => err_message e
  end.

Inductive event : Type :=
| FetchMintProxy (payload : json)      (* fetch('/api/mint-cnft', POST, JSON.stringify payload) *)
| SendAndConfirm (call : MintV1)       (* mintV1(...).sendAndConfirm(umi) *)
| ToastSuccess (title description : jsstring) (duration : N)
| ToastError (title description : jsstring) (duration : N)
| SetTimeoutInvalidate (queryKey : list jsstring) (delay : N).

(** The browser side of the world for one mint attempt: what the hooks
    return, the mint proxy behind [fetch], the SDK's [publicKey] function
    (imported as [umiPublicKey] and taken as given: it returns the key of a
    text or throws its [InvalidPublicKeyError]), the SDK behind
    [sendAndConfirm] (signing, block hash look-ups and submission
    included), and the [TypeError] the engine raises in this attempt when
    it raises one: reading a property of [null] or [undefined], or
    converting to a string an object that cannot be converted. *)
Record World := mkWorld {
  env : Env;
  account : option Account;                 (* useWallet().account *)
  walletAdapter : WalletContextState;       (* useWalletAdapter() *)
  window_solana : option Sol;               (* window.solana when it is there and truthy *)
  fetch_mint : json -> outcome Error Http.FetchResponse;
  umiPublicKey : jsstring -> outcome Error PublicKey;
  sendAndConfirm : MintV1 -> outcome Error (list N);   (* signature bytes *)
  typeError : Error
}.

Definition M (A : Type) : Type := Eff event exn A.

Definition foreign {A} (r : outcome Error A) : M A :=
  match r with
  | Returns a => ret a
  | Throws e => throw (Foreign e)
  end.

(** [Buffer.from(bytes).toString('base64')] *)
Definition base64_char (i : N) : N :=
  (if i <? 26 then 65 + i
   else if i <? 52 then 71 + i
   else if i <? 62 then i - 4
   else if i =? 62 then 43 else 47)%N.

Fixpoint base64 (bs : list N) : jsstring :=
  (match bs with
   | a :: b :: c :: rest =>
       base64_char (a / 4) :: base64_char ((a mod 4) * 16 + b / 16)
       :: base64_char ((b mod 16) * 4 + c / 64) :: base64_char (c mod 64)
       :: base64 rest
   | [a; b] =>
       [base64_char (a / 4); base64_char ((a mod 4) * 16 + b / 16);
        base64_char ((b mod 16) * 4); 61]
   | [a] => [base64_char (a / 4); base64_char ((a mod 4) * 16); 61; 61]
   | [] => []
   end)%N.

(** *** [uploadMetadata] *)

Definition char_code_sum (name : jsstring) : N :=
  fold_left (fun acc char => (acc + charCodeAt0 char)%N) (Array_from name) 0%N.

Definition uploadMetadata (params : MintCNFTParams) : jsstring :=
  let hash := padStart 43 (lit "x") (toString 36 (char_code_sum (name params))) in
  let mockUri := lit "https://arweave.net/" ++ hash in
  mockUri.

(** The specification's wording of the hashed number: the sum of the
    name's character codes, one term [name.charCodeAt(i)] for each index. *)
Definition sum_of_character_codes (name : jsstring) : N :=
  fold_right N.add 0%N name.

(** The name without the second code of each surrogate pair. *)
Fixpoint leading_units (s : jsstring) : jsstring :=
  match s with
  | [] => []
  | u :: rest =>
      u :: match rest with
           | v :: rest' =>
               if is_high_surrogate u && is_low_surrogate v
               then leading_units rest'
               else leading_units rest
           | [] => []
           end
  end.

(** A high surrogate directly followed by a low one. *)
Fixpoint has_surrogate_pair (s : jsstring) : bool :=
  match s with
  | [] => false
  | u :: rest =>
      match rest with
      | v :: _ => (is_high_surrogate u && is_low_surrogate v) || has_surrogate_pair rest
      | [] => false
      end
  end.

(** *** [mintWithExistingTree] *)

Definition mintWithExistingTree (w : World) (params : MintCNFTParams)
    (_ : Connection) (walletAdapter : WalletContextState) : M MintResult :=
  match NEXT_PUBLIC_MERKLE_TREE_ADDRESS (env w) with
  | None | Some [] => throw TreeNotConfigured
  | Some treeAddress =>
      let apiKey := NEXT_PUBLIC_HELIUS_API_KEY (env w) in
      let network :=
        match NEXT_PUBLIC_SOLANA_NETWORK (env w) with
        | Some (c :: n) => c :: n
        | _ => lit "devnet"
        end in
      let endpoint :=
        match apiKey with
        | Some (c :: k) =>
            lit "https://" ++ network ++ lit ".helius-rpc.com/?api-key=" ++ (c :: k)
        | _ => lit "https://api.devnet.solana.com"
        end in
      let metadataUri := uploadMetadata params in
      (* walletAdapter.publicKey!.toBase58() *)
      base58 <- match publicKey walletAdapter with
                | Some pk => ret pk
                | None => throw (Foreign (typeError w))
                end ;;
      leafOwner <- foreign (umiPublicKey w base58) ;;
      merkleTree <- foreign (umiPublicKey w treeAddress) ;;
      let call :=
        mkMintV1 endpoint walletAdapter leafOwner merkleTree
          (mkMetadata (name params) (symbol params) metadataUri 500
             [mkCreator leafOwner false 100]) in
      emit (SendAndConfirm call) ;;;
      result <- foreign (sendAndConfirm w call) ;;
      let signature := base64 result in
      ret (mkResult (Some (JStr signature)) (Some (JStr (lit "pending-indexing"))))
  end.

(** *** [mintWithHeliusAPI] *)

Definition mint_proxy_payload (params : MintCNFTParams) (walletAddress : jsstring)
  : json :=
  JObj (object [ (lit "name", Some (JStr (name params)));
                 (lit "symbol", Some (JStr (symbol params)));
                 (lit "owner", Some (JStr walletAddress));
                 (lit "description", option_map JStr (description params));
                 (lit "imageUrl", option_map JStr (imageUrl params)) ]).

Definition mintWithHeliusAPI (w : World) (params : MintCNFTParams)
    (walletAddress : jsstring) : M MintResult :=
  let payload := mint_proxy_payload params walletAddress in
  emit (FetchMintProxy payload) ;;;
  response <- foreign (fetch_mint w payload) ;;
  if negb (Http.ok response) then
    let text := Http.resp_text response in
    throw (ServerMintError (Http.resp_status response) text)
  else
    data <- foreign (Http.resp_json response) ;;
    match data with
    | JNull => throw (Foreign (typeError w))        (* data.error on null *)
    | _ =>
        let error := get data (lit "error") in
        if truthyv error then
          (* data.error?.message || data.error || 'Unknown server mint error' *)
          let m := or_else (or_else (match error with
                                     | Some e => get e (lit "message")
                                     | None => None
                                     end) error)
                           (Some (JStr (lit "Unknown server mint error"))) in
          (* new Error(m) converts m to a string, which may throw *)
          match m with
          | Some j =>
              match String_ j with
              | Some msg => throw (ServerMintFailed msg)
              | None => throw (Foreign (typeError w))
              end
          | None => throw (ServerMintFailed [])
          end
        else
          ret (mkResult (get data (lit "signature")) (get data (lit "assetId")))
    end.

(** *** The mutation of [useMintCNFT] *)

(** [const configuredTree = !!process.env.NEXT_PUBLIC_MERKLE_TREE_ADDRESS] *)
Definition configuredTree (w : World) : bool :=
  truthy_str (NEXT_PUBLIC_MERKLE_TREE_ADDRESS (env w)).

(** [!!params.forceHelius] *)
Definition forced (params : MintCNFTParams) : bool :=
  match forceHelius params with
  | Some b => b
  | None => false
  end.

(** [const useExistingTree = configuredTree && !params.forceHelius] *)
Definition useExistingTree (configuredTree forceHelius : bool) : bool :=
  configuredTree && negb forceHelius.

(** [account?.address], when it is truthy. *)
Definition account_address (w : World) : option jsstring :=
  match account w with
  | Some a => match address a with
              | [] => None
              | c :: s => Some (c :: s)
              end
  | None => None
  end.

(** The adapter built around the Phantom extension; reading
    [sol.publicKey.toString()] is a [TypeError] while [sol.publicKey] is
    [null]. *)
Definition phantomAdapter (w : World) (sol : Sol) : M WalletContextState :=
  match sol_publicKey sol with
  | Some pk =>
      ret (mkAdapter (Some pk) (Some PhantomForwarder) (Some PhantomForwarder))
  | None => throw (Foreign (typeError w))
  end.

(** Mode 1: the existing tree, the user's wallet signs.

    First the signer is resolved; [inl r] is the early [return] of the last
    resort (the server mint for the account the wallet UI reports). *)
Definition resolveAdapter (w : World) (params : MintCNFTParams)
  : M (MintResult + WalletContextState) :=
  let effectiveAdapter := walletAdapter w in
  match publicKey (walletAdapter w) with
  | Some _ => ret (inr effectiveAdapter)
  | None =>
      (* sol && sol.isPhantom *)
      let phantom :=
        match window_solana w with
        | Some sol => if isPhantom sol then Some sol else None
        | None => None
        end in
      match phantom with
      | Some sol =>
          effectiveAdapter <- phantomAdapter w sol ;;
          ret (inr effectiveAdapter)
      | None =>
          match account_address w with
          | Some addr => r <- mintWithHeliusAPI w params addr ;; ret (inl r)
          | None => throw WalletNotConnectedForTree
          end
      end
  end.

Definition mode1 (w : World) (params : MintCNFTParams) : M MintResult :=
  resolved <- resolveAdapter w params ;;
  match resolved with
  | inl r => ret r
  | inr effectiveAdapter =>
      match signTransaction effectiveAdapter with
      | None => throw SigningUnsupported
      | Some _ => mintWithExistingTree w params connection effectiveAdapter
      end
  end.

(** Mode 2: the Helius mint API behind the mint proxy. *)
Definition mode2 (w : World) (params : MintCNFTParams) : M MintResult :=
  match account_address w with
  | None => throw WalletNotConnected
  | Some addr => mintWithHeliusAPI w params addr
  end.

Definition mutationFn (w : World) (params : MintCNFTParams) : M MintResult :=
  let useExistingTree := useExistingTree (configuredTree w) (forced params) in
  if useExistingTree then mode1 w params else mode2 w params.

Definition user_cnfts : list jsstring := [lit "user-cnfts"].

(** The party-popper emoji, U+1F389, as its surrogate pair. *)
Definition party_popper : jsstring := [55356; 57225]%N.

Definition mock_metadata_note : jsstring :=
  lit "You signed and paid for this transaction. Note: Using mock metadata URI for testing.".

(** [data.assetId.substring(0, 8)] is a [TypeError] unless [data.assetId] is
    a string. *)
Definition onSuccess (w : World) (data : MintResult) : M unit :=
  (if configuredTree w then
     emit (ToastSuccess (party_popper ++ lit " cNFT Minted Successfully!")
             mock_metadata_note 6000)
   else
     match assetId data with
     | Some (JStr id) =>
         emit (ToastSuccess (lit "Compressed NFT Minted!")
                 (lit "Asset ID: " ++ substring0 8 id ++ lit "...") 5000)
     | _ => throw (Foreign (typeError w))
     end) ;;;
  emit (SetTimeoutInvalidate user_cnfts 3000) ;;;
  emit (SetTimeoutInvalidate user_cnfts 10000).

Definition onError (error : exn) : list event :=
  let errorMessage :=
    if includes (message error) (lit "NEXT_PUBLIC_MERKLE_TREE_ADDRESS")
    then lit "Merkle tree not configured. Check TREE_SETUP_GUIDE.md"
    else message error in
  [ToastError (lit "Failed to Mint cNFT") errorMessage 8000].

(** One [mutate(params)] of the mutation returned by [useMutation]: the
    mutation function runs, then [onSuccess] with its result, or [onError]
    with what was thrown (also by [onSuccess]). *)
Definition mutate (w : World) (params : MintCNFTParams)
  : list event * outcome exn MintResult :=
  match mutationFn w params with
  | (t, Returns data) =>
      match onSuccess w data with
      | (t', Returns _) => (t ++ t', Returns data)
      | (t', Throws e) => (t ++ t' ++ onError e, Throws e)
      end
  | (t, Throws e) => (t ++ onError e, Throws e)
  end.

(** *** Reading a trace *)

Definition is_proxy_call (ev : event) : bool :=
  match ev with FetchMintProxy _ => true | _ => false end.

Definition is_chain_call (ev : event) : bool :=
  match ev with SendAndConfirm _ => true | _ => false end.

Definition is_network_call (ev : event) : bool :=
  is_proxy_call ev || is_chain_call ev.

Definition is_error_toast (ev : event) : bool :=
  match ev with ToastError _ _ _ => true | _ => false end.

(** The two mint strategies of the specification. *)
Inductive Strategy : Type := UserSignedStrategy | ServerSignedStrategy.

Definition selectStrategy (configuredTree forceFallback : bool) : Strategy :=
  if useExistingTree configuredTree forceFallback
  then UserSignedStrategy else ServerSignedStrategy.

(** The strategy a run went through, read off its network calls: the mint
    proxy is the server-signed path, [sendAndConfirm] the user-signed one. *)
Definition strategy_used (t : list event) : option Strategy :=
  if existsb is_proxy_call t then Some ServerSignedStrategy
  else if existsb is_chain_call t then Some UserSignedStrategy
  else None.

(** The descriptions of the success notifications in a trace. *)
Definition success_descriptions (t : list event) : list jsstring :=
  flat_map (fun ev => match ev with
                      | ToastSuccess _ d _ => [d]
                      | _ => []
                      end) t.

End MintHook.

(* ================================================================== *)
(** ** Requests and providers used in the examples                     *)
(* ================================================================== *)

Module ProxySamples.
Import JS Effects Http.
Local Open Scope N_scope.

(** The value a request carries for a field: [undefined] when the body has
    no such field, also when there is no JSON body at all. *)
Definition request_field (req : NextRequest) (k : jsstring) : jsval :=
  match req_json req with
  | Returns b => get b k
  | Throws _ => None
  end.

(** A provider that answers every call with [200] and an empty object. *)
Definition sample_server : Server :=
  mkServer (Returns (lit "https://rpc.example/?api-key=k"))
           (fun _ _ => Returns (mkFetchResponse 200 (Some application_json)
                                  (lit "{}") (Returns (JObj []))))
           (mkError (lit "TypeError") (lit "Cannot destructure property of null")).

(** A provider that is down, and one that answers [200] with a JSON-RPC
    error. *)
Definition failing_server : Server :=
  mkServer (Returns (lit "https://rpc.example/?api-key=k"))
           (fun _ _ => Returns (mkFetchResponse 503 None (lit "down")
                                  (Throws (mkError (lit "SyntaxError")
                                             (lit "Unexpected token d")))))
           (mkError (lit "TypeError") (lit "Cannot read properties of null")).

Definition rpc_error : json :=
  JObj [(lit "code", JNum (lit "-32602")); (lit "message", JStr (lit "Invalid params"))].

Definition rejecting_server : Server :=
  mkServer (Returns (lit "https://rpc.example/?api-key=k"))
           (fun _ _ => Returns (mkFetchResponse 200 (Some application_json)
                                  (lit "...")
                                  (Returns (JObj [(lit "jsonrpc", JStr (lit "2.0"));
                                                  (lit "error", rpc_error)]))))
           (mkError (lit "TypeError") (lit "Cannot read properties of null")).

Definition mint_request_Foo : NextRequest :=
  mkRequest (Returns (JObj [(lit "name", JStr (lit "Foo"));
                            (lit "symbol", JStr (lit "FOO"));
                            (lit "owner", JStr (lit "Addr1"))])).

(** A provider that answers [204 No Content]. *)
Definition silent_server : Server :=
  mkServer (Returns (lit "https://rpc.example/?api-key=k"))
           (fun _ _ => Returns (mkFetchResponse 204 None []
                                  (Throws (mkError (lit "SyntaxError")
                                             (lit "Unexpected end of JSON input")))))
           (mkError (lit "TypeError")
              (lit "Response constructor: Invalid response status code 204")).

(** A request whose [name] is an object with a [toString] field: truthy,
    and not convertible to a string. *)
Definition mint_request_unprintable : NextRequest :=
  mkRequest (Returns (JObj [(lit "name", JObj [(lit "toString", JNum (lit "0"))]);
                            (lit "symbol", JStr (lit "FOO"));
                            (lit "owner", JStr (lit "Addr1"))])).

Definition rpc_request_null : NextRequest := mkRequest (Returns JNull).

Definition rpc_request_empty_method : NextRequest :=
  mkRequest (Returns (JObj [(lit "method", JStr []);
                            (lit "params", JArr [])])).

Definition rpc_request_getAsset : NextRequest :=
  mkRequest (Returns (JObj [(lit "method", JStr (lit "getAsset"));
                            (lit "params", JObj [(lit "id", JStr (lit "id1"))])])).

End ProxySamples.

(* ================================================================== *)
(** ** Worlds used in the examples                                     *)
(* ================================================================== *)

Module MintSamples.
Import JS Effects MintHook.
Local Open Scope N_scope.

Definition no_adapter : WalletContextState := mkAdapter None None None.

Definition proxy_ok : Http.FetchResponse :=
  Http.mkFetchResponse 200 (Some Http.application_json)
    (lit "...")
    (Returns (JObj [(lit "signature", JStr (lit "sig1"));
                    (lit "assetId", JStr (lit "id1"))])).

(** A stand-in for the SDK's key check in the examples, which only looks
    at the length: the key texts of the examples are real addresses, of 32
    to 44 characters, and a text of another length is refused. *)
Definition sample_umiPublicKey (text : jsstring) : outcome Error PublicKey :=
  if (32 <=? N.of_nat (length text)) && (N.of_nat (length text) <=? 44)
  then Returns text
  else Throws (mkError (lit "InvalidPublicKeyError")
                 (lit "The provided public key is invalid: " ++ text
                  ++ lit ". Public keys must be between 32 and 44 characters.")).

Definition sample_world (tree : option jsstring) (acct : option Account)
    (adapter : WalletContextState) (sol : option Sol) : World :=
  mkWorld (mkEnv tree None None) acct adapter sol
          (fun _ => Returns proxy_ok)
          sample_umiPublicKey
          (fun _ => Returns [1; 2; 3])
          (mkError (lit "TypeError") (lit "Cannot read properties of null")).

(** The address of the system program, as the tree address. *)
Definition tree1 : option jsstring :=
  Some (lit "11111111111111111111111111111111").
Definition Addr1 : option Account := Some (mkAccount (lit "Addr1")).

Definition params_Foo (force : option bool) : MintCNFTParams :=
  mkParams (lit "Foo") (lit "FOO") None None force.

Definition result1 : MintResult :=
  mkResult (Some (JStr (lit "sig1"))) (Some (JStr (lit "id1"))).

Definition adapter1 : WalletContextState :=
  mkAdapter (Some (lit "So11111111111111111111111111111111111111112"))
            (Some AdapterSigner) (Some AdapterSigner).

End MintSamples.

From Stdlib Require Import Permutation.

(* ================================================================== *)
(** ** The signer built around the Phantom extension                   *)
(* ================================================================== *)

Module PhantomWrapper.
Import JS Effects MintHook.

(** A [Transaction] object, as far as the wrapper reads and writes it. *)
Record Transaction := mkTransaction {
  recentBlockhash : option jsstring;
  feePayer : option PublicKey;
  instructions : N
}.

(** Transactions are objects: the wrapper writes into the ones it is given,
    and an array may hold the same one twice.  A store gives the current
    contents behind each reference. *)
Definition ref := nat.
Definition store := ref -> Transaction.

Definition write (h : store) (r : ref) (tx : Transaction) : store :=
  fun r' => if Nat.eqb r' r then tx else h r'.

(** What the wrapper talks to: the [k]-th call of
    [connection.getLatestBlockhash()] (its [blockhash], or a rejection), the
    extension's [signTransaction], its [signAllTransactions] when it has
    one, and the engine's [TypeError].  The extension returns the signed
    transactions; it is not taken to write into the store. *)
Record Outside := mkOutside {
  getLatestBlockhash : nat -> outcome Error jsstring;
  sol_signTransaction : Transaction -> outcome Error Transaction;
  sol_signAllTransactions :
    option (list Transaction -> outcome Error (list Transaction));
  engineTypeError : Error
}.

(** The store and the number of [getLatestBlockhash] calls made so far. *)
Record State := mkState { txs : store; asked : nat }.

Inductive event : Type :=
| LatestBlockhash
| Sign (tx : Transaction)
| SignAll (batch : list Transaction).

(** The two assignments made for one transaction inside the [try] block.
    The third component is the exception that left the block, if any; what
    was written before it stays written. *)
Definition populate (o : Outside) (sol : Sol) (tx : ref) (s : State)
  : list event * State * option Error :=
  let '(t1, s1, e1) :=
    (* if (!tx.recentBlockhash) *)
    if truthy_str (recentBlockhash (txs s tx)) then ([], s, None)
    else
      match getLatestBlockhash o (asked s) with
      | Returns blockhash =>
          ([LatestBlockhash],
           mkState (write (txs s) tx
                      (mkTransaction (Some blockhash) (feePayer (txs s tx))
                         (instructions (txs s tx))))
                   (S (asked s)),
           None)
      | Throws e => ([LatestBlockhash], mkState (txs s) (S (asked s)), Some e)
      end in
  match e1 with
  | Some e => (t1, s1, Some e)
  | None =>
      (* if (!tx.feePayer) *)
      match feePayer (txs s1 tx) with
      | Some _ => (t1, s1, None)
      | None =>
          (* new PublicKey(sol.publicKey.toString()) *)
          match sol_publicKey sol with
          | Some pk =>
              (t1,
               mkState (write (txs s1) tx
                          (mkTransaction (recentBlockhash (txs s1 tx)) (Some pk)
                             (instructions (txs s1 tx))))
                       (asked s1),
               None)
          | None => (t1, s1, Some (engineTypeError o))
          end
      end
  end.

(** [signTransaction]: the [catch] only warns, then the extension signs. *)
Definition signTransaction (o : Outside) (sol : Sol) (tx : ref) (s : State)
  : list event * State * outcome Error Transaction :=
  let '(t, s1, _) := populate o sol tx s in
  (t ++ [Sign (txs s1 tx)], s1, sol_signTransaction o (txs s1 tx)).

(** The loop of [signAllTransactions] inside its [try] block: the first
    exception ends it. *)
Fixpoint populateAll (o : Outside) (sol : Sol) (l : list ref) (s : State)
  : list event * State * option Error :=
  match l with
  | [] => ([], s, None)
  | tx :: rest =>
      let '(t, s1, e) := populate o sol tx s in
      match e with
      | Some e => (t, s1, Some e)
      | None =>
          let '(t', s2, e') := populateAll o sol rest s1 in
          (t ++ t', s2, e')
      end
  end.

(** The fallback loop: each transaction is signed on its own, in order. *)
Fixpoint signEach (o : Outside) (h : store) (l : list ref)
  : list event * outcome Error (list Transaction) :=
  match l with
  | [] => ([], Returns [])
  | tx :: rest =>
      match sol_signTransaction o (h tx) with
      | Throws e => ([Sign (h tx)], Throws e)
      | Returns signed =>
          let (t, r) := signEach o h rest in
          (Sign (h tx) :: t,
           match r with
           | Returns l' => Returns (signed :: l')
           | Throws e => Throws e
           end)
      end
  end.

Definition signAllTransactions (o : Outside) (sol : Sol) (l : list ref)
    (s : State) : list event * State * outcome Error (list Transaction) :=
  let '(t, s1, _) := populateAll o sol l s in
  match sol_signAllTransactions o with
  | Some signAll =>
      (t ++ [SignAll (map (txs s1) l)], s1, signAll (map (txs s1) l))
  | None =>
      let (t', r) := signEach o (txs s1) l in
      (t ++ t', s1, r)
  end.

Definition is_sign (ev : event) : bool :=
  match ev with Sign _ => true | _ => false end.

Definition is_sign_all (ev : event) : bool :=
  match ev with SignAll _ => true | _ => false end.

Definition is_blockhash_call (ev : event) : bool :=
  match ev with LatestBlockhash => true | _ => false end.

End PhantomWrapper.

Module PhantomSamples.
Import JS Effects MintHook PhantomWrapper.

(** In [s'] every transaction has the instructions it had in [s], every
    truthy [recentBlockhash] and every [feePayer] of [s] is still there, and
    no field that was set has become unset. *)
Definition keeps (s s' : State) : Prop :=
  forall r,
    instructions (txs s' r) = instructions (txs s r)
    /\ (truthy_str (recentBlockhash (txs s r)) = true ->
        recentBlockhash (txs s' r) = recentBlockhash (txs s r))
    /\ (forall pk, feePayer (txs s r) = Some pk -> feePayer (txs s' r) = Some pk)
    /\ (recentBlockhash (txs s r) <> None -> recentBlockhash (txs s' r) <> None).

Definition filled (tx : Transaction) : Prop :=
  recentBlockhash tx <> None /\ feePayer tx <> None.

(** A provider that always answers and an extension that is connected and
    signs by returning the transaction. *)
Definition steady : Outside :=
  mkOutside (fun _ => Returns (lit "hash")) (fun tx => Returns tx) None
            (mkError (lit "TypeError") (lit "Cannot read properties of null")).

Definition offline : Outside :=
  mkOutside (fun _ => Throws (mkError (lit "TypeError") (lit "Failed to fetch")))
            (fun tx => Returns tx) None
            (mkError (lit "TypeError") (lit "Cannot read properties of null")).

Definition batching : Outside :=
  mkOutside (fun _ => Returns (lit "hash")) (fun tx => Returns tx)
            (Some (fun batch => Returns batch))
            (mkError (lit "TypeError") (lit "Cannot read properties of null")).

Definition connected : Sol := mkSol true (Some (lit "P")).

Definition blank : Transaction := mkTransaction None None 7.

Definition ready : Transaction :=
  mkTransaction (Some (lit "old")) (Some (lit "Q")) 9.

(** Reference 0 is blank, every other one is ready. *)
Definition sample_state : State :=
  mkState (fun r => match r with O => blank | _ => ready end) 0.

End PhantomSamples.

(* ================================================================== *)
(** ** The wallet adapter provider                                     *)
(* ================================================================== *)

Module WalletProvider.
Import JS.

Inductive WalletAdapter : Type := PhantomWalletAdapter | SolflareWalletAdapter.

(** The [endpoint] memo of [WalletAdapterProvider]. *)
Definition endpoint (NEXT_PUBLIC_SOLANA_RPC_URL NEXT_PUBLIC_SOLANA_NETWORK : option jsstring)
  : jsstring :=
  let publicRpc := NEXT_PUBLIC_SOLANA_RPC_URL in
  let network :=
    match NEXT_PUBLIC_SOLANA_NETWORK with
    | Some (c :: n) => c :: n
    | _ => lit "devnet"
    end in
  match publicRpc with
  | Some (c :: u) => c :: u
  | _ => lit "https://" ++ network ++ lit ".rpcpool.com"
  end.

Definition wallets : list WalletAdapter :=
  [PhantomWalletAdapter; SolflareWalletAdapter].

Definition autoConnect : bool := true.

End WalletProvider.

(* ================================================================== *)
(** ** The hook in front of the mint proxy                             *)
(* ================================================================== *)

Module EndToEnd.
Import JS Effects.

(** What the browser's [fetch] makes of a handler's [Response].  The text of
    a [JSON.stringify] body is given by [stringify], and reading it back
    gives the value that was written; [parse] reads any other text. *)
Definition as_fetch (stringify : json -> jsstring)
    (parse : jsstring -> outcome Error json) (r : Http.Response)
  : Http.FetchResponse :=
  Http.mkFetchResponse (Http.status r) (Some (Http.content_type r))
    match Http.body r with
    | Http.Text s => s
    | Http.Stringify v => stringify v
    end
    match Http.body r with
    | Http.Text s => parse s
    | Http.Stringify v => Returns v
    end.

(** [fetch('/api/mint-cnft', ...)] answered by the mint proxy's [POST],
    which reads back the payload that was sent. *)
Definition mint_route (stringify : json -> jsstring)
    (parse : jsstring -> outcome Error json) (sv : Http.Server) (payload : json)
  : outcome Error Http.FetchResponse :=
  Returns (as_fetch stringify parse
             (snd (MintProxy.POST sv (Http.mkRequest (Returns payload))))).

(** The world [w], with the mint proxy of server [sv] behind [fetch]. *)
Definition behind_proxy (stringify : json -> jsstring)
    (parse : jsstring -> outcome Error json) (sv : Http.Server)
    (w : MintHook.World) : MintHook.World :=
  MintHook.mkWorld (MintHook.env w) (MintHook.account w)
    (MintHook.walletAdapter w) (MintHook.window_solana w)
    (mint_route stringify parse sv) (MintHook.umiPublicKey w)
    (MintHook.sendAndConfirm w) (MintHook.typeError w).

End EndToEnd.

(* ================================================================== *)
(** ** More providers and worlds for the examples                      *)
(* ================================================================== *)

Module MoreProxySamples.
Import JS Effects Http.
Local Open Scope N_scope.

(** A provider that cannot be reached. *)
Definition offline_server : Server :=
  mkServer (Returns (lit "https://rpc.example/?api-key=k"))
           (fun _ _ => Throws (mkError (lit "TypeError") (lit "fetch failed")))
           (mkError (lit "TypeError") (lit "Cannot read properties of null")).

(** A provider that mints: it answers [200] with a [result]. *)
Definition minting_server : Server :=
  mkServer (Returns (lit "https://rpc.example/?api-key=k"))
           (fun _ _ =>
              Returns (mkFetchResponse 200 (Some application_json) (lit "...")
                         (Returns (JObj [(lit "jsonrpc", JStr (lit "2.0"));
                                         (lit "result",
                                            JObj [(lit "signature", JStr (lit "sig1"));
                                                  (lit "assetId", JStr (lit "id1"))])]))))
           (mkError (lit "TypeError") (lit "Cannot read properties of null")).

(** A provider whose result has a signature and no asset ID. *)
Definition signing_only_server : Server :=
  mkServer (Returns (lit "https://rpc.example/?api-key=k"))
           (fun _ _ =>
              Returns (mkFetchResponse 200 (Some application_json) (lit "...")
                         (Returns (JObj [(lit "result",
                                            JObj [(lit "signature", JStr (lit "sig1"))])]))))
           (mkError (lit "TypeError") (lit "Cannot read properties of null")).

(** Stand-ins for [JSON.stringify] and [JSON.parse] in the examples; the
    facts below hold for any two functions. *)
Definition show (v : json) : jsstring :=
  match String_ v with
  | Some s => s
  | None => []
  end.

Definition no_parse (s : jsstring) : outcome Error json :=
  Throws (mkError (lit "SyntaxError") (lit "Unexpected token")).

End MoreProxySamples.

Module MoreMintSamples.
Import JS Effects MintHook.
Local Open Scope N_scope.

(** The message of the error a call ended with, if it ended with one. *)
Definition message_of_outcome {A} (r : outcome exn A) : option jsstring :=
  match r with
  | Returns _ => None
  | Throws e => Some (message e)
  end.

End MoreMintSamples.

(* ================================================================== *)
(** ** Facts about number rendering and padding                        *)
(* ================================================================== *)

Module JSFacts.
Import JS.
Local Open Scope N_scope.

Lemma digit_value_char (d : N) : d < 36 -> digit_value (digit_char d) = d.
Proof.
  intros Hd. unfold digit_value, digit_char.
  destruct (d <? 10) eqn:E.
  - apply N.ltb_lt in E.
    replace (48 + d <? 58) with true by (symmetry; apply N.ltb_lt; lia). lia.
  - apply N.ltb_ge in E.
    replace (87 + d <? 58) with false by (symmetry; apply N.ltb_ge; lia). lia.
Qed.

(** The digits written in front of [acc] read back as [n]. *)
Lemma digits_fuel_value (radix : N) (Hlo : 2 <= radix) (Hhi : radix <= 36) :
  forall fuel n acc,
    n < 2 ^ N.of_nat fuel ->
    fold_left (fun a c => a * radix + digit_value c) (digits_fuel fuel radix n acc) 0
    = fold_left (fun a c => a * radix + digit_value c) acc n.
Proof.
  induction fuel as [|fuel IH]; intros n acc Hn.
  - simpl in *. assert (n = 0) by lia. now subst.
  - cbn [digits_fuel].
    assert (Hmod : n mod radix < radix) by (apply N.mod_lt; lia).
    destruct (n / radix =? 0) eqn:E.
    + apply N.eqb_eq in E.
      cbn [fold_left]. rewrite digit_value_char by lia.
      f_equal. pose proof (N.div_mod n radix). lia.
    + apply N.eqb_neq in E.
      rewrite IH.
      * cbn [fold_left]. rewrite digit_value_char by lia.
        f_equal. pose proof (N.div_mod n radix). lia.
      * rewrite Nat2N.inj_succ, N.pow_succ_r' in Hn.
        apply N.Div0.div_lt_upper_bound.
        assert (2 * 2 ^ N.of_nat fuel <= radix * 2 ^ N.of_nat fuel)
          by (apply N.mul_le_mono_r; lia).
        lia.
Qed.

(** The fuel of [toString] never runs out: its digits denote [n]. *)
Lemma fromDigits_toString (radix n : N) :
  2 <= radix -> radix <= 36 -> fromDigits radix (toString radix n) = n.
Proof.
  intros Hlo Hhi. unfold fromDigits, toString.
  rewrite digits_fuel_value; auto.
  rewrite Nat2N.inj_succ, N2Nat.id.
  destruct n as [|p]; [cbn; lia|].
  apply N.log2_spec. lia.
Qed.

(** A number below [radix ^ k] has at most [k] digits. *)
Lemma digits_fuel_length (radix : N) (Hlo : 2 <= radix) :
  forall fuel n acc (k : nat),
    (1 <= k)%nat -> n < radix ^ N.of_nat k ->
    (length (digits_fuel fuel radix n acc) <= k + length acc)%nat.
Proof.
  induction fuel as [|fuel IH]; intros n acc k Hk Hn.
  - simpl. lia.
  - cbn [digits_fuel].
    destruct (n / radix =? 0) eqn:E.
    + simpl. lia.
    + apply N.eqb_neq in E.
      destruct k as [|[|k]]; [lia| |].
      * exfalso. apply E. apply N.div_small.
        change (N.of_nat 1) with 1 in Hn. now rewrite N.pow_1_r in Hn.
      * specialize (IH (n / radix) (digit_char (n mod radix) :: acc) (S k)).
        simpl length in IH.
        assert ((1 <= S k)%nat) as H1 by lia.
        assert (n / radix < radix ^ N.of_nat (S k)) as H2.
        { apply N.Div0.div_lt_upper_bound.
          rewrite (Nat2N.inj_succ (S k)), N.pow_succ_r' in Hn. exact Hn. }
        specialize (IH H1 H2). lia.
Qed.

Lemma digits_fuel_nonempty (radix : N) :
  forall fuel n acc, acc <> [] -> digits_fuel fuel radix n acc <> [].
Proof.
  induction fuel as [|fuel IH]; intros n acc Hacc; cbn [digits_fuel].
  - exact Hacc.
  - destruct (n / radix =? 0); [discriminate|]. apply IH. discriminate.
Qed.

Lemma toString_nonempty (radix n : N) : toString radix n <> [].
Proof.
  unfold toString. cbn [digits_fuel].
  destruct (n / radix =? 0); [discriminate|].
  apply digits_fuel_nonempty. discriminate.
Qed.

Lemma toString36_safe_length (n : N) :
  n <= MAX_SAFE_INTEGER ->
  (1 <= length (toString 36 n) <= 11)%nat.
Proof.
  intros Hn. split.
  - pose proof (toString_nonempty 36 n).
    destruct (toString 36 n); [congruence | simpl; lia].
  - unfold toString.
    pose proof (@digits_fuel_length 36 ltac:(lia)
                  (S (N.to_nat (N.log2 n))) n [] 11%nat ltac:(lia)) as H.
    simpl length in H. rewrite Nat.add_0_r in H. apply H.
    unfold MAX_SAFE_INTEGER in Hn.
    eapply N.le_lt_trans; [exact Hn|]. vm_compute. reflexivity.
Qed.

Lemma cycle_length (fill : jsstring) :
  fill <> [] -> forall k cur, length (cycle k fill cur) = k.
Proof.
  intros Hf. induction k as [|k IH]; intros cur; simpl; [reflexivity|].
  destruct cur as [|c cur'].
  - destruct fill as [|c cur']; [congruence|]. simpl. now rewrite IH.
  - simpl. now rewrite IH.
Qed.

(** [padStart] reaches the target length when the text is not longer. *)
Lemma padStart_length (target : nat) (fill s : jsstring) :
  fill <> [] -> (length s <= target)%nat ->
  length (padStart target fill s) = target.
Proof.
  intros Hf Hs. unfold padStart.
  rewrite length_app, cycle_length by assumption. lia.
Qed.

Lemma cycle_single (c : N) : forall k cur,
  Forall (eq c) cur -> cycle k [c] cur = repeat c k.
Proof.
  induction k as [|k IH]; intros cur Hcur; simpl; [reflexivity|].
  destruct cur as [|d cur'].
  - f_equal. apply IH. constructor.
  - inversion Hcur; subst. f_equal. now apply IH.
Qed.

(** With a one-character filler, [padStart] is the filler repeated. *)
Lemma padStart_single (target : nat) (c : N) (s : jsstring) :
  padStart target [c] s = repeat c (target - length s) ++ s.
Proof.
  unfold padStart. rewrite cycle_single; [reflexivity|].
  repeat constructor.
Qed.

End JSFacts.

(* ================================================================== *)
(** ** The metadata stub producer                                      *)
(* ================================================================== *)

Module MetadataFacts.
Import JS MintHook JSFacts.
Local Open Scope N_scope.

Lemma Array_from_cons2 (u v : N) (rest : jsstring) :
  Array_from (u :: v :: rest)
  = if is_high_surrogate u && is_low_surrogate v
    then [u; v] :: Array_from rest
    else [u] :: Array_from (v :: rest).
Proof. reflexivity. Qed.

(** Each element of the string iterator contributes at most one code unit's
    worth, so the sum is bounded by the length of the name. *)
Lemma char_code_sum_bound_aux :
  forall (n : nat) (s : jsstring) (a : N),
    (length s <= n)%nat -> Forall code_unit s ->
    fold_left (fun acc char => acc + charCodeAt0 char) (Array_from s) a
    <= a + 65535 * N.of_nat (length s).
Proof.
  induction n as [|n IH]; intros s a Hlen Hs.
  - destruct s; [simpl; lia | simpl in Hlen; lia].
  - destruct s as [|u [|v rest]].
    + simpl. lia.
    + inversion Hs; subst. unfold code_unit in *. simpl. lia.
    + inversion Hs as [|? ? Hu Hs']; subst.
      rewrite Array_from_cons2.
      destruct (is_high_surrogate u && is_low_surrogate v).
      * cbn [fold_left charCodeAt0].
        inversion Hs'; subst.
        etransitivity; [apply IH; [simpl in Hlen; lia | assumption]|].
        unfold code_unit in Hu. cbn [length]. lia.
      * cbn [fold_left charCodeAt0].
        etransitivity; [apply IH; [simpl in Hlen |- *; lia | assumption]|].
        unfold code_unit in Hu. cbn [length]. lia.
Qed.

(** Every name of at most [2^37] code units has a sum in the range where
    JavaScript adds exactly. *)
Lemma char_code_sum_safe (s : jsstring) :
  Forall code_unit s -> N.of_nat (length s) <= 2 ^ 37 ->
  char_code_sum s <= MAX_SAFE_INTEGER.
Proof.
  intros Hs Hlen. unfold char_code_sum.
  etransitivity; [apply (@char_code_sum_bound_aux (length s)); auto|].
  unfold MAX_SAFE_INTEGER.
  change (2 ^ 53 - 1) with 9007199254740991.
  change (2 ^ 37) with 137438953472 in Hlen. lia.
Qed.

Lemma leading_units_cons2 (u v : N) (rest : jsstring) :
  leading_units (u :: v :: rest)
  = u :: if is_high_surrogate u && is_low_surrogate v
         then leading_units rest
         else leading_units (v :: rest).
Proof. reflexivity. Qed.

(** What [reduce] adds up is the first code of every element of the string
    iterator: the codes of the name but for the second one of each pair. *)
Lemma char_code_sum_leading_aux :
  forall (n : nat) (s : jsstring) (a : N),
    (length s <= n)%nat ->
    fold_left (fun acc char => acc + charCodeAt0 char) (Array_from s) a
    = a + sum_of_character_codes (leading_units s).
Proof.
  induction n as [|n IH]; intros s a Hlen.
  - destruct s; [simpl; lia | simpl in Hlen; lia].
  - destruct s as [|u [|v rest]].
    + simpl. lia.
    + simpl. lia.
    + rewrite Array_from_cons2, leading_units_cons2.
      cbn [length] in Hlen.
      destruct (is_high_surrogate u && is_low_surrogate v);
        cbn [fold_left charCodeAt0 sum_of_character_codes fold_right];
        rewrite IH by (cbn [length]; lia);
        unfold sum_of_character_codes; lia.
Qed.

Lemma char_code_sum_leading (s : jsstring) :
  char_code_sum s = sum_of_character_codes (leading_units s).
Proof.
  unfold char_code_sum.
  rewrite (@char_code_sum_leading_aux (length s) s 0) by lia. lia.
Qed.

Lemma leading_units_no_pair :
  forall (n : nat) (s : jsstring),
    (length s <= n)%nat -> has_surrogate_pair s = false -> leading_units s = s.
Proof.
  induction n as [|n IH]; intros s Hlen Hfree.
  - destruct s; [reflexivity | simpl in Hlen; lia].
  - destruct s as [|u [|v rest]]; [reflexivity | reflexivity |].
    rewrite leading_units_cons2.
    change (has_surrogate_pair (u :: v :: rest))
      with ((is_high_surrogate u && is_low_surrogate v)
            || has_surrogate_pair (v :: rest)) in Hfree.
    apply orb_false_iff in Hfree. destruct Hfree as [Hpair Hrest].
    rewrite Hpair. f_equal. apply IH; [cbn [length] in *; lia | exact Hrest].
Qed.

(** C8, as stated, fails: the name made of the one character U+1F600 has
    the character codes 55357 and 56832, whose sum is 112189, and the segment
    is the rendering of 55357. *)
Lemma uploadMetadata_skips_low_surrogates :
  let params := mkParams [55357; 56832] (lit "FOO") None None None in
  sum_of_character_codes (name params) = 112189
  /\ uploadMetadata params
     = lit "https://arweave.net/" ++ padStart 43 (lit "x") (toString 36 55357)
  /\ uploadMetadata params
     <> lit "https://arweave.net/"
        ++ padStart 43 (lit "x")
             (toString 36 (sum_of_character_codes (name params))).
Proof.
  repeat split. vm_compute. discriminate.
Qed.

(** C8, amended.  [uploadMetadata] is a function of the name alone; its
    result is the fixed prefix [https://arweave.net/] followed by a segment
    of exactly 43 characters, which is a run of ['x'] and then the base-36
    rendering of the sum of the name's character codes in which the second
    code of every surrogate pair is left out; for a name without surrogate
    pairs that is the sum of all its character codes.  The URI has 63
    characters, within the 200 allowed.  The sum is taken in the range where
    JavaScript numbers add without rounding; the statement also covers the
    empty name. *)
Theorem uploadMetadata_deterministic_template (params : MintCNFTParams) :
  let counted := sum_of_character_codes (leading_units (name params)) in
  counted <= MAX_SAFE_INTEGER ->
  let digits := toString 36 counted in
  let segment := repeat 120 (43 - length digits) ++ digits in
  (forall params', name params' = name params ->
                   uploadMetadata params' = uploadMetadata params)
  /\ uploadMetadata params = lit "https://arweave.net/" ++ segment
  /\ fromDigits 36 digits = counted
  /\ length segment = 43%nat
  /\ (length (uploadMetadata params) <= 200)%nat
  /\ (has_surrogate_pair (name params) = false ->
      counted = sum_of_character_codes (name params)).
Proof.
  intros counted Hsafe digits segment.
  pose proof (toString36_safe_length Hsafe) as [Hpos Hlen].
  fold digits in Hpos, Hlen.
  assert (Huri : uploadMetadata params = lit "https://arweave.net/" ++ segment).
  { unfold uploadMetadata. rewrite char_code_sum_leading. f_equal.
    change (lit "x") with [120]. apply padStart_single. }
  assert (Hseg : length segment = 43%nat).
  { unfold segment. rewrite length_app, repeat_length. lia. }
  repeat split.
  - intros params' Hname. unfold uploadMetadata. now rewrite Hname.
  - exact Huri.
  - apply fromDigits_toString; lia.
  - exact Hseg.
  - rewrite Huri, length_app, Hseg. simpl. lia.
  - intros Hfree. unfold counted.
    now rewrite (@leading_units_no_pair (length (name params))).
Qed.

Lemma uploadMetadata_deterministic_template_witness :
  let params := mkParams (lit "Foo") (lit "FOO") None None None in
  sum_of_character_codes (leading_units (name params)) <= MAX_SAFE_INTEGER
  /\ has_surrogate_pair (name params) = false
  /\ sum_of_character_codes (name params) = 292
  /\ uploadMetadata params
     = lit "https://arweave.net/xxxxxxxxxxxxxxxxxxxxxxxxxxxxxxxxxxxxxxxxx84"
  /\ length (uploadMetadata params) = 63%nat.
Proof.
  assert (H : sum_of_character_codes (leading_units (lit "Foo")) <= MAX_SAFE_INTEGER)
    by (vm_compute; discriminate).
  split; [exact H|].
  destruct (@uploadMetadata_deterministic_template
              (mkParams (lit "Foo") (lit "FOO") None None None) H)
    as (_ & Huri & _ & _ & _ & Hsum).
  split; [reflexivity|].
  split; [rewrite <- (Hsum eq_refl); reflexivity|].
  split.
  - rewrite Huri. vm_compute. reflexivity.
  - rewrite Huri. vm_compute. reflexivity.
Defined.

End MetadataFacts.

(* ================================================================== *)
(** ** The two proxy routes                                            *)
(* ================================================================== *)

Module ProxyFacts.
Import JS Effects Http ProxySamples.
Local Open Scope N_scope.

Ltac run_handler :=
  unfold MintProxy.POST, MintProxy.POST_try, RpcProxy.POST, RpcProxy.POST_try,
    destructure, member, fetch_POST;
  unfold try_catch, bind, lift, emit, ret, throw.

Ltac break_match :=
  match goal with
  | |- context [match ?x with _ => _ end] =>
      lazymatch x with
      | context [match _ with _ => _ end] => fail
      | _ => destruct x eqn:?
      end
  end.

Lemma truthyv_absent_or_empty (v : jsval) :
  v = None \/ v = Some (JStr []) -> truthyv v = false.
Proof. intros [-> | ->]; reflexivity. Qed.

(** *** The mint proxy *)

Lemma mint_proxy_falsy_field (sv : Server) (req : NextRequest) (b : json) :
  req_json req = Returns b -> b <> JNull ->
  truthyv (get b (lit "name")) = false
  \/ truthyv (get b (lit "symbol")) = false
  \/ truthyv (get b (lit "owner")) = false ->
  MintProxy.POST sv req = ([], MintProxy.missing_fields).
Proof.
  intros Hb Hnull Hf. run_handler. rewrite Hb.
  assert (negb (truthyv (get b (lit "name")))
          || negb (truthyv (get b (lit "symbol")))
          || negb (truthyv (get b (lit "owner"))) = true) as Hguard.
  { destruct Hf as [H | [H | H]]; rewrite H; simpl;
      rewrite ?orb_true_r; reflexivity. }
  destruct b; try congruence; cbv beta iota; rewrite Hguard; reflexivity.
Qed.

Lemma mint_proxy_no_body (sv : Server) (req : NextRequest) :
  req_json req = Returns JNull \/ (exists e, req_json req = Throws e) ->
  fst (MintProxy.POST sv req) = []
  /\ status (snd (MintProxy.POST sv req)) = 500.
Proof.
  intros [H | [e H]]; run_handler; rewrite H; split; reflexivity.
Qed.

(** The answer to a body that is [null] or is not JSON carries the message
    of what was thrown. *)
Lemma mint_proxy_no_body_answer (sv : Server) (req : NextRequest) :
  (req_json req = Returns JNull ->
   MintProxy.POST sv req
   = ([], error_response 500 (JStr (message_or_String (typeError sv)))))
  /\ (forall e, req_json req = Throws e ->
      MintProxy.POST sv req
      = ([], error_response 500 (JStr (message_or_String e)))).
Proof.
  split; [intros H | intros e H]; run_handler; rewrite H; reflexivity.
Qed.

(** The literal statuses of the handlers' own answers are accepted by the
    [Response] constructor. *)
Lemma literal_statuses_accepted :
  accepts_status 200 = true /\ accepts_status 400 = true
  /\ accepts_status 500 = true /\ accepts_status 502 = true.
Proof. repeat split. Qed.

(** Building the provider call performs no effect; it gives the call or
    throws the engine's [TypeError]. *)
Lemma mint_request_cases (sv : Server)
    (name symbol owner description imageUrl attributes : jsval) :
  (exists payload,
     MintProxy.mint_request sv name symbol owner description imageUrl attributes
     = ([], Returns payload))
  \/ MintProxy.mint_request sv name symbol owner description imageUrl attributes
     = ([], Throws (typeError sv)).
Proof.
  unfold MintProxy.mint_request, MintProxy.description_or_template,
    MintProxy.template, bind, ret, throw.
  destruct description as [d|]; [destruct (truthy d)|];
    destruct (String_v name); eauto.
Qed.

(** C5, as stated, fails: a request whose body is the JSON value [null]
    carries none of the three fields, and the answer is 500, not 400. *)
Lemma mint_proxy_null_body_not_400 :
  let req := mkRequest (Returns JNull) in
  request_field req (lit "name") = None
  /\ status (snd (MintProxy.POST sample_server req)) = 500
  /\ status (snd (MintProxy.POST sample_server req)) <> 400.
Proof. repeat split. discriminate. Qed.

(** C5, amended.  When the body of a mint-proxy POST parses to a JSON value
    other than [null] and any of [name], [symbol], [owner] is missing, the
    response is HTTP 400 with the error body and no request goes upstream;
    when the body is [null] or is not JSON, the response is HTTP 500 with an
    error body, which carries the message of the exception (the engine's
    [TypeError] for [null], the rejection of [req.json()] otherwise), again
    with nothing sent upstream. *)
Theorem mint_proxy_missing_field_400 (sv : Server) (req : NextRequest) :
  request_field req (lit "name") = None
  \/ request_field req (lit "symbol") = None
  \/ request_field req (lit "owner") = None ->
  called_upstream (fst (MintProxy.POST sv req)) = false
  /\ match req_json req with
     | Returns JNull =>
         snd (MintProxy.POST sv req)
         = mkResponse 500 application_json
             (Stringify (JObj [(lit "error",
                JStr (message_or_String (typeError sv)))]))
     | Throws e =>
         snd (MintProxy.POST sv req)
         = mkResponse 500 application_json
             (Stringify (JObj [(lit "error", JStr (message_or_String e))]))
     | Returns _ =>
         snd (MintProxy.POST sv req)
         = mkResponse 400 application_json
             (Stringify (JObj [(lit "error",
                JStr (lit "Missing required fields: name, symbol, owner"))]))
     end.
Proof.
  intros Hmiss. unfold request_field in Hmiss.
  destruct (mint_proxy_no_body_answer sv req) as [Hnone Hthrown].
  destruct (req_json req) as [b | e] eqn:Hb.
  - assert (Hnull : b = JNull \/ b <> JNull)
      by (destruct b; (now left) || (right; discriminate)).
    destruct Hnull as [-> | Hnull].
    + rewrite (Hnone eq_refl). split; reflexivity.
    + rewrite (@mint_proxy_falsy_field sv req b Hb Hnull).
      * split; [reflexivity|]. destruct b; try congruence; reflexivity.
      * destruct Hmiss as [H | [H | H]]; rewrite H; auto.
  - rewrite (Hthrown e eq_refl). split; reflexivity.
Qed.

Lemma mint_proxy_missing_field_400_witness :
  let req := mkRequest (Returns (JObj [(lit "name", JStr (lit "Foo"));
                                       (lit "symbol", JStr (lit "FOO"))])) in
  let nothing := mkRequest (Returns JNull) in
  (request_field req (lit "owner") = None
   /\ called_upstream (fst (MintProxy.POST sample_server req)) = false
   /\ snd (MintProxy.POST sample_server req) = MintProxy.missing_fields)
  /\ (request_field nothing (lit "owner") = None
      /\ called_upstream (fst (MintProxy.POST sample_server nothing)) = false
      /\ snd (MintProxy.POST sample_server nothing)
         = mkResponse 500 application_json
             (Stringify (JObj [(lit "error",
                JStr (lit "Cannot destructure property of null"))]))).
Proof.
  set (req := mkRequest (Returns (JObj [(lit "name", JStr (lit "Foo"));
                                        (lit "symbol", JStr (lit "FOO"))]))).
  set (nothing := mkRequest (Returns JNull)).
  assert (H : request_field req (lit "owner") = None) by reflexivity.
  assert (H' : request_field nothing (lit "owner") = None) by reflexivity.
  split; (split; [assumption|]).
  - exact (@mint_proxy_missing_field_400 sample_server req
             (or_intror (or_intror H))).
  - exact (@mint_proxy_missing_field_400 sample_server nothing
             (or_intror (or_intror H'))).
Defined.

(** The handler called the provider exactly when the body is a JSON value
    other than [null] with truthy [name], [symbol] and [owner], the provider
    URL was available and the provider call could be built. *)
Lemma mint_proxy_called_inv (sv : Server) (req : NextRequest) :
  called_upstream (fst (MintProxy.POST sv req)) = true ->
  exists b endpoint payload,
    req_json req = Returns b /\ b <> JNull
    /\ truthyv (get b (lit "name")) = true
    /\ truthyv (get b (lit "symbol")) = true
    /\ truthyv (get b (lit "owner")) = true
    /\ getHeliusRpcUrl sv = Returns endpoint
    /\ MintProxy.mint_request sv (get b (lit "name")) (get b (lit "symbol"))
         (get b (lit "owner")) (get b (lit "description"))
         (get b (lit "imageUrl")) (get b (lit "attributes"))
       = ([], Returns payload).
Proof.
  intros Hcall.
  destruct (req_json req) as [b | e] eqn:Hb.
  - assert (Hnull : b = JNull \/ b <> JNull)
      by (destruct b; (now left) || (right; discriminate)).
    destruct Hnull as [-> | Hnull].
    + destruct (@mint_proxy_no_body sv req) as [Ht _]; [now left|].
      rewrite Ht in Hcall. discriminate.
    + destruct (truthyv (get b (lit "name"))) eqn:Hn;
        [| rewrite (@mint_proxy_falsy_field sv req b) in Hcall; auto; discriminate].
      destruct (truthyv (get b (lit "symbol"))) eqn:Hs;
        [| rewrite (@mint_proxy_falsy_field sv req b) in Hcall; auto; discriminate].
      destruct (truthyv (get b (lit "owner"))) eqn:Ho;
        [| rewrite (@mint_proxy_falsy_field sv req b) in Hcall; auto; discriminate].
      destruct (getHeliusRpcUrl sv) as [endpoint | e] eqn:Hurl.
      * destruct (mint_request_cases sv (get b (lit "name")) (get b (lit "symbol"))
                    (get b (lit "owner")) (get b (lit "description"))
                    (get b (lit "imageUrl")) (get b (lit "attributes")))
          as [[payload Hp] | Hthrow].
        -- exists b, endpoint, payload. repeat split; auto.
        -- exfalso. revert Hcall. run_handler. rewrite Hb, Hurl.
           destruct b; try congruence; cbv beta iota;
             rewrite Hn, Hs, Ho, Hthrow; discriminate.
      * exfalso. revert Hcall. run_handler. rewrite Hb, Hurl.
        destruct b; try congruence; cbv beta iota;
          rewrite Hn, Hs, Ho; discriminate.
  - destruct (@mint_proxy_no_body sv req) as [Ht _]; [right; eauto|].
    rewrite Ht in Hcall. discriminate.
Qed.

(** What the handler does once the guard has passed and the provider call
    is built. *)
Lemma mint_proxy_after_guard (sv : Server) (req : NextRequest) (b : json)
    (endpoint : jsstring) (payload : json) :
  req_json req = Returns b -> b <> JNull ->
  truthyv (get b (lit "name")) = true ->
  truthyv (get b (lit "symbol")) = true ->
  truthyv (get b (lit "owner")) = true ->
  getHeliusRpcUrl sv = Returns endpoint ->
  MintProxy.mint_request sv (get b (lit "name")) (get b (lit "symbol"))
    (get b (lit "owner")) (get b (lit "description"))
    (get b (lit "imageUrl")) (get b (lit "attributes"))
  = ([], Returns payload) ->
  fst (MintProxy.POST sv req) = [Fetch endpoint payload]
  /\ forall resp, fetch sv endpoint payload = Returns resp ->
       (ok resp = false ->
        snd (MintProxy.POST sv req)
        = error_response 502
            (JStr (lit "Helius error: " ++ toString 10 (resp_status resp)
                   ++ lit " - " ++ resp_text resp)))
       /\ (ok resp = true ->
           forall data e,
             resp_json resp = Returns data ->
             get data (lit "error") = Some e -> truthy e = true ->
             snd (MintProxy.POST sv req) = error_response 502 e).
Proof.
  intros Hb Hnull Hn Hs Ho Hurl Hp.
  run_handler. rewrite Hb.
  destruct b; try (simpl in Hn; discriminate Hn).
  cbv beta iota. rewrite Hn, Hs, Ho. cbn [negb orb].
  rewrite Hurl. cbv beta iota. rewrite Hp. cbv beta iota. rewrite ?app_nil_l.
  destruct (fetch sv endpoint payload) as [resp | e] eqn:Hf.
  - split.
    + repeat break_match; reflexivity.
    + intros resp' Hresp'. inversion Hresp'; subst resp'. split.
      * intros Hok. rewrite Hok. reflexivity.
      * intros Hok data e Hdata Herr Htr. rewrite Hok, Hdata. cbn [negb].
        destruct data; try discriminate.
        cbv beta iota. rewrite Herr. cbn [truthyv]. rewrite Htr. reflexivity.
  - split; [reflexivity|]. intros resp Hresp. discriminate.
Qed.

(** When the provider call cannot be built, nothing is sent and the answer
    is the 500 of the catch-all. *)
Lemma mint_proxy_unbuilt (sv : Server) (req : NextRequest) (b : json)
    (endpoint : jsstring) (e : Error) :
  req_json req = Returns b -> b <> JNull ->
  truthyv (get b (lit "name")) = true ->
  truthyv (get b (lit "symbol")) = true ->
  truthyv (get b (lit "owner")) = true ->
  getHeliusRpcUrl sv = Returns endpoint ->
  MintProxy.mint_request sv (get b (lit "name")) (get b (lit "symbol"))
    (get b (lit "owner")) (get b (lit "description"))
    (get b (lit "imageUrl")) (get b (lit "attributes"))
  = ([], Throws e) ->
  MintProxy.POST sv req = ([], error_response 500 (JStr (message_or_String e))).
Proof.
  intros Hb Hnull Hn Hs Ho Hurl Hp.
  run_handler. rewrite Hb.
  destruct b; try (simpl in Hn; discriminate Hn).
  cbv beta iota. rewrite Hn, Hs, Ho. cbn [negb orb].
  rewrite Hurl. cbv beta iota. rewrite Hp. reflexivity.
Qed.

(** C6.  Whenever the mint proxy has called the provider, it has sent one
    request; if the provider's HTTP status is not a success the response is
    HTTP 502 and its error text holds the upstream status and body; if the
    status is a success and the JSON answer has an [error] field (any
    truthy value, as every JSON-RPC error object is), the response is HTTP
    502 with that error. *)
Theorem mint_proxy_upstream_failure_502 (sv : Server) (req : NextRequest) :
  called_upstream (fst (MintProxy.POST sv req)) = true ->
  exists endpoint payload,
    fst (MintProxy.POST sv req) = [Fetch endpoint payload]
    /\ forall resp, fetch sv endpoint payload = Returns resp ->
         (ok resp = false ->
          snd (MintProxy.POST sv req)
          = mkResponse 502 application_json
              (Stringify (JObj [(lit "error",
                 JStr (lit "Helius error: " ++ toString 10 (resp_status resp)
                       ++ lit " - " ++ resp_text resp))])))
         /\ (ok resp = true ->
             forall data e,
               resp_json resp = Returns data ->
               get data (lit "error") = Some e -> truthy e = true ->
               snd (MintProxy.POST sv req)
               = mkResponse 502 application_json
                   (Stringify (JObj [(lit "error", e)]))).
Proof.
  intros Hcall.
  destruct (mint_proxy_called_inv _ _ Hcall)
    as (b & endpoint & payload & Hb & Hnull & Hn & Hs & Ho & Hurl & Hp).
  exists endpoint, payload.
  exact (mint_proxy_after_guard sv req Hb Hnull Hn Hs Ho Hurl Hp).
Qed.

Lemma mint_proxy_upstream_failure_502_witness :
  called_upstream (fst (MintProxy.POST failing_server mint_request_Foo)) = true
  /\ snd (MintProxy.POST failing_server mint_request_Foo)
     = mkResponse 502 application_json
         (Stringify (JObj [(lit "error", JStr (lit "Helius error: 503 - down"))]))
  /\ called_upstream (fst (MintProxy.POST rejecting_server mint_request_Foo)) = true
  /\ snd (MintProxy.POST rejecting_server mint_request_Foo)
     = mkResponse 502 application_json (Stringify (JObj [(lit "error", rpc_error)])).
Proof.
  assert (H1 : called_upstream
                 (fst (MintProxy.POST failing_server mint_request_Foo)) = true)
    by reflexivity.
  assert (H2 : called_upstream
                 (fst (MintProxy.POST rejecting_server mint_request_Foo)) = true)
    by reflexivity.
  split; [exact H1|]. split; [|split; [exact H2|]].
  - destruct (mint_proxy_upstream_failure_502 _ _ H1)
      as (endpoint & payload & Ht & Hresp).
    injection Ht as <- <-.
    destruct (Hresp _ eq_refl) as [Hdown _].
    rewrite (Hdown eq_refl). reflexivity.
  - destruct (mint_proxy_upstream_failure_502 _ _ H2)
      as (endpoint & payload & Ht & Hresp).
    injection Ht as <- <-.
    destruct (Hresp _ eq_refl) as [_ Herr].
    apply (Herr eq_refl _ rpc_error eq_refl); reflexivity.
Defined.

(** *** The RPC proxy *)

Lemma rpc_proxy_falsy_method (sv : Server) (req : NextRequest) (b : json) :
  req_json req = Returns b -> b <> JNull ->
  truthyv (get b (lit "method")) = false ->
  RpcProxy.POST sv req = ([], RpcProxy.missing_method).
Proof.
  intros Hb Hnull Hf. run_handler. rewrite Hb.
  destruct b; try congruence; cbv beta iota; rewrite Hf; reflexivity.
Qed.

Lemma rpc_proxy_no_body (sv : Server) (req : NextRequest) :
  req_json req = Returns JNull \/ (exists e, req_json req = Throws e) ->
  fst (RpcProxy.POST sv req) = []
  /\ status (snd (RpcProxy.POST sv req)) = 500.
Proof.
  intros [H | [e H]]; run_handler; rewrite H; split; reflexivity.
Qed.

(** The statuses [101] and [103] are refused for being below [200]. *)
Lemma accepts_status_range (n : N) :
  accepts_status n
  = (200 <=? n) && (n <=? 599)
    && negb ((n =? 204) || (n =? 205) || (n =? 304)).
Proof.
  unfold accepts_status, null_body_status.
  destruct (200 <=? n) eqn:Hlo; [|reflexivity].
  apply N.leb_le in Hlo.
  replace (n =? 101) with false by (symmetry; apply N.eqb_neq; lia).
  replace (n =? 103) with false by (symmetry; apply N.eqb_neq; lia).
  reflexivity.
Qed.

(** What the handler does once [method] is truthy and the provider URL is
    there: one request, then the provider's answer in a new [Response] when
    the constructor takes its status, and the 500 of the catch-all when it
    does not or when [fetch] rejects. *)
Lemma rpc_proxy_after_guard (sv : Server) (req : NextRequest) (b : json)
    (endpoint : jsstring) :
  req_json req = Returns b -> b <> JNull ->
  truthyv (get b (lit "method")) = true ->
  getHeliusRpcUrl sv = Returns endpoint ->
  let forwarded := RpcProxy.envelope (get b (lit "method")) (get b (lit "params")) in
  RpcProxy.POST sv req
  = ([Fetch endpoint forwarded],
     match fetch sv endpoint forwarded with
     | Returns resp =>
         if accepts_status (resp_status resp)
         then mkResponse (resp_status resp)
                match resp_content_type resp with
                | Some (c :: ct) => c :: ct
                | _ => application_json
                end
                (Text (resp_text resp))
         else error_response 500 (JStr (message_or_String (typeError sv)))
     | Throws err => error_response 500 (JStr (message_or_String err))
     end).
Proof.
  intros Hb Hnull Ht Hurl forwarded.
  run_handler. unfold new_Response, ret, throw. rewrite Hb.
  destruct b; try congruence; cbv beta iota; rewrite Ht; cbn [negb];
    rewrite Hurl; cbv beta iota; fold forwarded;
    (destruct (fetch sv endpoint forwarded) as [resp | err];
     [destruct (accepts_status (resp_status resp))|]; reflexivity).
Qed.

(** C7, as stated, fails three times.  A body that is the JSON value [null]
    has no [method] field and is answered with 500, not 400.  A body whose
    [method] field is there but is the empty string is answered with 400:
    nothing is forwarded and the provider's answer (200 here) is not what
    the caller gets.  And when the provider answers [204], the request is
    forwarded but the caller gets 500: a [Response] with a body cannot carry
    that status. *)
Lemma rpc_proxy_claim_fails :
  (request_field rpc_request_null (lit "method") = None
   /\ status (snd (RpcProxy.POST sample_server rpc_request_null)) <> 400)
  /\ (request_field rpc_request_empty_method (lit "method") = Some (JStr [])
      /\ fst (RpcProxy.POST sample_server rpc_request_empty_method) = []
      /\ status (snd (RpcProxy.POST sample_server rpc_request_empty_method)) = 400
      /\ forall endpoint payload resp,
           fetch sample_server endpoint payload = Returns resp ->
           status (snd (RpcProxy.POST sample_server rpc_request_empty_method))
           <> resp_status resp)
  /\ (request_field rpc_request_getAsset (lit "method") = Some (JStr (lit "getAsset"))
      /\ (forall endpoint payload,
            exists resp, fetch silent_server endpoint payload = Returns resp
                         /\ resp_status resp = 204)
      /\ called_upstream (fst (RpcProxy.POST silent_server rpc_request_getAsset)) = true
      /\ status (snd (RpcProxy.POST silent_server rpc_request_getAsset)) = 500).
Proof.
  repeat split; try discriminate.
  - intros endpoint payload resp Hresp. inversion Hresp. discriminate.
  - intros endpoint payload. eexists. split; reflexivity.
Qed.

(** C7, amended.  For an RPC-proxy POST whose body parses to a JSON value
    other than [null]: when [method] is absent or falsy the response is the
    HTTP 400 one and nothing is forwarded; when [method] is truthy and the
    provider URL is available, exactly one request is forwarded, it is the
    JSON-RPC 2.0 envelope with [id] ["proxy"] and the [method] and [params]
    of the body; when the provider responds with a status that a [Response]
    with a body can carry (200 to 599, other than 204, 205 and 304), its
    text and status are the body and status of the response; with any other
    status the response is HTTP 500 with an error body. *)
Theorem rpc_proxy_forwarding (sv : Server) (req : NextRequest) (b : json) :
  req_json req = Returns b -> b <> JNull ->
  (truthyv (get b (lit "method")) = false ->
   RpcProxy.POST sv req = ([], RpcProxy.missing_method)
   /\ status RpcProxy.missing_method = 400)
  /\ (truthyv (get b (lit "method")) = true ->
      forall endpoint, getHeliusRpcUrl sv = Returns endpoint ->
      let forwarded := RpcProxy.envelope (get b (lit "method")) (get b (lit "params")) in
      fst (RpcProxy.POST sv req) = [Fetch endpoint forwarded]
      /\ get forwarded (lit "jsonrpc") = Some (JStr (lit "2.0"))
      /\ get forwarded (lit "id") = Some (JStr (lit "proxy"))
      /\ get forwarded (lit "method") = get b (lit "method")
      /\ get forwarded (lit "params") = get b (lit "params")
      /\ forall resp, fetch sv endpoint forwarded = Returns resp ->
           (((200 <=? resp_status resp) && (resp_status resp <=? 599)
             && negb ((resp_status resp =? 204) || (resp_status resp =? 205)
                      || (resp_status resp =? 304)) = true ->
             status (snd (RpcProxy.POST sv req)) = resp_status resp
             /\ body (snd (RpcProxy.POST sv req)) = Text (resp_text resp))
            /\ ((200 <=? resp_status resp) && (resp_status resp <=? 599)
                && negb ((resp_status resp =? 204) || (resp_status resp =? 205)
                         || (resp_status resp =? 304)) = false ->
                snd (RpcProxy.POST sv req)
                = mkResponse 500 application_json
                    (Stringify (JObj [(lit "error",
                       JStr (message_or_String (typeError sv)))]))))).
Proof.
  intros Hb Hnull. split.
  - intros Hf. split; [|reflexivity]. now apply rpc_proxy_falsy_method with b.
  - intros Ht endpoint Hurl forwarded.
    pose proof (rpc_proxy_after_guard sv req Hb Hnull Ht Hurl) as Hrun.
    cbv zeta in Hrun. fold forwarded in Hrun.
    split; [rewrite Hrun; reflexivity|].
    assert (Hlast : forall resp, fetch sv endpoint forwarded = Returns resp ->
              (accepts_status (resp_status resp) = true ->
               status (snd (RpcProxy.POST sv req)) = resp_status resp
               /\ body (snd (RpcProxy.POST sv req)) = Text (resp_text resp))
              /\ (accepts_status (resp_status resp) = false ->
                  snd (RpcProxy.POST sv req)
                  = error_response 500 (JStr (message_or_String (typeError sv))))).
    { intros resp Hresp. rewrite Hrun, Hresp.
      split; intros Hacc; rewrite Hacc; [split|]; reflexivity. }
    pose proof accepts_status_range as Hacc.
    clear Hrun. revert Hlast. generalize (RpcProxy.POST sv req). intros post Hlast.
    unfold forwarded in *. clear forwarded.
    destruct (get b (lit "method")) as [m|]; [|discriminate].
    repeat split; try reflexivity;
      try (rewrite <- Hacc in *; apply Hlast; assumption).
    destruct (get b (lit "params")); reflexivity.
Qed.

Lemma rpc_proxy_forwarding_witness :
  fst (RpcProxy.POST sample_server rpc_request_getAsset)
  = [Fetch (lit "https://rpc.example/?api-key=k")
       (JObj [(lit "jsonrpc", JStr (lit "2.0"));
              (lit "id", JStr (lit "proxy"));
              (lit "method", JStr (lit "getAsset"));
              (lit "params", JObj [(lit "id", JStr (lit "id1"))])])]
  /\ status (snd (RpcProxy.POST sample_server rpc_request_getAsset)) = 200
  /\ body (snd (RpcProxy.POST sample_server rpc_request_getAsset)) = Text (lit "{}")
  /\ RpcProxy.POST sample_server (mkRequest (Returns (JObj [])))
     = ([], RpcProxy.missing_method)
  /\ snd (RpcProxy.POST silent_server rpc_request_getAsset)
     = mkResponse 500 application_json
         (Stringify (JObj [(lit "error",
            JStr (lit "Response constructor: Invalid response status code 204"))])).
Proof.
  destruct (@rpc_proxy_forwarding sample_server rpc_request_getAsset _ eq_refl
              ltac:(discriminate)) as [_ Hfwd].
  destruct (Hfwd eq_refl _ eq_refl) as (Ht & _ & _ & _ & _ & Hresp).
  destruct (Hresp _ eq_refl) as [Hpass _].
  destruct (Hpass eq_refl) as [Hstatus Hbody].
  destruct (@rpc_proxy_forwarding sample_server (mkRequest (Returns (JObj []))) _
              eq_refl ltac:(discriminate)) as [Hbad _].
  destruct (@rpc_proxy_forwarding silent_server rpc_request_getAsset _ eq_refl
              ltac:(discriminate)) as [_ Hsilent].
  destruct (Hsilent eq_refl _ eq_refl) as (_ & _ & _ & _ & _ & Hresp').
  destruct (Hresp' _ eq_refl) as [_ Hrefused].
  split; [exact Ht|]. split; [exact Hstatus|]. split; [exact Hbody|].
  split; [exact (proj1 (Hbad eq_refl))|].
  exact (Hrefused eq_refl).
Defined.

(** *** Empty strings at both routes *)

(** C10.  A mint-proxy POST whose [name], [symbol] or [owner] is the empty
    string, and an RPC-proxy POST whose [method] is the empty string, are
    answered with HTTP 400 and nothing is sent upstream; the response is the
    very one a request gets that lacks the field. *)
Theorem empty_string_like_absent (sv : Server) (req : NextRequest) (b : json) :
  req_json req = Returns b ->
  (get b (lit "name") = Some (JStr [])
   \/ get b (lit "symbol") = Some (JStr [])
   \/ get b (lit "owner") = Some (JStr []) ->
   MintProxy.POST sv req = ([], MintProxy.missing_fields)
   /\ status MintProxy.missing_fields = 400
   /\ forall req' b',
        req_json req' = Returns b' -> b' <> JNull ->
        get b' (lit "name") = None \/ get b' (lit "symbol") = None
        \/ get b' (lit "owner") = None ->
        MintProxy.POST sv req' = MintProxy.POST sv req)
  /\ (get b (lit "method") = Some (JStr []) ->
      RpcProxy.POST sv req = ([], RpcProxy.missing_method)
      /\ status RpcProxy.missing_method = 400
      /\ forall req' b',
           req_json req' = Returns b' -> b' <> JNull ->
           get b' (lit "method") = None ->
           RpcProxy.POST sv req' = RpcProxy.POST sv req).
Proof.
  intros Hb. split.
  - intros Hempty.
    assert (Hnull : b <> JNull)
      by (intros ->; destruct Hempty as [H | [H | H]]; discriminate H).
    assert (Hpost : MintProxy.POST sv req = ([], MintProxy.missing_fields)).
    { apply mint_proxy_falsy_field with b; auto.
      destruct Hempty as [H | [H | H]]; rewrite H; auto. }
    split; [exact Hpost|]. split; [reflexivity|].
    intros req' b' Hb' Hnull' Habs. rewrite Hpost.
    apply mint_proxy_falsy_field with b'; auto.
    destruct Habs as [H | [H | H]]; rewrite H; auto.
  - intros Hempty.
    assert (Hnull : b <> JNull) by (intros ->; discriminate Hempty).
    assert (Hpost : RpcProxy.POST sv req = ([], RpcProxy.missing_method)).
    { apply rpc_proxy_falsy_method with b; auto. now rewrite Hempty. }
    split; [exact Hpost|]. split; [reflexivity|].
    intros req' b' Hb' Hnull' Habs. rewrite Hpost.
    apply rpc_proxy_falsy_method with b'; auto. now rewrite Habs.
Qed.

Lemma empty_string_like_absent_witness :
  MintProxy.POST sample_server
    (mkRequest (Returns (JObj [(lit "name", JStr (lit "Foo"));
                               (lit "symbol", JStr []);
                               (lit "owner", JStr (lit "Addr1"))])))
  = ([], MintProxy.missing_fields)
  /\ RpcProxy.POST sample_server rpc_request_empty_method
     = ([], RpcProxy.missing_method).
Proof.
  split.
  - exact (proj1 (proj1 (@empty_string_like_absent sample_server
                           (mkRequest (Returns (JObj [(lit "name", JStr (lit "Foo"));
                                                      (lit "symbol", JStr []);
                                                      (lit "owner", JStr (lit "Addr1"))])))
                           _ eq_refl)
                    (or_intror (or_introl eq_refl)))).
  - exact (proj1 (proj2 (@empty_string_like_absent sample_server
                           rpc_request_empty_method _ eq_refl)
                    eq_refl)).
Defined.

End ProxyFacts.

(* ================================================================== *)
(** ** The mint orchestrator                                           *)
(* ================================================================== *)

Module MintHookFacts.
Import JS Effects MintHook MintSamples.
Local Open Scope N_scope.

Ltac run_hook :=
  unfold mutate, mutationFn, mode1, mode2, resolveAdapter, phantomAdapter,
    mintWithExistingTree, mintWithHeliusAPI, onSuccess, foreign;
  unfold bind, lift, emit, ret, throw.

Ltac split_match :=
  match goal with
  | |- context [match ?x with _ => _ end] =>
      lazymatch x with
      | context [match _ with _ => _ end] => fail
      | _ => destruct x eqn:?
      end
  end.

(** Returning the value just computed changes nothing. *)
Lemma bind_early_return {A B : Type} (m : M A) (k : B -> M A) :
  bind (bind m (fun r => ret (inl r)))
       (fun x : A + B => match x with inl r => ret r | inr b => k b end)
  = m.
Proof.
  destruct m as [t [a | e]]; unfold bind, ret; simpl;
    rewrite ?app_nil_r; reflexivity.
Qed.

(** The server mint performs exactly one effect: the call of the mint
    proxy, with the given address as [owner]. *)
Lemma mintWithHeliusAPI_trace (w : World) (params : MintCNFTParams)
    (addr : jsstring) :
  fst (mintWithHeliusAPI w params addr)
  = [FetchMintProxy (mint_proxy_payload params addr)].
Proof.
  run_hook. repeat split_match; reflexivity.
Qed.

Lemma mintWithHeliusAPI_not_tree_error (w : World) (params : MintCNFTParams)
    (addr : jsstring) :
  snd (mintWithHeliusAPI w params addr) <> Throws TreeNotConfigured.
Proof.
  run_hook. repeat split_match; simpl; discriminate.
Qed.

Lemma mintWithExistingTree_configured (w : World) (params : MintCNFTParams)
    (c : Connection) (adapter : WalletContextState) :
  configuredTree w = true ->
  snd (mintWithExistingTree w params c adapter) <> Throws TreeNotConfigured.
Proof.
  unfold configuredTree, truthy_str. intros Hcfg. run_hook.
  destruct (NEXT_PUBLIC_MERKLE_TREE_ADDRESS (env w)) as [[|u tree]|];
    try discriminate.
  repeat split_match; simpl; discriminate.
Qed.

Lemma mode2_trace (w : World) (params : MintCNFTParams) :
  existsb is_chain_call (fst (mode2 w params)) = false.
Proof.
  unfold mode2. destruct (account_address w); [|reflexivity].
  rewrite mintWithHeliusAPI_trace. reflexivity.
Qed.

(** The user-signed mint reaches the network at most once, through the
    SDK. *)
Lemma mintWithExistingTree_trace (w : World) (params : MintCNFTParams)
    (c : Connection) (adapter : WalletContextState) :
  (length (filter is_network_call
             (fst (mintWithExistingTree w params c adapter))) <= 1)%nat.
Proof.
  run_hook. repeat split_match; simpl; lia.
Qed.

(** A mint call reaches the network at most once: it never runs the two
    strategies one after the other. *)
Lemma mutationFn_one_network_call (w : World) (params : MintCNFTParams) :
  (length (filter is_network_call (fst (mutationFn w params))) <= 1)%nat.
Proof.
  assert (Hserver : forall addr,
             (length (filter is_network_call
                        (fst (mintWithHeliusAPI w params addr))) <= 1)%nat)
    by (intros addr; rewrite mintWithHeliusAPI_trace; simpl; lia).
  assert (Hmode2 : (length (filter is_network_call (fst (mode2 w params))) <= 1)%nat).
  { unfold mode2. destruct (account_address w); [apply Hserver | simpl; lia]. }
  unfold mutationFn.
  destruct (useExistingTree (configuredTree w) (forced params)); [|exact Hmode2].
  unfold mode1, resolveAdapter, phantomAdapter.
  destruct (publicKey (walletAdapter w)).
  - unfold bind, ret. cbn [app].
    destruct (signTransaction (walletAdapter w)); [|simpl; lia].
    pose proof (mintWithExistingTree_trace w params connection (walletAdapter w)).
    destruct (mintWithExistingTree w params connection (walletAdapter w)).
    exact H.
  - destruct (match window_solana w with
              | Some sol => if isPhantom sol then Some sol else None
              | None => None
              end) as [sol|].
    + destruct (sol_publicKey sol) as [pk|]; [|simpl; lia].
      unfold bind, ret. cbn [app signTransaction].
      pose proof (mintWithExistingTree_trace w params connection
                    (mkAdapter (Some pk) (Some PhantomForwarder)
                       (Some PhantomForwarder))).
      destruct (mintWithExistingTree w params connection _). exact H.
    + destruct (account_address w) as [addr|]; [|simpl; lia].
      rewrite bind_early_return. apply Hserver.
Qed.

(** C1.  The strategy is a function of the two booleans
    (tree-address-configured, force-fallback): it is the user-signed one
    exactly when a tree is configured and the fallback is not forced, and the
    server-signed one in the three other cases.  A mint call is that one
    dispatch: it is mode 1 of the hook under the user-signed strategy and
    mode 2 under the server-signed one; under the server-signed strategy
    the transaction SDK is never reached, and no call reaches the network
    more than once. *)
Theorem strategy_selection (w : World) (params : MintCNFTParams) :
  let s := selectStrategy (configuredTree w) (forced params) in
  (s = UserSignedStrategy <-> configuredTree w = true /\ forced params = false)
  /\ (s = ServerSignedStrategy <->
      ~ (configuredTree w = true /\ forced params = false))
  /\ (selectStrategy true false = UserSignedStrategy
      /\ selectStrategy true true = ServerSignedStrategy
      /\ selectStrategy false false = ServerSignedStrategy
      /\ selectStrategy false true = ServerSignedStrategy)
  /\ mutationFn w params
     = match s with
       | UserSignedStrategy => mode1 w params
       | ServerSignedStrategy => mode2 w params
       end
  /\ (s = ServerSignedStrategy ->
      existsb is_chain_call (fst (mutationFn w params)) = false)
  /\ (length (filter is_network_call (fst (mutationFn w params))) <= 1)%nat.
Proof.
  pose proof (mutationFn_one_network_call w params) as Hone. revert Hone.
  unfold mutationFn, selectStrategy, useExistingTree.
  destruct (configuredTree w), (forced params); cbn [andb negb];
    intros Hone; repeat split; intros; try reflexivity; try discriminate;
    try exact Hone;
    try (apply mode2_trace);
    try (intuition discriminate).
Qed.

(** *** The success notification *)

(** Whenever a tree address is configured, [onSuccess] shows the note of the
    user-signed path, whatever the mint returned. *)
Lemma onSuccess_configured (w : World) (data : MintResult) :
  configuredTree w = true ->
  success_descriptions (fst (onSuccess w data)) = [mock_metadata_note].
Proof.
  intros Hcfg. unfold onSuccess. rewrite Hcfg. reflexivity.
Qed.

(** C2, on the code.  With a tree address configured, a mint that went
    through the mint proxy (because the caller forced the fallback, or
    because no signer was found and the account address was used) succeeds
    with the proxy's result, and the notification shown is the one of the
    user-signed path: it says the user signed and paid, and it does not
    carry the asset ID.  Without a configured tree the same mint is
    announced with ["Asset ID: id1..."]. *)
Theorem success_message_ignores_strategy :
  let forced_run :=
    mutate (sample_world tree1 Addr1 no_adapter None) (params_Foo (Some true)) in
  let rerouted_run :=
    mutate (sample_world tree1 Addr1 no_adapter None) (params_Foo None) in
  let plain_run :=
    mutate (sample_world None Addr1 no_adapter None) (params_Foo None) in
  (snd forced_run = Returns result1
   /\ strategy_used (fst forced_run) = Some ServerSignedStrategy
   /\ success_descriptions (fst forced_run) = [mock_metadata_note]
   /\ includes mock_metadata_note (lit "Asset ID") = false)
  /\ (snd rerouted_run = Returns result1
      /\ strategy_used (fst rerouted_run) = Some ServerSignedStrategy
      /\ success_descriptions (fst rerouted_run) = [mock_metadata_note])
  /\ (snd plain_run = Returns result1
      /\ strategy_used (fst plain_run) = Some ServerSignedStrategy
      /\ success_descriptions (fst plain_run) = [lit "Asset ID: id1..."]).
Proof.
  vm_compute. repeat split.
Qed.

(** *** The last resort of mode 1 *)

(** C3.  Under the user-signed strategy, with no public key on the wallet
    adapter and no Phantom extension in the window, an account address known
    to the wallet UI turns the mint into the server mint for that address:
    the call is [mintWithHeliusAPI] with the address, its one effect is the
    POST to the mint proxy with the address as [owner], its outcome is that
    call's outcome, and it is not the "wallet not connected" failure. *)
Theorem reroute_to_server_mint (w : World) (params : MintCNFTParams)
    (a : Account) :
  configuredTree w = true -> forced params = false ->
  publicKey (walletAdapter w) = None ->
  (window_solana w = None
   \/ exists sol, window_solana w = Some sol /\ isPhantom sol = false) ->
  account w = Some a -> address a <> [] ->
  selectStrategy (configuredTree w) (forced params) = UserSignedStrategy
  /\ mutationFn w params = mintWithHeliusAPI w params (address a)
  /\ fst (mutationFn w params)
     = [FetchMintProxy (mint_proxy_payload params (address a))]
  /\ get (mint_proxy_payload params (address a)) (lit "owner")
     = Some (JStr (address a))
  /\ snd (mutationFn w params) <> Throws WalletNotConnectedForTree
  /\ snd (mutationFn w params) <> Throws WalletNotConnected.
Proof.
  intros Hcfg Hforce Hpk Hsol Hacct Haddr.
  assert (Haa : account_address w = Some (address a)).
  { unfold account_address. rewrite Hacct.
    destruct (address a); [congruence | reflexivity]. }
  assert (Hrun : mutationFn w params = mintWithHeliusAPI w params (address a)).
  { unfold mutationFn, useExistingTree. rewrite Hcfg, Hforce. cbn [andb negb].
    unfold mode1, resolveAdapter. rewrite Hpk.
    replace (match window_solana w with
             | Some sol => if isPhantom sol then Some sol else None
             | None => None
             end) with (@None Sol)
      by (destruct Hsol as [-> | (sol & -> & ->)]; reflexivity).
    rewrite Haa. apply bind_early_return. }
  split; [unfold selectStrategy, useExistingTree; now rewrite Hcfg, Hforce|].
  split; [exact Hrun|].
  rewrite Hrun.
  split; [apply mintWithHeliusAPI_trace|].
  split; [reflexivity|].
  split.
  - run_hook. repeat split_match; simpl; discriminate.
  - run_hook. repeat split_match; simpl; discriminate.
Qed.

Lemma reroute_to_server_mint_witness :
  let w := sample_world tree1 Addr1 no_adapter None in
  mutationFn w (params_Foo None)
  = ([FetchMintProxy (JObj [(lit "name", JStr (lit "Foo"));
                            (lit "symbol", JStr (lit "FOO"));
                            (lit "owner", JStr (lit "Addr1"))])],
     Returns result1).
Proof.
  cbv zeta.
  rewrite (proj1 (proj2 (@reroute_to_server_mint
                           (sample_world tree1 Addr1 no_adapter None)
                           (params_Foo None) (mkAccount (lit "Addr1"))
                           eq_refl eq_refl eq_refl (or_introl eq_refl) eq_refl
                           ltac:(discriminate)))).
  reflexivity.
Defined.

(** *** No signer and no account *)

(** C4.  With a tree configured, the fallback not forced, no public key on
    the wallet adapter, no Phantom extension and no account address, the
    mint fails with the "wallet not connected" error of mode 1; the only
    effect of the whole attempt is one error notification, so neither the
    mint proxy nor the chain is called.  (The description shown is the
    tree-configuration hint, because the error text names the variable
    [NEXT_PUBLIC_MERKLE_TREE_ADDRESS].) *)
Theorem no_wallet_fails_without_network (w : World) (params : MintCNFTParams) :
  configuredTree w = true -> forced params = false ->
  publicKey (walletAdapter w) = None ->
  (window_solana w = None
   \/ exists sol, window_solana w = Some sol /\ isPhantom sol = false) ->
  (account w = None \/ exists a, account w = Some a /\ address a = []) ->
  snd (mutate w params) = Throws WalletNotConnectedForTree
  /\ startsWith (message WalletNotConnectedForTree) (lit "Wallet not connected") = true
  /\ fst (mutate w params)
     = [ToastError (lit "Failed to Mint cNFT")
          (lit "Merkle tree not configured. Check TREE_SETUP_GUIDE.md") 8000]
  /\ filter is_network_call (fst (mutate w params)) = []
  /\ existsb is_error_toast (fst (mutate w params)) = true.
Proof.
  intros Hcfg Hforce Hpk Hsol Hacct.
  assert (Haa : account_address w = None).
  { unfold account_address.
    destruct Hacct as [-> | (a & -> & ->)]; reflexivity. }
  assert (Hrun : mutate w params
                 = (onError WalletNotConnectedForTree,
                    Throws WalletNotConnectedForTree)).
  { unfold mutate, mutationFn, useExistingTree. rewrite Hcfg, Hforce.
    cbn [andb negb]. unfold mode1, resolveAdapter. rewrite Hpk.
    replace (match window_solana w with
             | Some sol => if isPhantom sol then Some sol else None
             | None => None
             end) with (@None Sol)
      by (destruct Hsol as [-> | (sol & -> & ->)]; reflexivity).
    rewrite Haa. reflexivity. }
  rewrite Hrun. repeat split; vm_compute; reflexivity.
Qed.

Lemma no_wallet_fails_without_network_witness :
  let w := sample_world tree1 None no_adapter None in
  mutate w (params_Foo None)
  = ([ToastError (lit "Failed to Mint cNFT")
        (lit "Merkle tree not configured. Check TREE_SETUP_GUIDE.md") 8000],
     Throws WalletNotConnectedForTree).
Proof.
  cbv zeta.
  destruct (@no_wallet_fails_without_network
              (sample_world tree1 None no_adapter None) (params_Foo None)
              eq_refl eq_refl eq_refl (or_introl eq_refl) (or_introl eq_refl))
    as (Hout & _ & Htrace & _ & _).
  rewrite (surjective_pairing (mutate _ _)), Hout, Htrace. reflexivity.
Defined.

(** *** The tree check of [mintWithExistingTree] *)

Lemma mutationFn_not_tree_error (w : World) (params : MintCNFTParams) :
  snd (mutationFn w params) <> Throws TreeNotConfigured.
Proof.
  unfold mutationFn, useExistingTree.
  destruct (configuredTree w) eqn:Hcfg; cbn [andb].
  - destruct (negb (forced params)).
    + unfold mode1.
      destruct (resolveAdapter w params) as [t [[r | adapter] | e]] eqn:Hres.
      * unfold bind, ret. simpl. discriminate.
      * unfold bind.
        destruct (signTransaction adapter).
        -- pose proof (@mintWithExistingTree_configured w params connection
                         adapter Hcfg) as Hne.
           destruct (mintWithExistingTree w params connection adapter)
             as [t' r']. simpl in *. exact Hne.
        -- unfold throw. simpl. discriminate.
      * unfold bind. simpl. intros Heq. inversion Heq; subst e.
        revert Hres. unfold resolveAdapter, phantomAdapter.
        pose proof (@mintWithHeliusAPI_not_tree_error w params) as Hne.
        unfold bind, ret, throw.
        repeat split_match; try discriminate;
          try (intros Heq'; inversion Heq'; subst;
               match goal with
               | H : mintWithHeliusAPI _ _ ?addr = _ |- _ =>
                   specialize (Hne addr); rewrite H in Hne; now apply Hne
               end).
    + unfold mode2. destruct (account_address w);
        [apply mintWithHeliusAPI_not_tree_error | discriminate].
  - unfold mode2. destruct (account_address w);
      [apply mintWithHeliusAPI_not_tree_error | discriminate].
Qed.

(** C9.  When the tree address is configured, [mintWithExistingTree] never
    throws its "tree address not configured" error, whatever its arguments;
    and since the hook calls it in mode 1 only, a mint call never ends with
    that error. *)
Theorem tree_error_unreachable (w : World) (params : MintCNFTParams) :
  configuredTree w = true ->
  (forall (c : Connection) (adapter : WalletContextState),
      snd (mintWithExistingTree w params c adapter) <> Throws TreeNotConfigured)
  /\ snd (mutationFn w params) <> Throws TreeNotConfigured
  /\ snd (mutate w params) <> Throws TreeNotConfigured.
Proof.
  intros Hcfg. split; [|split].
  - intros c adapter. now apply mintWithExistingTree_configured.
  - apply mutationFn_not_tree_error.
  - pose proof (mutationFn_not_tree_error w params) as Hne.
    unfold mutate. destruct (mutationFn w params) as [t [data | e]].
    + unfold onSuccess. rewrite Hcfg. unfold bind, emit. simpl. discriminate.
    + simpl in *. exact Hne.
Qed.

Lemma tree_error_unreachable_witness :
  let w := sample_world tree1 Addr1 adapter1 None in
  configuredTree w = true
  /\ snd (mintWithExistingTree w (params_Foo None) connection adapter1)
     <> Throws TreeNotConfigured
  /\ snd (mutationFn w (params_Foo None))
     = Returns (mkResult (Some (JStr (lit "AQID")))
                         (Some (JStr (lit "pending-indexing")))).
Proof.
  cbv zeta.
  destruct (@tree_error_unreachable (sample_world tree1 Addr1 adapter1 None)
              (params_Foo None) eq_refl) as (Hdirect & _ & _).
  split; [reflexivity|]. split; [apply Hdirect | reflexivity].
Defined.

End MintHookFacts.

(* ================================================================== *)
(** ** The Phantom signer wrapper                                      *)
(* ================================================================== *)

Module PhantomWrapperFacts.
Import JS Effects MintHook PhantomWrapper PhantomSamples.

Lemma keeps_refl (s : State) : keeps s s.
Proof. intros r. repeat split; auto. Qed.

Lemma keeps_trans (s1 s2 s3 : State) : keeps s1 s2 -> keeps s2 s3 -> keeps s1 s3.
Proof.
  intros H12 H23 r.
  destruct (H12 r) as (Hi & Hb & Hf & Hn). destruct (H23 r) as (Hi' & Hb' & Hf' & Hn').
  repeat split.
  - congruence.
  - intros Ht. rewrite Hb', Hb; auto. rewrite Hb; auto.
  - intros pk Hpk. auto.
  - auto.
Qed.

Lemma write_same (h : store) (r : ref) (tx : Transaction) : write h r tx r = tx.
Proof. unfold write. now rewrite Nat.eqb_refl. Qed.

Lemma write_other (h : store) (r r' : ref) (tx : Transaction) :
  r' <> r -> write h r tx r' = h r'.
Proof. intros Hne. unfold write. apply Nat.eqb_neq in Hne. now rewrite Hne. Qed.

Ltac case_write r tx :=
  destruct (Nat.eq_dec r tx) as [-> | ?];
  [rewrite ?write_same | rewrite ?write_other by assumption].

Lemma populate_keeps (o : Outside) (sol : Sol) (tx : ref) (s : State) :
  keeps s (snd (fst (populate o sol tx s)))
  /\ forall r, r <> tx -> txs (snd (fst (populate o sol tx s))) r = txs s r.
Proof.
  unfold populate.
  destruct (truthy_str (recentBlockhash (txs s tx))) eqn:Hb;
    [| destruct (getLatestBlockhash o (asked s)) as [bh | e]];
    cbn; rewrite ?write_same; cbn;
    destruct (feePayer (txs s tx)) eqn:Hf; cbn;
    try destruct (sol_publicKey sol); cbn;
    (split;
     [ intros r; destruct (Nat.eq_dec r tx) as [-> | Hne];
       cbn; [ rewrite ?write_same | rewrite ?write_other by assumption ];
       cbn; repeat split; intros; try congruence; auto
     | intros r Hr; cbn; rewrite ?write_other by assumption; reflexivity ]).
Qed.

Lemma populateAll_keeps (o : Outside) (sol : Sol) (l : list ref) :
  forall s,
    keeps s (snd (fst (populateAll o sol l s)))
    /\ forall r, ~ In r l -> txs (snd (fst (populateAll o sol l s))) r = txs s r.
Proof.
  induction l as [|tx rest IH]; intros s; cbn [populateAll].
  - split; [apply keeps_refl | auto].
  - destruct (populate_keeps o sol tx s) as [Hk Hfr].
    destruct (populate o sol tx s) as [[t s1] [e|]]; cbn in *.
    + split; [exact Hk|]. intros r Hr. apply Hfr. intros ->. apply Hr. now left.
    + destruct (IH s1) as [Hk' Hfr'].
      destruct (populateAll o sol rest s1) as [[t' s2] e']; cbn in *.
      split; [eapply keeps_trans; eauto|].
      intros r Hr. rewrite Hfr'; [apply Hfr|]; intuition.
Qed.

Lemma signAllTransactions_state (o : Outside) (sol : Sol) (l : list ref) (s : State) :
  snd (fst (signAllTransactions o sol l s)) = snd (fst (populateAll o sol l s)).
Proof.
  unfold signAllTransactions.
  destruct (populateAll o sol l s) as [[t s1] e].
  destruct (sol_signAllTransactions o); [reflexivity|].
  destruct (signEach o (txs s1) l). reflexivity.
Qed.

Lemma signTransaction_state (o : Outside) (sol : Sol) (tx : ref) (s : State) :
  snd (fst (signTransaction o sol tx s)) = snd (fst (populate o sol tx s)).
Proof.
  unfold signTransaction. destruct (populate o sol tx s) as [[t s1] e]. reflexivity.
Qed.

(** X1.  Neither signing function overwrites anything: after
    [signTransaction] or [signAllTransactions], every transaction has its
    instructions, every truthy [recentBlockhash] and every [feePayer] it had
    before, and a transaction that was not passed in is untouched. *)
Theorem wrapper_never_overwrites (o : Outside) (sol : Sol) (l : list ref)
    (tx : ref) (s : State) :
  let after_all := snd (fst (signAllTransactions o sol l s)) in
  let after_one := snd (fst (signTransaction o sol tx s)) in
  (forall r,
      instructions (txs after_all r) = instructions (txs s r)
      /\ (truthy_str (recentBlockhash (txs s r)) = true ->
          recentBlockhash (txs after_all r) = recentBlockhash (txs s r))
      /\ (forall pk, feePayer (txs s r) = Some pk ->
                     feePayer (txs after_all r) = Some pk)
      /\ (~ In r l -> txs after_all r = txs s r))
  /\ (forall r,
      instructions (txs after_one r) = instructions (txs s r)
      /\ (truthy_str (recentBlockhash (txs s r)) = true ->
          recentBlockhash (txs after_one r) = recentBlockhash (txs s r))
      /\ (forall pk, feePayer (txs s r) = Some pk ->
                     feePayer (txs after_one r) = Some pk)
      /\ (r <> tx -> txs after_one r = txs s r)).
Proof.
  cbv zeta. rewrite signAllTransactions_state, signTransaction_state.
  destruct (populateAll_keeps o sol l s) as [Hk Hfr].
  destruct (populate_keeps o sol tx s) as [Hk1 Hfr1].
  split; intros r.
  - destruct (Hk r) as (Hi & Hb & Hf & _). repeat split; auto.
  - destruct (Hk1 r) as (Hi & Hb & Hf & _). repeat split; auto.
Qed.

Lemma populate_answers (o : Outside) (sol : Sol) (tx : ref) (s : State)
    (pk : PublicKey) :
  (forall k, exists blockhash, getLatestBlockhash o k = Returns blockhash) ->
  sol_publicKey sol = Some pk ->
  snd (populate o sol tx s) = None
  /\ filled (txs (snd (fst (populate o sol tx s))) tx)
  /\ (feePayer (txs s tx) = None ->
      feePayer (txs (snd (fst (populate o sol tx s))) tx) = Some pk)
  /\ fst (fst (populate o sol tx s))
     = (if truthy_str (recentBlockhash (txs s tx)) then [] else [LatestBlockhash])
  /\ asked (snd (fst (populate o sol tx s)))
     = (if truthy_str (recentBlockhash (txs s tx)) then asked s else S (asked s)).
Proof.
  intros Hup Hpk. unfold populate, filled. rewrite Hpk.
  destruct (Hup (asked s)) as [bh Hbh]. rewrite Hbh.
  destruct (truthy_str (recentBlockhash (txs s tx))) eqn:Hb;
    cbn; rewrite ?write_same; cbn;
    destruct (feePayer (txs s tx)) eqn:Hf; cbn; rewrite ?write_same; cbn;
    repeat split; intros; try congruence; auto;
    destruct (recentBlockhash (txs s tx)) as [[|]|]; cbn in Hb; congruence.
Qed.

Lemma filled_keeps (s s' : State) (r : ref) :
  keeps s s' -> filled (txs s r) -> filled (txs s' r).
Proof.
  intros Hk [Hb Hf]. destruct (Hk r) as (_ & _ & Hfp & Hn). split; [auto|].
  destruct (feePayer (txs s r)) as [pk|] eqn:E; [|congruence].
  rewrite (Hfp pk eq_refl). discriminate.
Qed.

Lemma populateAll_answers (o : Outside) (sol : Sol) (pk : PublicKey) :
  (forall k, exists blockhash, getLatestBlockhash o k = Returns blockhash) ->
  sol_publicKey sol = Some pk ->
  forall l s,
    snd (populateAll o sol l s) = None
    /\ Forall (fun r => filled (txs (snd (fst (populateAll o sol l s))) r)) l.
Proof.
  intros Hup Hpk. induction l as [|tx rest IH]; intros s; cbn [populateAll].
  - split; [reflexivity | constructor].
  - destruct (@populate_answers o sol tx s pk Hup Hpk) as (He & Hfill & _).
    destruct (populate o sol tx s) as [[t s1] e]. cbn in He, Hfill. subst e.
    destruct (IH s1) as [He' Hall].
    destruct (populateAll_keeps o sol rest s1) as [Hk _].
    destruct (populateAll o sol rest s1) as [[t' s2] e']. cbn in *.
    split; [exact He'|]. constructor; [|exact Hall].
    eapply filled_keeps; eauto.
Qed.

(** X2.  When the connection answers every block hash look-up and the
    extension is connected, every transaction passed to
    [signAllTransactions] ends up with a [recentBlockhash] and a [feePayer],
    and so does the one passed to [signTransaction]; a missing fee payer is
    the extension's public key. *)
Theorem wrapper_fills_missing_fields (o : Outside) (sol : Sol) (l : list ref)
    (tx : ref) (s : State) (pk : PublicKey) :
  (forall k, exists blockhash, getLatestBlockhash o k = Returns blockhash) ->
  sol_publicKey sol = Some pk ->
  Forall filled (map (txs (snd (fst (signAllTransactions o sol l s)))) l)
  /\ filled (txs (snd (fst (signTransaction o sol tx s))) tx)
  /\ (feePayer (txs s tx) = None ->
      feePayer (txs (snd (fst (signTransaction o sol tx s))) tx) = Some pk).
Proof.
  intros Hup Hpk.
  rewrite signAllTransactions_state, signTransaction_state.
  destruct (@populateAll_answers o sol pk Hup Hpk l s) as [_ Hall].
  destruct (@populate_answers o sol tx s pk Hup Hpk) as (_ & Hfill & Hfee & _).
  split; [|split; assumption].
  apply Forall_map. exact Hall.
Qed.

Lemma wrapper_fills_missing_fields_witness :
  let s' := snd (fst (signAllTransactions steady connected [0; 1; 0] sample_state)) in
  txs s' 0 = mkTransaction (Some (lit "hash")) (Some (lit "P")) 7
  /\ txs s' 1 = ready
  /\ Forall filled (map (txs s') [0; 1; 0]).
Proof.
  cbv zeta. split; [reflexivity|]. split; [reflexivity|].
  exact (proj1 (@wrapper_fills_missing_fields steady connected [0; 1; 0] 0
                  sample_state (lit "P")
                  (fun _ => ex_intro _ (lit "hash") eq_refl) eq_refl)).
Defined.

Lemma populateAll_trace (o : Outside) (sol : Sol) (l : list ref) :
  forall s,
    filter is_sign (fst (fst (populateAll o sol l s))) = []
    /\ filter is_sign_all (fst (fst (populateAll o sol l s))) = [].
Proof.
  induction l as [|tx rest IH]; intros s; cbn [populateAll].
  - split; reflexivity.
  - assert (Hp : filter is_sign (fst (fst (populate o sol tx s))) = []
                 /\ filter is_sign_all (fst (fst (populate o sol tx s))) = []).
    { unfold populate.
      destruct (truthy_str (recentBlockhash (txs s tx)));
        [| destruct (getLatestBlockhash o (asked s))]; cbn;
        rewrite ?write_same; cbn;
        try destruct (feePayer (txs s tx)); cbn;
        try destruct (sol_publicKey sol); cbn; split; reflexivity. }
    destruct (populate o sol tx s) as [[t s1] [e|]]; cbn in *; [exact Hp|].
    destruct (IH s1) as [H1 H2].
    destruct (populateAll o sol rest s1) as [[t' s2] e']; cbn in *.
    rewrite !filter_app, H1, H2. destruct Hp as [-> ->]. split; reflexivity.
Qed.

Lemma signEach_all (o : Outside) (h : store) (sg : Transaction -> Transaction) :
  (forall tx, sol_signTransaction o tx = Returns (sg tx)) ->
  forall l,
    signEach o h l
    = (map (fun r => Sign (h r)) l, Returns (map (fun r => sg (h r)) l)).
Proof.
  intros Hsg. induction l as [|tx rest IH]; cbn [signEach map].
  - reflexivity.
  - rewrite Hsg, IH. reflexivity.
Qed.

(** X3.  Without batch support in the extension, [signAllTransactions]
    signs the transactions one by one in the caller's order: when every
    single signature succeeds, the extension has been asked once per
    transaction, in order, never for a batch, and the signed transactions
    come back in the same order. *)
Theorem sequential_signing_keeps_order (o : Outside) (sol : Sol)
    (l : list ref) (s : State) (sg : Transaction -> Transaction) :
  sol_signAllTransactions o = None ->
  (forall tx, sol_signTransaction o tx = Returns (sg tx)) ->
  let t := fst (fst (signAllTransactions o sol l s)) in
  let s' := snd (fst (signAllTransactions o sol l s)) in
  snd (signAllTransactions o sol l s) = Returns (map (fun r => sg (txs s' r)) l)
  /\ filter is_sign t = map (fun r => Sign (txs s' r)) l
  /\ filter is_sign_all t = [].
Proof.
  intros Hnone Hsg. cbv zeta. unfold signAllTransactions. rewrite Hnone.
  destruct (populateAll_trace o sol l s) as [H1 H2].
  destruct (populateAll o sol l s) as [[t s1] e]. cbn in H1, H2.
  rewrite (@signEach_all o (txs s1) sg Hsg l). cbn.
  rewrite !filter_app, H1, H2. cbn.
  repeat split.
  - induction l as [|r rest IH]; cbn; [reflexivity | now rewrite IH].
  - induction l as [|r rest IH]; cbn; [reflexivity | exact IH].
Qed.

Lemma sequential_signing_keeps_order_witness :
  snd (signAllTransactions steady connected [1; 0] sample_state)
  = Returns [ready; mkTransaction (Some (lit "hash")) (Some (lit "P")) 7]
  /\ filter is_sign (fst (fst (signAllTransactions steady connected [1; 0]
                                 sample_state)))
     = [Sign ready; Sign (mkTransaction (Some (lit "hash")) (Some (lit "P")) 7)].
Proof.
  destruct (@sequential_signing_keeps_order steady connected [1; 0] sample_state
              (fun tx => tx) eq_refl (fun _ => eq_refl)) as (Hres & Hsigns & _).
  split; [rewrite Hres | rewrite Hsigns]; reflexivity.
Defined.

(** X4.  With batch support, [signAllTransactions] asks the extension
    exactly once, for the whole batch in the caller's order, and never for a
    single transaction; what comes back is the extension's answer.  This
    holds whether or not the preparation of the transactions failed. *)
Theorem batch_signing_is_one_call (o : Outside) (sol : Sol) (l : list ref)
    (s : State)
    (signAll : list Transaction -> outcome Error (list Transaction)) :
  sol_signAllTransactions o = Some signAll ->
  let t := fst (fst (signAllTransactions o sol l s)) in
  let s' := snd (fst (signAllTransactions o sol l s)) in
  snd (signAllTransactions o sol l s) = signAll (map (txs s') l)
  /\ filter is_sign_all t = [SignAll (map (txs s') l)]
  /\ filter is_sign t = [].
Proof.
  intros Hsome. cbv zeta. unfold signAllTransactions. rewrite Hsome.
  destruct (populateAll_trace o sol l s) as [H1 H2].
  destruct (populateAll o sol l s) as [[t s1] e]. cbn in *.
  rewrite !filter_app, H1, H2. repeat split.
Qed.

Lemma batch_signing_is_one_call_witness :
  snd (signAllTransactions batching connected [1; 0] sample_state)
  = Returns [ready; mkTransaction (Some (lit "hash")) (Some (lit "P")) 7].
Proof.
  rewrite (proj1 (@batch_signing_is_one_call batching connected [1; 0]
                    sample_state (fun batch => Returns batch) eq_refl)).
  reflexivity.
Defined.

(** X5.  A failed block hash look-up is swallowed, and it also skips the
    fee payer: a transaction without [recentBlockhash] goes to the
    extension exactly as it came in, even when the extension is connected
    and the fee payer is missing; the outcome is the extension's. *)
Theorem failed_lookup_skips_fee_payer (o : Outside) (sol : Sol) (tx : ref)
    (s : State) (e : Error) :
  truthy_str (recentBlockhash (txs s tx)) = false ->
  getLatestBlockhash o (asked s) = Throws e ->
  signTransaction o sol tx s
  = ([LatestBlockhash; Sign (txs s tx)],
     mkState (txs s) (S (asked s)),
     sol_signTransaction o (txs s tx)).
Proof.
  intros Hb Hup. unfold signTransaction, populate. rewrite Hb, Hup. reflexivity.
Qed.

Lemma failed_lookup_skips_fee_payer_witness :
  signTransaction offline connected 0 sample_state
  = ([LatestBlockhash; Sign blank], mkState (txs sample_state) 1, Returns blank).
Proof.
  exact (@failed_lookup_skips_fee_payer offline connected 0 sample_state _
           eq_refl eq_refl).
Defined.

Lemma populateAll_lookups (o : Outside) (sol : Sol) (pk : PublicKey) :
  (forall k, exists blockhash, getLatestBlockhash o k = Returns blockhash) ->
  sol_publicKey sol = Some pk ->
  forall l s, NoDup l ->
    length (filter is_blockhash_call (fst (fst (populateAll o sol l s))))
    = length (filter (fun r => negb (truthy_str (recentBlockhash (txs s r)))) l).
Proof.
  intros Hup Hpk. induction l as [|tx rest IH]; intros s Hnd; cbn [populateAll].
  - reflexivity.
  - inversion Hnd as [|? ? Hnotin Hnd']; subst.
    destruct (@populate_answers o sol tx s pk Hup Hpk) as (He & _ & _ & Ht & _).
    destruct (populate_keeps o sol tx s) as [_ Hfr].
    destruct (populate o sol tx s) as [[t s1] e]. cbn in He, Ht, Hfr. subst e t.
    specialize (IH s1 Hnd').
    destruct (populateAll o sol rest s1) as [[t' s2] e']. cbn in *.
    rewrite filter_app, length_app, IH.
    rewrite (filter_ext_in
               (fun r => negb (truthy_str (recentBlockhash (txs s1 r))))
               (fun r => negb (truthy_str (recentBlockhash (txs s r)))));
      [| intros r Hr; rewrite Hfr; [reflexivity | intros ->; contradiction]].
    destruct (truthy_str (recentBlockhash (txs s tx))); reflexivity.
Qed.

(** X6.  Block hashes are not shared between transactions: when the
    connection answers, the extension is connected and the transactions are
    distinct objects, [signAllTransactions] makes one look-up for each
    transaction that has no [recentBlockhash], and none for the others. *)
Theorem one_lookup_per_missing_blockhash (o : Outside) (sol : Sol)
    (l : list ref) (s : State) (pk : PublicKey) :
  (forall k, exists blockhash, getLatestBlockhash o k = Returns blockhash) ->
  sol_publicKey sol = Some pk ->
  NoDup l ->
  length (filter is_blockhash_call (fst (fst (signAllTransactions o sol l s))))
  = length (filter (fun r => negb (truthy_str (recentBlockhash (txs s r)))) l).
Proof.
  intros Hup Hpk Hnd.
  pose proof (@populateAll_lookups o sol pk Hup Hpk l s Hnd) as Hcount.
  unfold signAllTransactions.
  destruct (populateAll o sol l s) as [[t s1] e]. cbn in Hcount.
  destruct (sol_signAllTransactions o) as [signAll|].
  - cbn. rewrite filter_app, length_app. cbn. lia.
  - assert (Hnone : forall h l', filter is_blockhash_call (fst (signEach o h l')) = []).
    { intros h l'. induction l' as [|r rest IH]; cbn; [reflexivity|].
      destruct (sol_signTransaction o (h r)); [|reflexivity].
      destruct (signEach o h rest). cbn in *. exact IH. }
    specialize (Hnone (txs s1) l).
    destruct (signEach o (txs s1) l) as [t' r]. cbn in *.
    rewrite filter_app, length_app, Hnone. cbn. lia.
Qed.

Lemma one_lookup_per_missing_blockhash_witness :
  length (filter is_blockhash_call
            (fst (fst (signAllTransactions steady connected [0; 1; 2] sample_state))))
  = 1.
Proof.
  rewrite (@one_lookup_per_missing_blockhash steady connected [0; 1; 2]
             sample_state (lit "P")
             (fun _ => ex_intro _ (lit "hash") eq_refl) eq_refl).
  - reflexivity.
  - repeat constructor; cbn; intuition discriminate.
Defined.

End PhantomWrapperFacts.

(* ================================================================== *)
(** ** More about the two proxy routes                                 *)
(* ================================================================== *)

Module ProxyRouteFacts.
Import JS Effects Http ProxySamples MoreProxySamples ProxyFacts.
Local Open Scope N_scope.

Ltac run_route :=
  run_handler;
  unfold MintProxy.mint_request, MintProxy.description_or_template,
    MintProxy.template, new_Response, bind, ret, throw.

(** X7.  Neither route retries: whatever the request and whatever the
    provider does, a POST sends at most one request upstream. *)
Theorem proxies_call_upstream_at_most_once (sv : Server) (req : NextRequest) :
  (length (fst (RpcProxy.POST sv req)) <= 1)%nat
  /\ (length (fst (MintProxy.POST sv req)) <= 1)%nat.
Proof.
  split; run_route;
    (destruct (req_json req) as [[| | | | |fields]|]; cbn -[object];
     [lia | lia | lia | lia | lia | | lia]);
    repeat break_match; simpl; lia.
Qed.

(** The possible responses of the mint proxy. *)
Lemma mint_proxy_response_cases (sv : Server) (req : NextRequest) :
  let r := snd (MintProxy.POST sv req) in
  content_type r = application_json
  /\ ((status r = 200
       /\ called_upstream (fst (MintProxy.POST sv req)) = true
       /\ exists signature assetId,
           body r = Stringify (JObj (object [ (lit "signature", signature);
                                             (lit "assetId", assetId) ])))
      \/ ((status r = 400 \/ status r = 500 \/ status r = 502)
          /\ exists v, body r = Stringify (JObj [(lit "error", v)]))).
Proof.
  cbv zeta. run_route.
  destruct (req_json req) as [[| | | | |fields]|];
    cbn -[object];
    try (split; [reflexivity|]; right; split; [tauto|]; eexists; reflexivity).
  repeat break_match; cbn -[object];
    (split; [reflexivity|]);
    try (right; split; [tauto|]; eexists; reflexivity);
    try (left; split; [reflexivity|]; split; [reflexivity|];
         do 2 eexists; reflexivity).
  all: try (exfalso;
            match goal with
            | H : truthyv _ = true |- _ => cbn in H; discriminate H
            end).
  all: match goal with
       | H : truthyv (get (JObj ?f) ?k) = true |- _ =>
           change (get (JObj f) k) with (assoc k f) in H;
           destruct (assoc k f);
           [right; split; [tauto|]; eexists; reflexivity | discriminate H]
       end.
Qed.

(** X8.  The mint proxy never passes the provider's status or body through:
    its response is always JSON, and it is either 200 with an object of at
    most the two fields [signature] and [assetId], sent only after the
    provider was called, or one of 400, 500, 502 with an object whose only
    field is [error]. *)
Theorem mint_proxy_status_set (sv : Server) (req : NextRequest) :
  let r := snd (MintProxy.POST sv req) in
  content_type r = application_json
  /\ ((status r = 200
       /\ called_upstream (fst (MintProxy.POST sv req)) = true
       /\ exists signature assetId,
           body r = Stringify (JObj (object [ (lit "signature", signature);
                                             (lit "assetId", assetId) ])))
      \/ ((status r = 400 \/ status r = 500 \/ status r = 502)
          /\ exists v, body r = Stringify (JObj [(lit "error", v)]))).
Proof. exact (mint_proxy_response_cases sv req). Qed.

Lemma truthyv_get_not_null (b : json) (k : jsstring) :
  truthyv (get b k) = true -> b <> JNull.
Proof. intros H ->. discriminate H. Qed.

(** X9.  When the RPC proxy cannot complete the exchange, the caller gets
    HTTP 500 with the text of the error: if the provider URL cannot be
    obtained nothing is sent, and if the request to the provider fails it
    was sent once and is not repeated. *)
Theorem rpc_proxy_failure_is_500 (sv : Server) (req : NextRequest) (b : json) :
  req_json req = Returns b ->
  truthyv (get b (lit "method")) = true ->
  (forall e, getHeliusRpcUrl sv = Throws e ->
     RpcProxy.POST sv req = ([], error_response 500 (JStr (message_or_String e))))
  /\ (forall endpoint e,
        getHeliusRpcUrl sv = Returns endpoint ->
        fetch sv endpoint
          (RpcProxy.envelope (get b (lit "method")) (get b (lit "params")))
        = Throws e ->
        RpcProxy.POST sv req
        = ([Fetch endpoint
              (RpcProxy.envelope (get b (lit "method")) (get b (lit "params")))],
           error_response 500 (JStr (message_or_String e)))).
Proof.
  intros Hb Ht. pose proof (@truthyv_get_not_null b _ Ht) as Hnull. split.
  - intros e Hurl. run_handler. rewrite Hb.
    destruct b; try congruence; cbv beta iota; rewrite Ht; cbn [negb];
      rewrite Hurl; reflexivity.
  - intros endpoint e Hurl Hf. run_handler. rewrite Hb.
    destruct b; try congruence; cbv beta iota; rewrite Ht; cbn [negb];
      rewrite Hurl; cbv beta iota; rewrite Hf; reflexivity.
Qed.

Lemma rpc_proxy_failure_is_500_witness :
  RpcProxy.POST offline_server rpc_request_getAsset
  = ([Fetch (lit "https://rpc.example/?api-key=k")
        (JObj [(lit "jsonrpc", JStr (lit "2.0"));
               (lit "id", JStr (lit "proxy"));
               (lit "method", JStr (lit "getAsset"));
               (lit "params", JObj [(lit "id", JStr (lit "id1"))])])],
     error_response 500 (JStr (lit "fetch failed"))).
Proof.
  exact (proj2 (@rpc_proxy_failure_is_500 offline_server rpc_request_getAsset _
                  eq_refl eq_refl) _ _ eq_refl eq_refl).
Defined.

(** X10.  Every response of the RPC proxy has a content type: it is the
    provider's when the provider's answer is passed on (its status is one
    the [Response] constructor accepts) and the provider gave a non-empty
    one, and [application/json] in every other case, the proxy's own error
    responses included. *)
Theorem rpc_proxy_content_type (sv : Server) (req : NextRequest) :
  content_type (snd (RpcProxy.POST sv req)) <> []
  /\ (fst (RpcProxy.POST sv req) = [] ->
      content_type (snd (RpcProxy.POST sv req)) = application_json)
  /\ (forall endpoint payload,
        fst (RpcProxy.POST sv req) = [Fetch endpoint payload] ->
        content_type (snd (RpcProxy.POST sv req))
        = match fetch sv endpoint payload with
          | Returns resp =>
              if (200 <=? resp_status resp) && (resp_status resp <=? 599)
                 && negb ((resp_status resp =? 204) || (resp_status resp =? 205)
                          || (resp_status resp =? 304))
              then match resp_content_type resp with
                   | Some (c :: ct) => c :: ct
                   | _ => application_json
                   end
              else application_json
          | Throws _ => application_json
          end).
Proof.
  run_route.
  destruct (req_json req) as [[| | | | |fields]|]; cbn -[object];
    try (repeat split; intros; try discriminate; reflexivity).
  destruct (negb (truthyv (assoc _ fields)));
    [repeat split; intros; try discriminate; reflexivity|].
  destruct (getHeliusRpcUrl sv) as [endpoint|];
    [|repeat split; intros; try discriminate; reflexivity].
  cbn -[object].
  destruct (fetch sv endpoint _) as [resp|] eqn:Hf; cbn -[object].
  - destruct (accepts_status (resp_status resp)) eqn:Hacc; cbn -[object];
      repeat split; try discriminate;
      try (destruct (resp_content_type resp) as [[|]|]; discriminate);
      intros endpoint' payload Heq; inversion Heq; subst;
      change (RpcProxy.envelope (assoc (lit "method") fields)
                (assoc (lit "params") fields))
        with (JObj (object [ (lit "jsonrpc", Some (JStr (lit "2.0")));
                             (lit "id", Some (JStr (lit "proxy")));
                             (lit "method", assoc (lit "method") fields);
                             (lit "params", assoc (lit "params") fields) ]));
      rewrite Hf, <- accepts_status_range, Hacc; reflexivity.
  - repeat split; try discriminate.
    intros endpoint' payload Heq. inversion Heq; subst.
    change (RpcProxy.envelope (assoc (lit "method") fields)
              (assoc (lit "params") fields))
      with (JObj (object [ (lit "jsonrpc", Some (JStr (lit "2.0")));
                           (lit "id", Some (JStr (lit "proxy")));
                           (lit "method", assoc (lit "method") fields);
                           (lit "params", assoc (lit "params") fields) ])).
    rewrite Hf. reflexivity.
Qed.

(** X11.  What the mint proxy sends to the provider is always complete: a
    [mintCompressedNft] call whose parameters are the caller's [name],
    [symbol] and [owner], a description, attributes and an image URL (the
    caller's when truthy, otherwise the templated description, which holds
    the text [name] converts to, the empty list and the placeholder image),
    and a royalty of 500 basis points that the caller cannot change.  When
    the template is needed and [name] cannot be converted to a string,
    nothing is sent and the answer is HTTP 500. *)
Theorem mint_proxy_fills_defaults (sv : Server) (req : NextRequest) :
  (called_upstream (fst (MintProxy.POST sv req)) = true ->
   exists b endpoint name symbol owner description attributes imageUrl,
     req_json req = Returns b
     /\ get b (lit "name") = Some name
     /\ get b (lit "symbol") = Some symbol
     /\ get b (lit "owner") = Some owner
     /\ fst (MintProxy.POST sv req)
        = [Fetch endpoint
             (JObj [ (lit "jsonrpc", JStr (lit "2.0"));
                     (lit "id", JStr (lit "helius-mint"));
                     (lit "method", JStr (lit "mintCompressedNft"));
                     (lit "params",
                        JObj [ (lit "name", name);
                               (lit "symbol", symbol);
                               (lit "owner", owner);
                               (lit "description", description);
                               (lit "attributes", attributes);
                               (lit "imageUrl", imageUrl);
                               (lit "sellerFeeBasisPoints", JNum (lit "500")) ]) ])]
     /\ (if truthyv (get b (lit "description"))
         then get b (lit "description") = Some description
         else exists text,
                String_ name = Some text
                /\ description = JStr (lit "A compressed NFT: " ++ text))
     /\ attributes
        = (if truthyv (get b (lit "attributes"))
           then match get b (lit "attributes") with Some a => a | None => JNull end
           else JArr [])
     /\ imageUrl
        = (if truthyv (get b (lit "imageUrl"))
           then match get b (lit "imageUrl") with Some u => u | None => JNull end
           else JStr (lit "https://arweave.net/placeholder-image")))
  /\ (forall b name endpoint,
        req_json req = Returns b ->
        get b (lit "name") = Some name -> truthy name = true ->
        truthyv (get b (lit "symbol")) = true ->
        truthyv (get b (lit "owner")) = true ->
        getHeliusRpcUrl sv = Returns endpoint ->
        truthyv (get b (lit "description")) = false ->
        String_ name = None ->
        MintProxy.POST sv req
        = ([], mkResponse 500 application_json
                 (Stringify (JObj [(lit "error",
                    JStr (message_or_String (typeError sv)))])))).
Proof.
  split.
  - intros Hcall.
    destruct (mint_proxy_called_inv _ _ Hcall)
      as (b & endpoint & payload & Hb & Hnull & Hn & Hs & Ho & Hurl & Hp).
    destruct (mint_proxy_after_guard sv req Hb Hnull Hn Hs Ho Hurl Hp) as [Ht _].
    destruct (get b (lit "name")) as [name|] eqn:En; [|discriminate Hn].
    destruct (get b (lit "symbol")) as [symbol|] eqn:Es; [|discriminate Hs].
    destruct (get b (lit "owner")) as [owner|] eqn:Eo; [|discriminate Ho].
    revert Hp.
    unfold MintProxy.mint_request, MintProxy.description_or_template,
      MintProxy.template, String_v, bind, ret, throw.
    intros Hp.
    assert (Hd : exists description,
               payload
               = MintProxy.mint_call (Some name) (Some symbol) (Some owner)
                   description
                   (MintProxy.or_default (get b (lit "attributes")) (JArr []))
                   (MintProxy.or_default (get b (lit "imageUrl"))
                      (JStr (lit "https://arweave.net/placeholder-image")))
               /\ if truthyv (get b (lit "description"))
                  then get b (lit "description") = Some description
                  else exists text,
                         String_ name = Some text
                         /\ description = JStr (lit "A compressed NFT: " ++ text)).
    { destruct (get b (lit "description")) as [d|]; cbn [truthyv];
        [destruct (truthy d)|]; try destruct (String_ name) as [text|];
        inversion Hp; subst; eexists; (split; [reflexivity|]); eauto. }
    destruct Hd as (description & -> & Hd).
    exists b, endpoint, name, symbol, owner, description.
    exists (MintProxy.or_default (get b (lit "attributes")) (JArr [])).
    exists (MintProxy.or_default (get b (lit "imageUrl"))
              (JStr (lit "https://arweave.net/placeholder-image"))).
    repeat split; auto.
    + unfold MintProxy.or_default, or_else.
      destruct (get b (lit "attributes")) as [d|]; cbn; [|reflexivity].
      destruct (truthy d); reflexivity.
    + unfold MintProxy.or_default, or_else.
      destruct (get b (lit "imageUrl")) as [d|]; cbn; [|reflexivity].
      destruct (truthy d); reflexivity.
  - intros b name endpoint Hb Hname Hn Hs Ho Hurl Hd Hconv.
    assert (Hn' : truthyv (get b (lit "name")) = true) by now rewrite Hname.
    apply (@mint_proxy_unbuilt sv req b endpoint (typeError sv)); auto.
    + intros ->. discriminate Hname.
    + rewrite Hname.
      unfold MintProxy.mint_request, MintProxy.description_or_template,
        MintProxy.template, String_v, bind, ret, throw.
      rewrite Hconv.
      destruct (get b (lit "description")) as [d|]; [|reflexivity].
      cbn [truthyv] in Hd. rewrite Hd. reflexivity.
Qed.

Lemma mint_proxy_fills_defaults_witness :
  (exists endpoint,
     fst (MintProxy.POST sample_server mint_request_Foo)
     = [Fetch endpoint
          (JObj [ (lit "jsonrpc", JStr (lit "2.0"));
                  (lit "id", JStr (lit "helius-mint"));
                  (lit "method", JStr (lit "mintCompressedNft"));
                  (lit "params",
                     JObj [ (lit "name", JStr (lit "Foo"));
                            (lit "symbol", JStr (lit "FOO"));
                            (lit "owner", JStr (lit "Addr1"));
                            (lit "description", JStr (lit "A compressed NFT: Foo"));
                            (lit "attributes", JArr []);
                            (lit "imageUrl",
                               JStr (lit "https://arweave.net/placeholder-image"));
                            (lit "sellerFeeBasisPoints", JNum (lit "500")) ]) ])])
  /\ MintProxy.POST sample_server mint_request_unprintable
     = ([], mkResponse 500 application_json
              (Stringify (JObj [(lit "error",
                 JStr (lit "Cannot destructure property of null"))]))).
Proof.
  destruct (@mint_proxy_fills_defaults sample_server mint_request_Foo)
    as [Hsent _].
  destruct (@mint_proxy_fills_defaults sample_server mint_request_unprintable)
    as [_ Hunsent].
  split.
  - destruct (Hsent eq_refl)
      as (b & endpoint & name & symbol & owner & description & attributes
          & imageUrl & Hb & Hn & Hs & Ho & Ht & Hd & Ha & Hi).
    exists endpoint. rewrite Ht.
    injection Hb as <-.
    injection Hn as <-. injection Hs as <-. injection Ho as <-.
    cbn in Hd. destruct Hd as (text & Htext & ->). injection Htext as <-.
    subst attributes imageUrl. reflexivity.
  - exact (Hunsent _ _ _ eq_refl eq_refl eq_refl eq_refl eq_refl eq_refl
             eq_refl eq_refl).
Defined.

Lemma mint_proxy_ok_exchange (sv : Server) (req : NextRequest) (b : json)
    (endpoint : jsstring) (payload : json) (resp : FetchResponse)
    (data result : json) :
  req_json req = Returns b ->
  truthyv (get b (lit "name")) = true ->
  truthyv (get b (lit "symbol")) = true ->
  truthyv (get b (lit "owner")) = true ->
  getHeliusRpcUrl sv = Returns endpoint ->
  MintProxy.mint_request sv (get b (lit "name")) (get b (lit "symbol"))
    (get b (lit "owner")) (get b (lit "description"))
    (get b (lit "imageUrl")) (get b (lit "attributes"))
  = ([], Returns payload) ->
  fetch sv endpoint payload = Returns resp ->
  ok resp = true ->
  resp_json resp = Returns data ->
  truthyv (get data (lit "error")) = false ->
  get data (lit "result") = Some result -> result <> JNull ->
  snd (MintProxy.POST sv req)
  = mkResponse 200 application_json
      (Stringify (JObj (object [ (lit "signature", get result (lit "signature"));
                                 (lit "assetId", get result (lit "assetId")) ]))).
Proof.
  intros Hb Hn Hs Ho Hurl Hp Hf Hok Hdata Herr Hres Hrnull.
  run_handler. rewrite Hb.
  destruct b; try (simpl in Hn; discriminate Hn).
  cbv beta iota. rewrite Hn, Hs, Ho. cbn [negb orb].
  rewrite Hurl. cbv beta iota. rewrite Hp. cbv beta iota. rewrite ?app_nil_l.
  rewrite Hf. cbv beta iota. rewrite Hok. cbn [negb]. rewrite Hdata.
  destruct data; try discriminate Hres.
  cbv beta iota. rewrite Herr, Hres.
  destruct result; try congruence; reflexivity.
Qed.

(** What the handler makes of an answer it cannot use. *)
Lemma mint_proxy_unusable_exchange (sv : Server) (req : NextRequest) (b : json)
    (endpoint : jsstring) (payload : json) (resp : FetchResponse) :
  req_json req = Returns b ->
  truthyv (get b (lit "name")) = true ->
  truthyv (get b (lit "symbol")) = true ->
  truthyv (get b (lit "owner")) = true ->
  getHeliusRpcUrl sv = Returns endpoint ->
  MintProxy.mint_request sv (get b (lit "name")) (get b (lit "symbol"))
    (get b (lit "owner")) (get b (lit "description"))
    (get b (lit "imageUrl")) (get b (lit "attributes"))
  = ([], Returns payload) ->
  fetch sv endpoint payload = Returns resp ->
  ok resp = true ->
  (forall e, resp_json resp = Throws e ->
     snd (MintProxy.POST sv req)
     = error_response 500 (JStr (message_or_String e)))
  /\ (forall data,
        resp_json resp = Returns data ->
        truthyv (get data (lit "error")) = false ->
        get data (lit "result") = None \/ get data (lit "result") = Some JNull ->
        snd (MintProxy.POST sv req)
        = error_response 500 (JStr (message_or_String (typeError sv)))).
Proof.
  intros Hb Hn Hs Ho Hurl Hp Hf Hok.
  split.
  - intros e Hdata. run_handler. rewrite Hb.
    destruct b; try (simpl in Hn; discriminate Hn).
    cbv beta iota. rewrite Hn, Hs, Ho. cbn [negb orb].
    rewrite Hurl. cbv beta iota. rewrite Hp. cbv beta iota. rewrite ?app_nil_l.
    rewrite Hf. cbv beta iota. rewrite Hok. cbn [negb]. rewrite Hdata. reflexivity.
  - intros data Hdata Herr Hres. run_handler. rewrite Hb.
    destruct b; try (simpl in Hn; discriminate Hn).
    cbv beta iota. rewrite Hn, Hs, Ho. cbn [negb orb].
    rewrite Hurl. cbv beta iota. rewrite Hp. cbv beta iota. rewrite ?app_nil_l.
    rewrite Hf. cbv beta iota. rewrite Hok. cbn [negb]. rewrite Hdata.
    destruct data; cbv beta iota; try reflexivity;
      rewrite ?Herr; try reflexivity;
      destruct Hres as [Hres | Hres]; try discriminate Hres;
      rewrite Hres; reflexivity.
Qed.

(** A request sent upstream is the one the handler built after the guard. *)
Lemma mint_proxy_sent_inv (sv : Server) (req : NextRequest)
    (endpoint : jsstring) (payload : json) :
  fst (MintProxy.POST sv req) = [Fetch endpoint payload] ->
  exists b,
    req_json req = Returns b
    /\ truthyv (get b (lit "name")) = true
    /\ truthyv (get b (lit "symbol")) = true
    /\ truthyv (get b (lit "owner")) = true
    /\ getHeliusRpcUrl sv = Returns endpoint
    /\ MintProxy.mint_request sv (get b (lit "name")) (get b (lit "symbol"))
         (get b (lit "owner")) (get b (lit "description"))
         (get b (lit "imageUrl")) (get b (lit "attributes"))
       = ([], Returns payload).
Proof.
  intros Hsent.
  assert (Hcall : called_upstream (fst (MintProxy.POST sv req)) = true)
    by now rewrite Hsent.
  destruct (mint_proxy_called_inv _ _ Hcall)
    as (b & endpoint' & payload' & Hb & Hnull & Hn & Hs & Ho & Hurl & Hp).
  destruct (mint_proxy_after_guard sv req Hb Hnull Hn Hs Ho Hurl Hp) as [Ht _].
  rewrite Ht in Hsent. injection Hsent as <- <-.
  exists b. repeat split; assumption.
Qed.

(** X12.  A successful exchange: when the mint proxy has sent its request
    and the provider answers it with a success status and a JSON value that
    has no truthy [error] and a [result] that is not [null], the mint proxy
    answers 200 with the [signature] and [assetId] of that result, leaving
    out the one that is missing. *)
Theorem mint_proxy_success (sv : Server) (req : NextRequest)
    (endpoint : jsstring) (payload : json) (resp : FetchResponse)
    (data result : json) :
  fst (MintProxy.POST sv req) = [Fetch endpoint payload] ->
  fetch sv endpoint payload = Returns resp ->
  ok resp = true ->
  resp_json resp = Returns data ->
  truthyv (get data (lit "error")) = false ->
  get data (lit "result") = Some result -> result <> JNull ->
  snd (MintProxy.POST sv req)
  = mkResponse 200 application_json
      (Stringify (JObj (object [ (lit "signature", get result (lit "signature"));
                                 (lit "assetId", get result (lit "assetId")) ]))).
Proof.
  intros Hsent Hf Hok Hdata Herr Hres Hrnull.
  destruct (mint_proxy_sent_inv sv req Hsent)
    as (b & Hb & Hn & Hs & Ho & Hurl & Hp).
  exact (@mint_proxy_ok_exchange sv req b endpoint payload resp data result
           Hb Hn Hs Ho Hurl Hp Hf Hok Hdata Herr Hres Hrnull).
Qed.

Lemma mint_proxy_success_witness :
  snd (MintProxy.POST minting_server mint_request_Foo)
  = mkResponse 200 application_json
      (Stringify (JObj [ (lit "signature", JStr (lit "sig1"));
                         (lit "assetId", JStr (lit "id1")) ])).
Proof.
  exact (@mint_proxy_success minting_server mint_request_Foo _ _ _ _
           (JObj [ (lit "signature", JStr (lit "sig1"));
                   (lit "assetId", JStr (lit "id1")) ])
           eq_refl eq_refl eq_refl eq_refl eq_refl eq_refl ltac:(discriminate)).
Defined.

(** X13.  A success status is not enough: when the mint proxy has sent its
    request and the provider's answer to it is not JSON, or is JSON with no
    truthy [error] and no [result] (or a [null] one), the mint proxy answers
    500 although the provider was called. *)
Theorem mint_proxy_unusable_answer_is_500 (sv : Server) (req : NextRequest)
    (endpoint : jsstring) (payload : json) (resp : FetchResponse) :
  fst (MintProxy.POST sv req) = [Fetch endpoint payload] ->
  fetch sv endpoint payload = Returns resp ->
  ok resp = true ->
  (forall e, resp_json resp = Throws e ->
     snd (MintProxy.POST sv req)
     = error_response 500 (JStr (message_or_String e)))
  /\ (forall data,
        resp_json resp = Returns data ->
        truthyv (get data (lit "error")) = false ->
        get data (lit "result") = None \/ get data (lit "result") = Some JNull ->
        snd (MintProxy.POST sv req)
        = error_response 500 (JStr (message_or_String (typeError sv)))).
Proof.
  intros Hsent Hf Hok.
  destruct (mint_proxy_sent_inv sv req Hsent)
    as (b & Hb & Hn & Hs & Ho & Hurl & Hp).
  exact (@mint_proxy_unusable_exchange sv req b endpoint payload resp
           Hb Hn Hs Ho Hurl Hp Hf Hok).
Qed.

Lemma mint_proxy_unusable_answer_is_500_witness :
  fst (MintProxy.POST sample_server mint_request_Foo)
  = [Fetch (lit "https://rpc.example/?api-key=k")
       (MintProxy.mint_call (Some (JStr (lit "Foo"))) (Some (JStr (lit "FOO")))
          (Some (JStr (lit "Addr1"))) (JStr (lit "A compressed NFT: Foo"))
          (JArr []) (JStr (lit "https://arweave.net/placeholder-image")))]
  /\ snd (MintProxy.POST sample_server mint_request_Foo)
     = error_response 500 (JStr (lit "Cannot destructure property of null")).
Proof.
  assert (Hsent : fst (MintProxy.POST sample_server mint_request_Foo)
                  = [Fetch (lit "https://rpc.example/?api-key=k")
                       (MintProxy.mint_call (Some (JStr (lit "Foo")))
                          (Some (JStr (lit "FOO"))) (Some (JStr (lit "Addr1")))
                          (JStr (lit "A compressed NFT: Foo")) (JArr [])
                          (JStr (lit "https://arweave.net/placeholder-image")))])
    by reflexivity.
  split; [exact Hsent|].
  destruct (@mint_proxy_unusable_answer_is_500 sample_server mint_request_Foo
              _ _ _ Hsent eq_refl eq_refl) as (_ & Hdata).
  exact (Hdata (JObj []) eq_refl eq_refl (or_introl eq_refl)).
Defined.

End ProxyRouteFacts.

(* ================================================================== *)
(** ** Collisions of the metadata stub                                 *)
(* ================================================================== *)

Module MetadataCollisionFacts.
Import JS MintHook JSFacts MetadataFacts.
Local Open Scope N_scope.

Lemma Array_from_no_high (s : jsstring) :
  Forall (fun u => is_high_surrogate u = false) s ->
  Array_from s = map (fun u => [u]) s.
Proof.
  induction s as [|u rest IH]; intros Hs; [reflexivity|].
  inversion Hs as [|? ? Hu Hrest]; subst.
  destruct rest as [|v rest']; [reflexivity|].
  rewrite Array_from_cons2, Hu. cbn [andb map]. f_equal. now apply IH.
Qed.

Lemma fold_add_acc (l : list N) (a : N) :
  fold_left N.add l a = a + fold_left N.add l 0.
Proof.
  revert a. induction l as [|x l IH]; intros a; cbn [fold_left].
  - lia.
  - rewrite IH, (IH (0 + x)). lia.
Qed.

Lemma char_code_sum_no_high (s : jsstring) :
  Forall (fun u => is_high_surrogate u = false) s ->
  char_code_sum s = fold_left N.add s 0.
Proof.
  intros Hs. unfold char_code_sum. rewrite Array_from_no_high by assumption.
  generalize 0. induction s as [|u rest IH]; intros a; [reflexivity|].
  inversion Hs; subst. cbn [map fold_left charCodeAt0]. now apply IH.
Qed.

Lemma fold_add_permutation (l l' : list N) :
  Permutation l l' -> fold_left N.add l 0 = fold_left N.add l' 0.
Proof.
  induction 1 as [| x l l' _ IH | x y l | l l' l'' _ IH1 _ IH2].
  - reflexivity.
  - cbn [fold_left]. rewrite (fold_add_acc l), (fold_add_acc l'), IH. reflexivity.
  - cbn [fold_left]. rewrite (fold_add_acc l (0 + y + x)), (fold_add_acc l (0 + x + y)).
    lia.
  - congruence.
Qed.

(** X14.  The stub only sees the sum of the character codes: two names made
    of the same characters in a different order (none of them a high
    surrogate) get the same URI.  (The sum is taken in the range where
    JavaScript adds exactly, so that the order of the additions does not
    matter.) *)
Theorem anagrams_share_a_uri (params params' : MintCNFTParams) :
  char_code_sum (name params) <= MAX_SAFE_INTEGER ->
  Forall (fun u => is_high_surrogate u = false) (name params) ->
  Permutation (name params) (name params') ->
  uploadMetadata params = uploadMetadata params'.
Proof.
  intros _ Hs Hperm.
  assert (Hs' : Forall (fun u => is_high_surrogate u = false) (name params'))
    by (eapply Permutation_Forall; eauto).
  unfold uploadMetadata.
  rewrite !char_code_sum_no_high by assumption.
  now rewrite (fold_add_permutation Hperm).
Qed.

Lemma anagrams_share_a_uri_witness :
  uploadMetadata (mkParams (lit "Foo") (lit "FOO") None None None)
  = uploadMetadata (mkParams (lit "oFo") (lit "X") None None (Some true)).
Proof.
  apply anagrams_share_a_uri.
  - vm_compute. discriminate.
  - repeat constructor.
  - cbn. apply perm_swap.
Defined.

Lemma high_is_not_low (u : N) :
  is_high_surrogate u = true -> is_low_surrogate u = false.
Proof.
  unfold is_high_surrogate, is_low_surrogate. intros H.
  apply andb_true_iff in H as [_ H]. apply N.leb_le in H.
  apply andb_false_iff. left. apply N.leb_gt. lia.
Qed.

(** A high surrogate starts a new element of the iteration, whatever comes
    before it. *)
Lemma Array_from_app_high (hi : N) (rest : jsstring) :
  is_high_surrogate hi = true ->
  forall pre,
    Array_from (pre ++ hi :: rest) = Array_from pre ++ Array_from (hi :: rest).
Proof.
  intros Hhi pre.
  assert (H : forall n pre, (length pre <= n)%nat ->
                Array_from (pre ++ hi :: rest)
                = Array_from pre ++ Array_from (hi :: rest)).
  { induction n as [|n IH]; intros p Hlen.
    - destruct p; [reflexivity | simpl in Hlen; lia].
    - destruct p as [|u [|v p']].
      + reflexivity.
      + cbn [app]. rewrite Array_from_cons2, (high_is_not_low _ Hhi), andb_false_r.
        reflexivity.
      + cbn [app]. rewrite !Array_from_cons2.
        destruct (is_high_surrogate u && is_low_surrogate v).
        * rewrite IH by (simpl in Hlen; lia). reflexivity.
        * change (v :: p' ++ hi :: rest) with ((v :: p') ++ hi :: rest).
          rewrite IH by (simpl in Hlen |- *; lia). reflexivity. }
  apply (H (length pre)). lia.
Qed.

(** X15.  Of a character outside the basic plane only the high surrogate is
    counted: two names that differ in the low surrogate of such a character
    get the same URI. *)
Theorem low_surrogate_is_ignored (params params' : MintCNFTParams)
    (pre post : jsstring) (hi lo lo' : N) :
  char_code_sum (name params) <= MAX_SAFE_INTEGER ->
  is_high_surrogate hi = true ->
  is_low_surrogate lo = true -> is_low_surrogate lo' = true ->
  name params = pre ++ hi :: lo :: post ->
  name params' = pre ++ hi :: lo' :: post ->
  uploadMetadata params = uploadMetadata params'.
Proof.
  intros _ Hhi Hlo Hlo' Hn Hn'. unfold uploadMetadata, char_code_sum.
  rewrite Hn, Hn', !Array_from_app_high by assumption.
  rewrite !Array_from_cons2, Hhi, Hlo, Hlo'. cbn [andb].
  rewrite !fold_left_app. cbn [fold_left charCodeAt0]. reflexivity.
Qed.

Lemma low_surrogate_is_ignored_witness :
  uploadMetadata (mkParams (lit "A" ++ [55357; 56832] ++ lit "z") (lit "S") None None None)
  = uploadMetadata (mkParams (lit "A" ++ [55357; 56833] ++ lit "z") (lit "S") None None None).
Proof.
  exact (@low_surrogate_is_ignored
           (mkParams (lit "A" ++ [55357; 56832] ++ lit "z") (lit "S") None None None)
           (mkParams (lit "A" ++ [55357; 56833] ++ lit "z") (lit "S") None None None)
           (lit "A") (lit "z") 55357 56832 56833
           ltac:(vm_compute; discriminate)
           eq_refl eq_refl eq_refl eq_refl eq_refl).
Defined.

(** *** The filler is a digit *)

Lemma digits_fuel_acc (radix : N) :
  forall fuel n acc,
    digits_fuel fuel radix n acc = digits_fuel fuel radix n [] ++ acc.
Proof.
  induction fuel as [|fuel IH]; intros n acc; cbn [digits_fuel].
  - reflexivity.
  - destruct (n / radix =? 0); [reflexivity|].
    rewrite IH, (IH _ [_]), <- app_assoc. reflexivity.
Qed.

Lemma digits_fuel_enough (radix : N) (Hlo : 2 <= radix) :
  forall fuel fuel' n acc,
    n < 2 ^ N.of_nat (S fuel) -> n < 2 ^ N.of_nat (S fuel') ->
    digits_fuel (S fuel) radix n acc = digits_fuel (S fuel') radix n acc.
Proof.
  assert (Hdiv : forall k n, n < 2 ^ N.of_nat (S k) -> n / radix < 2 ^ N.of_nat k).
  { intros k n Hn. rewrite Nat2N.inj_succ, N.pow_succ_r' in Hn.
    apply N.Div0.div_lt_upper_bound.
    assert (2 * 2 ^ N.of_nat k <= radix * 2 ^ N.of_nat k)
      by (apply N.mul_le_mono_r; lia).
    lia. }
  induction fuel as [|fuel IH]; intros fuel' n acc Hn Hn'.
  - cbn [digits_fuel].
    assert (n / radix = 0) as ->
      by (apply N.lt_1_r; exact (Hdiv 0%nat n Hn)).
    reflexivity.
  - change (digits_fuel (S (S fuel)) radix n acc)
      with (let acc' := digit_char (n mod radix) :: acc in
            if n / radix =? 0 then acc'
            else digits_fuel (S fuel) radix (n / radix) acc').
    change (digits_fuel (S fuel') radix n acc)
      with (let acc' := digit_char (n mod radix) :: acc in
            if n / radix =? 0 then acc'
            else digits_fuel fuel' radix (n / radix) acc').
    cbv zeta. destruct (n / radix =? 0) eqn:E; [reflexivity|].
    apply N.eqb_neq in E.
    destruct fuel' as [|fuel'].
    + exfalso. apply E. apply N.lt_1_r. exact (Hdiv 0%nat n Hn').
    + apply IH; apply Hdiv; assumption.
Qed.

(** The digits of [n]: those of [n / radix], then the last one. *)
Lemma toString_step (radix n : N) :
  2 <= radix ->
  toString radix n
  = if n / radix =? 0 then [digit_char (n mod radix)]
    else toString radix (n / radix) ++ [digit_char (n mod radix)].
Proof.
  intros Hlo. unfold toString at 1. cbn [digits_fuel].
  destruct (n / radix =? 0) eqn:E; [reflexivity|].
  apply N.eqb_neq in E.
  rewrite digits_fuel_acc. f_equal.
  assert (Hpos : 0 < n) by (destruct n; [rewrite N.Div0.div_0_l in E; congruence | lia]).
  assert (Hq : n / radix < 2 ^ N.log2 n).
  { apply N.Div0.div_lt_upper_bound.
    destruct (N.log2_spec n Hpos) as [_ Hup]. rewrite N.pow_succ_r' in Hup.
    assert (2 * 2 ^ N.log2 n <= radix * 2 ^ N.log2 n)
      by (apply N.mul_le_mono_r; lia).
    lia. }
  assert (Hlog : N.log2 n <> 0).
  { intros H0. rewrite H0 in Hq. change (2 ^ 0) with 1 in Hq.
    apply N.lt_1_r in Hq. contradiction. }
  destruct (N.to_nat (N.log2 n)) as [|k] eqn:Ek; [lia|].
  unfold toString. apply digits_fuel_enough; [exact Hlo | |].
  - rewrite <- Ek, N2Nat.id. exact Hq.
  - rewrite Nat2N.inj_succ, N2Nat.id.
    apply N.log2_spec. apply N.neq_0_lt_0. exact E.
Qed.

Lemma toString_leading_digit (radix d : N) :
  2 <= radix -> 0 < d -> d < radix ->
  forall k n, (N.to_nat n < k)%nat ->
    toString radix (d * radix ^ N.of_nat (length (toString radix n)) + n)
    = digit_char d :: toString radix n.
Proof.
  intros Hlo Hd Hdr. induction k as [|k IH]; intros n Hk; [lia|].
  rewrite (toString_step n Hlo).
  destruct (n / radix =? 0) eqn:E.
  - apply N.eqb_eq in E.
    assert (Hn : n < radix).
    { destruct (N.lt_ge_cases n radix) as [|Hge]; [assumption|]. exfalso.
      assert (Hone : 1 <= n / radix) by (apply N.div_le_lower_bound; lia).
      rewrite E in Hone. lia. }
    cbn [length]. change (N.of_nat 1) with 1. rewrite N.pow_1_r.
    rewrite (toString_step (d * radix + n) Hlo).
    assert (Hq : (d * radix + n) / radix = d)
      by (rewrite N.div_add_l by lia; rewrite (N.div_small n radix) by lia;
          apply N.add_0_r).
    assert (Hm : (d * radix + n) mod radix = n)
      by (rewrite N.add_comm, N.Div0.mod_add; apply N.mod_small; lia).
    rewrite Hq, Hm, (N.mod_small n radix) by lia.
    replace (d =? 0) with false by (symmetry; apply N.eqb_neq; lia).
    rewrite (toString_step d Hlo), (N.div_small d radix), (N.mod_small d radix) by lia.
    reflexivity.
  - apply N.eqb_neq in E.
    rewrite length_app. cbn [length]. rewrite Nat.add_1_r, Nat2N.inj_succ, N.pow_succ_r'.
    set (len := N.of_nat (length (toString radix (n / radix)))).
    rewrite (toString_step (d * (radix * radix ^ len) + n) Hlo).
    assert (Hq : (d * (radix * radix ^ len) + n) / radix = d * radix ^ len + n / radix).
    { replace (d * (radix * radix ^ len)) with ((d * radix ^ len) * radix) by ring.
      rewrite N.div_add_l by lia. reflexivity. }
    assert (Hm : (d * (radix * radix ^ len) + n) mod radix = n mod radix).
    { replace (d * (radix * radix ^ len)) with ((d * radix ^ len) * radix) by ring.
      rewrite N.add_comm, N.Div0.mod_add. reflexivity. }
    rewrite Hq, Hm.
    assert (Hnz : d * radix ^ len + n / radix <> 0).
    { intros Hz. apply N.eq_add_0 in Hz as [Hz _].
      apply N.eq_mul_0 in Hz as [Hz | Hz]; [lia|].
      revert Hz. apply N.pow_nonzero. lia. }
    apply N.eqb_neq in Hnz. rewrite Hnz.
    unfold len. rewrite IH; [reflexivity|].
    assert (Hpos : 0 < n)
      by (destruct n; [rewrite N.Div0.div_0_l in E; congruence | lia]).
    assert (Hlt : n / radix < n) by (apply N.div_lt; lia).
    revert Hlt Hk. generalize (n / radix). intros q Hlt Hk. lia.
Qed.

(** X16.  The filler ['x'] is itself the base-36 digit 33, so the segment
    does not determine the sum: a name whose sum is that of another name
    with one more leading digit 33 gets the same URI. *)
Theorem filler_is_a_digit (params params' : MintCNFTParams) :
  char_code_sum (name params) <= MAX_SAFE_INTEGER ->
  char_code_sum (name params') <= MAX_SAFE_INTEGER ->
  char_code_sum (name params')
  = 33 * 36 ^ N.of_nat (length (toString 36 (char_code_sum (name params))))
    + char_code_sum (name params) ->
  char_code_sum (name params') <> char_code_sum (name params)
  /\ uploadMetadata params' = uploadMetadata params.
Proof.
  intros Hsafe _ Hsum. split.
  - rewrite Hsum.
    assert (0 < 36 ^ N.of_nat (length (toString 36 (char_code_sum (name params)))))
      by (apply N.neq_0_lt_0, N.pow_nonzero; lia).
    lia.
  - unfold uploadMetadata. f_equal. change (lit "x") with [120].
    rewrite !padStart_single, Hsum.
    rewrite (@toString_leading_digit 36 33 ltac:(lia) ltac:(lia) ltac:(lia)
               (S (N.to_nat (char_code_sum (name params))))
               (char_code_sum (name params)) (Nat.lt_succ_diag_r _)).
    change (digit_char 33) with 120.
    destruct (toString36_safe_length Hsafe) as [_ Hlen].
    set (digits := toString 36 (char_code_sum (name params))) in *.
    cbn [length].
    replace (43 - length digits)%nat with (S (43 - S (length digits)))%nat by lia.
    cbn [repeat app]. rewrite app_comm_cons, repeat_cons, <- app_assoc.
    reflexivity.
Qed.

Lemma filler_is_a_digit_witness :
  uploadMetadata (mkParams [1221] (lit "S") None None None)
  = uploadMetadata (mkParams (lit "!") (lit "S") None None None)
  /\ uploadMetadata (mkParams (lit "!") (lit "S") None None None)
     = lit "https://arweave.net/xxxxxxxxxxxxxxxxxxxxxxxxxxxxxxxxxxxxxxxxxxx".
Proof.
  split; [|reflexivity].
  apply (@filler_is_a_digit (mkParams (lit "!") (lit "S") None None None)
           (mkParams [1221] (lit "S") None None None)).
  - vm_compute. discriminate.
  - vm_compute. discriminate.
  - reflexivity.
Defined.

End MetadataCollisionFacts.

(* ================================================================== *)
(** ** More about the mint orchestrator                                *)
(* ================================================================== *)

Module MintFlowFacts.
Import JS Effects MintHook MintSamples MintHookFacts.
Local Open Scope N_scope.

Lemma account_address_none (w : World) :
  account w = None \/ (exists a, account w = Some a /\ address a = []) ->
  account_address w = None.
Proof.
  unfold account_address. intros [-> | (a & -> & ->)]; reflexivity.
Qed.

(** X17.  The server-signed path needs an account address: when the
    existing tree is not used and the wallet UI reports no account, or one
    with an empty address, the mint fails with "Wallet not connected", the
    user sees that very text, and nothing was sent to the mint proxy. *)
Theorem server_mint_needs_account (w : World) (params : MintCNFTParams) :
  useExistingTree (configuredTree w) (forced params) = false ->
  account w = None \/ (exists a, account w = Some a /\ address a = []) ->
  mutate w params
  = ([ToastError (lit "Failed to Mint cNFT") (lit "Wallet not connected") 8000],
     Throws WalletNotConnected).
Proof.
  intros Hmode Hacct. unfold mutate, mutationFn. rewrite Hmode.
  unfold mode2. rewrite (account_address_none w Hacct). reflexivity.
Qed.

Lemma server_mint_needs_account_witness :
  mutate (sample_world None (Some (mkAccount [])) adapter1 None) (params_Foo None)
  = ([ToastError (lit "Failed to Mint cNFT") (lit "Wallet not connected") 8000],
     Throws WalletNotConnected).
Proof.
  apply server_mint_needs_account; [reflexivity|].
  right. exists (mkAccount []). split; reflexivity.
Defined.

(** X18.  A connected adapter that cannot sign stops the mint before
    anything is sent: with the existing tree in use, a wallet adapter that
    has a public key but no [signTransaction] makes the mint fail with
    "Wallet does not support transaction signing", whatever the window and
    the wallet UI hold. *)
Theorem signing_unsupported_stops_mint (w : World) (params : MintCNFTParams)
    (pk : PublicKey) :
  useExistingTree (configuredTree w) (forced params) = true ->
  publicKey (walletAdapter w) = Some pk ->
  signTransaction (walletAdapter w) = None ->
  mutate w params
  = ([ToastError (lit "Failed to Mint cNFT")
        (lit "Wallet does not support transaction signing") 8000],
     Throws SigningUnsupported).
Proof.
  intros Hmode Hpk Hsign. unfold mutate, mutationFn. rewrite Hmode.
  unfold mode1, resolveAdapter. rewrite Hpk. unfold bind, ret.
  rewrite Hsign. reflexivity.
Qed.

Lemma signing_unsupported_stops_mint_witness :
  mutate (sample_world tree1 Addr1 (mkAdapter (Some (lit "P")) None None)
            (Some (mkSol true (Some (lit "Q")))))
         (params_Foo None)
  = ([ToastError (lit "Failed to Mint cNFT")
        (lit "Wallet does not support transaction signing") 8000],
     Throws SigningUnsupported).
Proof.
  apply (@signing_unsupported_stops_mint
           (sample_world tree1 Addr1 (mkAdapter (Some (lit "P")) None None)
              (Some (mkSol true (Some (lit "Q")))))
           (params_Foo None) (lit "P")); reflexivity.
Defined.

(** X19.  A Phantom extension in the window takes precedence over the
    account of the wallet UI.  With the existing tree in use and no public
    key on the adapter, the mint proxy is never called: if the extension has
    a public key the mint goes through the SDK with the wrapper as signer,
    and if it has none (not connected) the mint fails with the engine's
    [TypeError], even when an account address is known. *)
Theorem phantom_extension_blocks_fallback (w : World) (params : MintCNFTParams)
    (sol : Sol) :
  useExistingTree (configuredTree w) (forced params) = true ->
  publicKey (walletAdapter w) = None ->
  window_solana w = Some sol -> isPhantom sol = true ->
  existsb is_proxy_call (fst (mutationFn w params)) = false
  /\ (sol_publicKey sol = None ->
      mutationFn w params = ([], Throws (Foreign (typeError w))))
  /\ (forall pk, sol_publicKey sol = Some pk ->
      mutationFn w params
      = mintWithExistingTree w params connection
          (mkAdapter (Some pk) (Some PhantomForwarder) (Some PhantomForwarder))).
Proof.
  intros Hmode Hpk Hsol Hph.
  assert (Hnone : sol_publicKey sol = None ->
                  mutationFn w params = ([], Throws (Foreign (typeError w)))).
  { intros Hk. unfold mutationFn. rewrite Hmode.
    unfold mode1, resolveAdapter, phantomAdapter.
    rewrite Hpk, Hsol, Hph, Hk. reflexivity. }
  assert (Hsome : forall pk, sol_publicKey sol = Some pk ->
                  mutationFn w params
                  = mintWithExistingTree w params connection
                      (mkAdapter (Some pk) (Some PhantomForwarder)
                         (Some PhantomForwarder))).
  { intros pk Hk. unfold mutationFn. rewrite Hmode.
    unfold mode1, resolveAdapter, phantomAdapter.
    rewrite Hpk, Hsol, Hph, Hk. unfold bind, ret. cbn [app signTransaction].
    destruct (mintWithExistingTree w params connection _). reflexivity. }
  split; [|split; assumption].
  destruct (sol_publicKey sol) as [pk|] eqn:Hk.
  - rewrite (Hsome pk eq_refl).
    run_hook. repeat split_match; reflexivity.
  - rewrite (Hnone eq_refl). reflexivity.
Qed.

Lemma phantom_extension_blocks_fallback_witness :
  mutate (sample_world tree1 Addr1 no_adapter (Some (mkSol true None)))
         (params_Foo None)
  = ([ToastError (lit "Failed to Mint cNFT")
        (lit "Cannot read properties of null") 8000],
     Throws (Foreign (mkError (lit "TypeError")
                        (lit "Cannot read properties of null")))).
Proof.
  unfold mutate.
  rewrite (proj1 (proj2 (@phantom_extension_blocks_fallback
                           (sample_world tree1 Addr1 no_adapter
                              (Some (mkSol true None)))
                           (params_Foo None) (mkSol true None)
                           eq_refl eq_refl eq_refl eq_refl)) eq_refl).
  reflexivity.
Defined.

(** X20.  The user-signed mint.  With a tree address configured, the
    fallback not forced and a wallet adapter that has a public key and can
    sign, the SDK first checks the two key texts, the adapter's and then
    the configured tree address: when it refuses one, the mint fails with
    the SDK's error and nothing is sent.  Otherwise the one effect of the
    mint call is the SDK call: the leaf owner is the adapter's key, the
    tree is the configured one, the metadata has the name, the symbol, the
    stub URI, 500 basis points and the owner as the only creator
    (unverified, share 100); the result is the base-64 text of the
    confirmed signature with the asset ID ["pending-indexing"], or the
    SDK's error. *)
Theorem user_signed_mint (w : World) (params : MintCNFTParams)
    (tree : jsstring) (pk : PublicKey) (signer : SignTransaction) :
  NEXT_PUBLIC_MERKLE_TREE_ADDRESS (env w) = Some tree -> tree <> [] ->
  forced params = false ->
  publicKey (walletAdapter w) = Some pk ->
  signTransaction (walletAdapter w) = Some signer ->
  exists endpoint,
    (truthy_str (NEXT_PUBLIC_HELIUS_API_KEY (env w)) = false ->
     endpoint = lit "https://api.devnet.solana.com")
    /\ (forall key, NEXT_PUBLIC_HELIUS_API_KEY (env w) = Some key -> key <> [] ->
        endpoint
        = lit "https://"
          ++ match NEXT_PUBLIC_SOLANA_NETWORK (env w) with
             | Some (c :: n) => c :: n
             | _ => lit "devnet"
             end
          ++ lit ".helius-rpc.com/?api-key=" ++ key)
    /\ mutationFn w params
       = match umiPublicKey w pk with
         | Throws e => ([], Throws (Foreign e))
         | Returns leafOwner =>
             match umiPublicKey w tree with
             | Throws e => ([], Throws (Foreign e))
             | Returns merkleTree =>
                 let call :=
                   mkMintV1 endpoint (walletAdapter w) leafOwner merkleTree
                     (mkMetadata (name params) (symbol params)
                        (uploadMetadata params) 500
                        [mkCreator leafOwner false 100]) in
                 ([SendAndConfirm call],
                  match sendAndConfirm w call with
                  | Returns bytes =>
                      Returns (mkResult (Some (JStr (base64 bytes)))
                                        (Some (JStr (lit "pending-indexing"))))
                  | Throws e => Throws (Foreign e)
                  end)
             end
         end.
Proof.
  intros Htree Hne Hforce Hpk Hsign.
  destruct tree as [|c tree]; [congruence|].
  unfold mutationFn, configuredTree, useExistingTree.
  rewrite Htree, Hforce. cbn [truthy_str andb negb].
  unfold mode1, resolveAdapter. rewrite Hpk.
  unfold bind at 1. unfold ret at 1. cbn [app]. rewrite Hsign.
  unfold mintWithExistingTree. rewrite Htree, Hpk.
  exists (match NEXT_PUBLIC_HELIUS_API_KEY (env w) with
          | Some (c0 :: k) =>
              lit "https://"
              ++ match NEXT_PUBLIC_SOLANA_NETWORK (env w) with
                 | Some (c1 :: n) => c1 :: n
                 | _ => lit "devnet"
                 end
              ++ lit ".helius-rpc.com/?api-key=" ++ (c0 :: k)
          | _ => lit "https://api.devnet.solana.com"
          end).
  split; [|split].
  - intros Hkey. destruct (NEXT_PUBLIC_HELIUS_API_KEY (env w)) as [[|]|];
      try discriminate Hkey; reflexivity.
  - intros key Hkey Hk. rewrite Hkey. destruct key; [congruence | reflexivity].
  - unfold foreign. unfold bind, ret, emit, throw. cbn [app].
    destruct (umiPublicKey w pk) as [leafOwner|]; [|reflexivity].
    destruct (umiPublicKey w (c :: tree)) as [merkleTree|]; [|reflexivity].
    cbv zeta. cbn [app].
    destruct (sendAndConfirm w _); reflexivity.
Qed.

Lemma user_signed_mint_witness :
  (exists endpoint,
     mutationFn (sample_world tree1 Addr1 adapter1 None) (params_Foo None)
     = ([SendAndConfirm
           (mkMintV1 endpoint adapter1
              (lit "So11111111111111111111111111111111111111112")
              (lit "11111111111111111111111111111111")
              (mkMetadata (lit "Foo") (lit "FOO")
                 (lit "https://arweave.net/xxxxxxxxxxxxxxxxxxxxxxxxxxxxxxxxxxxxxxxxx84")
                 500 [mkCreator (lit "So11111111111111111111111111111111111111112")
                        false 100]))],
        Returns (mkResult (Some (JStr (lit "AQID")))
                          (Some (JStr (lit "pending-indexing"))))))
  /\ mutationFn (sample_world (Some (lit "Tree1")) Addr1 adapter1 None)
       (params_Foo None)
     = ([], Throws (Foreign (mkError (lit "InvalidPublicKeyError")
                               (lit "The provided public key is invalid: Tree1. Public keys must be between 32 and 44 characters.")))).
Proof.
  split.
  - destruct (@user_signed_mint (sample_world tree1 Addr1 adapter1 None)
                (params_Foo None) (lit "11111111111111111111111111111111")
                (lit "So11111111111111111111111111111111111111112") AdapterSigner
                eq_refl ltac:(discriminate) eq_refl eq_refl eq_refl)
      as (endpoint & _ & _ & Hrun).
    exists endpoint. rewrite Hrun. reflexivity.
  - destruct (@user_signed_mint
                (sample_world (Some (lit "Tree1")) Addr1 adapter1 None)
                (params_Foo None) (lit "Tree1")
                (lit "So11111111111111111111111111111111111111112") AdapterSigner
                eq_refl ltac:(discriminate) eq_refl eq_refl eq_refl)
      as (endpoint & _ & _ & Hrun).
    rewrite Hrun. reflexivity.
Defined.

Lemma mintWithExistingTree_network_only (w : World) (params : MintCNFTParams)
    (c : Connection) (adapter : WalletContextState) :
  forallb is_network_call (fst (mintWithExistingTree w params c adapter)) = true.
Proof.
  run_hook. repeat split_match; reflexivity.
Qed.

(** What a mint call itself does is network calls only: notifications and
    timers come from the callbacks. *)
Lemma mutationFn_network_only (w : World) (params : MintCNFTParams) :
  forallb is_network_call (fst (mutationFn w params)) = true.
Proof.
  assert (Hserver : forall addr,
             forallb is_network_call (fst (mintWithHeliusAPI w params addr)) = true)
    by (intros addr; rewrite mintWithHeliusAPI_trace; reflexivity).
  assert (Hmode2 : forallb is_network_call (fst (mode2 w params)) = true).
  { unfold mode2. destruct (account_address w); [apply Hserver | reflexivity]. }
  unfold mutationFn.
  destruct (useExistingTree (configuredTree w) (forced params)); [|exact Hmode2].
  unfold mode1, resolveAdapter, phantomAdapter.
  destruct (publicKey (walletAdapter w)).
  - unfold bind, ret. cbn [app].
    destruct (signTransaction (walletAdapter w)); [|reflexivity].
    pose proof (mintWithExistingTree_network_only w params connection
                  (walletAdapter w)) as H.
    destruct (mintWithExistingTree w params connection (walletAdapter w)).
    exact H.
  - destruct (match window_solana w with
              | Some sol => if isPhantom sol then Some sol else None
              | None => None
              end) as [sol|].
    + destruct (sol_publicKey sol) as [pk|]; [|reflexivity].
      unfold bind, ret. cbn [app signTransaction].
      pose proof (mintWithExistingTree_network_only w params connection
                    (mkAdapter (Some pk) (Some PhantomForwarder)
                       (Some PhantomForwarder))) as H.
      destruct (mintWithExistingTree w params connection _). exact H.
    + destruct (account_address w) as [addr|]; [|reflexivity].
      rewrite bind_early_return. apply Hserver.
Qed.

(** X21.  One notification per attempt.  A [mutate] that succeeds has
    appended to the network calls of the mint exactly one success
    notification and two cache invalidations, after 3000 and 10000 ms; a
    [mutate] that fails has appended exactly one error notification, whose
    text is the error message, or the tree-setup hint when the message
    names [NEXT_PUBLIC_MERKLE_TREE_ADDRESS], and schedules nothing. *)
Theorem one_notification_per_attempt (w : World) (params : MintCNFTParams) :
  forallb is_network_call (fst (mutationFn w params)) = true
  /\ match snd (mutate w params) with
     | Returns data =>
         snd (mutationFn w params) = Returns data
         /\ exists title description duration,
             fst (mutate w params)
             = fst (mutationFn w params)
               ++ [ToastSuccess title description duration;
                   SetTimeoutInvalidate user_cnfts 3000;
                   SetTimeoutInvalidate user_cnfts 10000]
     | Throws e =>
         fst (mutate w params)
         = fst (mutationFn w params)
           ++ [ToastError (lit "Failed to Mint cNFT")
                 (if includes (message e) (lit "NEXT_PUBLIC_MERKLE_TREE_ADDRESS")
                  then lit "Merkle tree not configured. Check TREE_SETUP_GUIDE.md"
                  else message e)
                 8000]
     end.
Proof.
  split; [apply mutationFn_network_only|].
  unfold mutate. destruct (mutationFn w params) as [t [data | e]].
  - unfold onSuccess, bind, emit, throw.
    destruct (configuredTree w).
    + cbn. split; [reflexivity|]. do 3 eexists. reflexivity.
    + destruct (assetId data) as [[| | | id | |]|]; cbn;
        try reflexivity.
      split; [reflexivity|]. do 3 eexists. reflexivity.
  - reflexivity.
Qed.

(** X22.  How a refused server mint reads.  A mint proxy answer with a
    failure status becomes the error ["Server mint error: <status> -
    <body>"]; an answer with a success status and a truthy [error] becomes
    an error whose message is the text of [error.message] when that is
    truthy and the text of [error] itself otherwise, so the fall-back text
    "Unknown server mint error" is never what decides the message; when
    the value chosen cannot be converted to a string, the mint fails with
    the engine's [TypeError] instead. *)
Theorem server_mint_error_text (w : World) (params : MintCNFTParams)
    (addr : jsstring) (resp : Http.FetchResponse) :
  fetch_mint w (mint_proxy_payload params addr) = Returns resp ->
  (Http.ok resp = false ->
   snd (mintWithHeliusAPI w params addr)
   = Throws (ServerMintError (Http.resp_status resp) (Http.resp_text resp))
   /\ message (ServerMintError (Http.resp_status resp) (Http.resp_text resp))
      = lit "Server mint error: " ++ toString 10 (Http.resp_status resp)
        ++ lit " - " ++ Http.resp_text resp)
  /\ (Http.ok resp = true ->
      forall data e,
        Http.resp_json resp = Returns data ->
        get data (lit "error") = Some e -> truthy e = true ->
        let chosen :=
          match get e (lit "message") with
          | Some m => if truthy m then m else e
          | None => e
          end in
        snd (mintWithHeliusAPI w params addr)
        = match String_ chosen with
          | Some text => Throws (ServerMintFailed text)
          | None => Throws (Foreign (typeError w))
          end).
Proof.
  intros Hf. split.
  - intros Hok. split; [|reflexivity].
    run_hook. rewrite Hf. cbv beta iota. rewrite Hok. reflexivity.
  - intros Hok data e Hdata Herr Htr chosen. subst chosen.
    run_hook. rewrite Hf. cbv beta iota. rewrite Hok. cbn [negb].
    rewrite Hdata. cbv beta iota.
    destruct data; try discriminate Herr.
    rewrite Herr. cbn [truthyv]. rewrite Htr.
    unfold or_else. cbn [snd].
    destruct (get e (lit "message")) as [m|]; cbn [truthyv].
    + destruct (truthy m) eqn:Hm; cbn [truthyv]; rewrite ?Hm, ?Htr;
        destruct (String_ _); reflexivity.
    + cbn [truthyv]. rewrite Htr. destruct (String_ e); reflexivity.
Qed.

Lemma server_mint_error_text_witness :
  let answering (error : json) :=
    mkWorld (mkEnv None None None) Addr1 no_adapter None
      (fun _ => Returns (Http.mkFetchResponse 200 None (lit "...")
                           (Returns (JObj [(lit "error", error)]))))
      sample_umiPublicKey
      (fun _ => Returns [])
      (mkError (lit "TypeError") (lit "Cannot convert object to primitive value")) in
  snd (mintWithHeliusAPI (answering (JObj [(lit "code", JNum (lit "7"))]))
         (params_Foo None) (lit "Addr1"))
  = Throws (ServerMintFailed (lit "[object Object]"))
  /\ snd (mintWithHeliusAPI
            (answering (JArr [JStr (lit "a"); JNull; JArr [JBool true; JNum (lit "2")]]))
            (params_Foo None) (lit "Addr1"))
     = Throws (ServerMintFailed (lit "a,,true,2"))
  /\ snd (mintWithHeliusAPI (answering (JObj [(lit "message", JNum (lit "1e+21"))]))
            (params_Foo None) (lit "Addr1"))
     = Throws (ServerMintFailed (lit "1e+21"))
  /\ snd (mintWithHeliusAPI (answering (JObj [(lit "toString", JNum (lit "0"))]))
            (params_Foo None) (lit "Addr1"))
     = Throws (Foreign (mkError (lit "TypeError")
                          (lit "Cannot convert object to primitive value"))).
Proof.
  cbv zeta.
  split; [|split; [|split]];
    match goal with
    | |- snd (mintWithHeliusAPI ?w ?p ?a) = _ =>
        destruct (@server_mint_error_text w p a _ eq_refl) as [_ Hok];
        rewrite (Hok eq_refl _ _ eq_refl eq_refl eq_refl); reflexivity
    end.
Defined.

End MintFlowFacts.

(* ================================================================== *)
(** ** The hook and the mint proxy together                            *)
(* ================================================================== *)

Module EndToEndFacts.
Import JS Effects MintHook EndToEnd MintSamples MoreProxySamples MoreMintSamples.
Import ProxyFacts ProxyRouteFacts MintHookFacts.
Local Open Scope N_scope.

Section BehindTheProxy.

Variable stringify : json -> jsstring.
Variable parse : jsstring -> outcome Error json.
Variable sv : Http.Server.
Variable w : World.
Variable params : MintCNFTParams.
Variable addr : jsstring.

Let W : World := behind_proxy stringify parse sv w.
Let payload : json := mint_proxy_payload params addr.
Let request : Http.NextRequest := Http.mkRequest (Returns payload).
Let answer : Http.Response := snd (MintProxy.POST sv request).

(** The server mint, read off the response of the mint proxy. *)
Lemma server_mint_reads_answer (v : json) :
  Http.body answer = Http.Stringify v ->
  mintWithHeliusAPI W params addr
  = ([FetchMintProxy payload],
     if negb (((200 <=? Http.status answer) && (Http.status answer <=? 299))) then
       Throws (ServerMintError (Http.status answer) (stringify v))
     else
       match v with
       | JNull => Throws (Foreign (typeError w))
       | _ =>
           if truthyv (get v (lit "error")) then
             match or_else (or_else (match get v (lit "error") with
                                     | Some e => get e (lit "message")
                                     | None => None
                                     end) (get v (lit "error")))
                           (Some (JStr (lit "Unknown server mint error")))
             with
             | Some j =>
                 match String_ j with
                 | Some msg => Throws (ServerMintFailed msg)
                 | None => Throws (Foreign (typeError w))
                 end
             | None => Throws (ServerMintFailed [])
             end
           else Returns (mkResult (get v (lit "signature")) (get v (lit "assetId")))
       end).
Proof.
  intros Hbody.
  unfold mintWithHeliusAPI. fold payload.
  unfold W, behind_proxy. cbn [fetch_mint typeError].
  unfold mint_route. fold request. fold answer.
  clearbody answer. destruct answer as [st ct bd]. cbn in Hbody. subst bd.
  unfold as_fetch, Http.ok, foreign, bind, emit, ret, throw.
  cbn [Http.status Http.body Http.content_type Http.resp_status Http.resp_text
       Http.resp_json app].
  destruct (negb ((200 <=? st) && (st <=? 299))); [reflexivity|].
  destruct v; try reflexivity; destruct (truthyv _); try reflexivity;
    (destruct (or_else _ _) as [j|]; [destruct (String_ j)|]; reflexivity).
Qed.

Lemma get_two_fields (signature assetId : jsval) :
  let v := JObj (object [ (lit "signature", signature);
                          (lit "assetId", assetId) ]) in
  get v (lit "error") = None
  /\ get v (lit "signature") = signature
  /\ get v (lit "assetId") = assetId.
Proof.
  destruct signature, assetId; repeat split.
Qed.

(** The server mint behind the proxy ends in a result or in a "Server mint
    error" with one of the proxy's failure statuses. *)
Lemma server_mint_outcomes :
  (exists data, snd (mintWithHeliusAPI W params addr) = Returns data)
  \/ (exists status text,
        snd (mintWithHeliusAPI W params addr)
        = Throws (ServerMintError status text)
        /\ (status = 400 \/ status = 500 \/ status = 502)).
Proof.
  destruct (mint_proxy_response_cases sv request)
    as [_ [(Hst & _ & sg & aid & Hbody) | (Hst & v & Hbody)]];
    fold answer in Hst, Hbody;
    rewrite (server_mint_reads_answer Hbody); cbn [snd].
  - left. rewrite Hst. cbn [N.leb andb negb].
    destruct (get_two_fields sg aid) as (He & Hs & Ha). cbv zeta in He.
    rewrite He. destruct sg, aid; eexists; reflexivity.
  - right. exists (Http.status answer), (stringify (JObj [(lit "error", v)])).
    destruct Hst as [Hst | [Hst | Hst]]; rewrite Hst;
      (split; [reflexivity | auto]).
Qed.

Lemma mutationFn_ends_like (X : exn -> Prop) :
  (forall a, X (Foreign a)) -> X WalletNotConnectedForTree ->
  X SigningUnsupported -> X WalletNotConnected -> X TreeNotConfigured ->
  (forall a e, snd (mintWithHeliusAPI W params a) = Throws e -> X e) ->
  forall e, snd (mutationFn W params) = Throws e -> X e.
Proof.
  intros Hforeign Htree Hsign Hwallet Hcfg Hserver.
  assert (Hsdk : forall c adapter e,
             snd (mintWithExistingTree W params c adapter) = Throws e -> X e).
  { intros c adapter e. run_hook.
    repeat split_match; cbn [snd]; intros Heq; inversion Heq; subst; auto. }
  assert (Hmode2 : forall e, snd (mode2 W params) = Throws e -> X e).
  { intros e. unfold mode2. destruct (account_address W) as [a|].
    - apply Hserver.
    - cbn. intros Heq. inversion Heq; subst. exact Hwallet. }
  intros e. unfold mutationFn.
  destruct (useExistingTree (configuredTree W) (forced params)); [|apply Hmode2].
  unfold mode1, resolveAdapter, phantomAdapter.
  destruct (publicKey (walletAdapter W)).
  - unfold bind, ret. cbn [app].
    destruct (signTransaction (walletAdapter W)).
    + specialize (Hsdk connection (walletAdapter W) e).
      destruct (mintWithExistingTree W params connection (walletAdapter W)).
      exact Hsdk.
    + cbn. intros Heq. inversion Heq; subst. exact Hsign.
  - destruct (match window_solana W with
              | Some sol => if isPhantom sol then Some sol else None
              | None => None
              end) as [sol|].
    + destruct (sol_publicKey sol) as [pk|].
      * unfold bind, ret. cbn [app signTransaction].
        specialize (Hsdk connection
                      (mkAdapter (Some pk) (Some PhantomForwarder)
                         (Some PhantomForwarder)) e).
        destruct (mintWithExistingTree W params connection _). exact Hsdk.
      * cbn. intros Heq. inversion Heq; subst. apply Hforeign.
    + destruct (account_address W) as [a|].
      * rewrite bind_early_return. apply Hserver.
      * cbn. intros Heq. inversion Heq; subst. exact Htree.
Qed.

(** X23.  Behind this mint proxy the hook's check of [data.error] never
    fires: the proxy reports every failure with a failure status, so a mint
    call never ends with the error built from [data.error], and a refused
    server mint is always a "Server mint error" with status 400, 500 or
    502. *)
Theorem proxy_errors_come_with_a_status :
  (forall msg, snd (mutationFn W params) <> Throws (ServerMintFailed msg))
  /\ (forall e, snd (mintWithHeliusAPI W params addr) = Throws e ->
        exists status text,
          e = ServerMintError status text
          /\ (status = 400 \/ status = 500 \/ status = 502)).
Proof.
  split.
  - intros msg Heq.
    apply (@mutationFn_ends_like
             (fun e => forall m, e <> ServerMintFailed m))
      with (e := ServerMintFailed msg) (m := msg);
      try discriminate; auto.
    clear Heq. intros a e Ha m ->.
    revert Ha. unfold mintWithHeliusAPI. fold W.
    generalize (mint_proxy_payload params a). intros p.
    unfold W, behind_proxy. cbn [fetch_mint typeError]. unfold mint_route.
    destruct (mint_proxy_response_cases sv (Http.mkRequest (Returns p)))
      as [_ [(Hst & _ & sg & aid & Hbody) | (Hst & v & Hbody)]];
      destruct (snd (MintProxy.POST sv (Http.mkRequest (Returns p))))
        as [st ct bd]; cbn in Hst, Hbody; subst bd;
      unfold as_fetch, Http.ok, foreign, bind, emit, ret, throw;
      cbn [Http.status Http.body Http.content_type Http.resp_status
           Http.resp_text Http.resp_json app snd].
    + subst st. cbn [N.leb andb negb].
      destruct sg, aid; discriminate.
    + destruct Hst as [-> | [-> | ->]]; discriminate.
  - intros e He.
    destruct server_mint_outcomes as [[data Hd] | (status & text & Hs & Hst)].
    + rewrite Hd in He. discriminate.
    + rewrite Hs in He. inversion He; subst. eauto.
Qed.

Lemma payload_fields :
  get payload (lit "name") = Some (JStr (name params))
  /\ get payload (lit "symbol") = Some (JStr (symbol params))
  /\ get payload (lit "owner") = Some (JStr addr)
  /\ get payload (lit "description") = option_map JStr (description params)
  /\ get payload (lit "imageUrl") = option_map JStr (imageUrl params)
  /\ get payload (lit "attributes") = None.
Proof.
  unfold payload, mint_proxy_payload.
  destruct (description params), (imageUrl params); repeat split.
Qed.

Lemma request_reads_payload : Http.req_json request = Returns payload.
Proof. reflexivity. Qed.

(** What the proxy forwards for this mint: the name is a string, so the
    templated description can always be built. *)
Let forwarded : json :=
  MintProxy.mint_call (Some (JStr (name params))) (Some (JStr (symbol params)))
    (Some (JStr addr))
    (MintProxy.or_default (option_map JStr (description params))
       (JStr (lit "A compressed NFT: " ++ name params)))
    (MintProxy.or_default None (JArr []))
    (MintProxy.or_default (option_map JStr (imageUrl params))
       (JStr (lit "https://arweave.net/placeholder-image"))).

(** X24.  The hook does not check its input, the proxy does: a server mint
    with an empty name, symbol or owner address is sent to the mint proxy,
    comes back as "Server mint error: 400 - ..." with the proxy's missing
    fields message, and the provider is never called. *)
Theorem empty_input_is_refused_by_the_proxy :
  name params = [] \/ symbol params = [] \/ addr = [] ->
  mintWithHeliusAPI W params addr
  = ([FetchMintProxy payload],
     Throws (ServerMintError 400
               (stringify (JObj [(lit "error",
                  JStr (lit "Missing required fields: name, symbol, owner"))]))))
  /\ fst (MintProxy.POST sv request) = [].
Proof.
  intros Hempty.
  destruct payload_fields as (Hn & Hs & Ho & _).
  assert (Hpost : MintProxy.POST sv request = ([], MintProxy.missing_fields)).
  { apply mint_proxy_falsy_field with payload.
    - reflexivity.
    - discriminate.
    - rewrite Hn, Hs, Ho.
      destruct Hempty as [-> | [-> | ->]]; auto. }
  split; [|now rewrite Hpost].
  rewrite (@server_mint_reads_answer
             (JObj [(lit "error",
                     JStr (lit "Missing required fields: name, symbol, owner"))]));
    unfold answer; rewrite Hpost; reflexivity.
Qed.

Section Exchange.

Variable endpoint : jsstring.
Variable resp : Http.FetchResponse.
Hypothesis Hname : name params <> [].
Hypothesis Hsymbol : symbol params <> [].
Hypothesis Haddr : addr <> [].
Hypothesis Hurl : Http.getHeliusRpcUrl sv = Returns endpoint.
Hypothesis Hfetch : Http.fetch sv endpoint forwarded = Returns resp.

Lemma truthy_text (s : jsstring) : s <> [] -> truthyv (Some (JStr s)) = true.
Proof. destruct s; [congruence | reflexivity]. Qed.

Lemma forwarded_is_sent :
  MintProxy.mint_request sv (get payload (lit "name")) (get payload (lit "symbol"))
    (get payload (lit "owner")) (get payload (lit "description"))
    (get payload (lit "imageUrl")) (get payload (lit "attributes"))
  = ([], Returns forwarded).
Proof.
  destruct payload_fields as (Hn & Hs & Ho & Hd & Hi & Ha).
  rewrite Hn, Hs, Ho, Hd, Hi, Ha.
  unfold MintProxy.mint_request, MintProxy.description_or_template,
    MintProxy.template, forwarded.
  destruct (description params) as [[|c d]|]; reflexivity.
Qed.

(** X25.  A failure of the provider reaches the user as a "Server mint
    error" with status 502: when the provider answers the forwarded mint
    with a failure status, the server mint fails with status 502 and, as
    text, the proxy's error object holding the provider's status and
    body. *)
Theorem provider_failure_reaches_the_user :
  Http.ok resp = false ->
  snd (mintWithHeliusAPI W params addr)
  = Throws (ServerMintError 502
              (stringify (JObj [(lit "error",
                 JStr (lit "Helius error: " ++ toString 10 (Http.resp_status resp)
                       ++ lit " - " ++ Http.resp_text resp))])))
  /\ fst (MintProxy.POST sv request) = [Http.Fetch endpoint forwarded].
Proof.
  intros Hok.
  destruct payload_fields as (Hn & Hs & Ho & _).
  destruct (@mint_proxy_after_guard sv request payload endpoint forwarded
              request_reads_payload ltac:(discriminate)
              ltac:(rewrite Hn; now apply truthy_text)
              ltac:(rewrite Hs; now apply truthy_text)
              ltac:(rewrite Ho; now apply truthy_text) Hurl forwarded_is_sent)
    as [Ht Hresp].
  destruct (Hresp resp Hfetch) as [Hdown _].
  split; [|exact Ht].
  rewrite (@server_mint_reads_answer
             (JObj [(lit "error",
                JStr (lit "Helius error: " ++ toString 10 (Http.resp_status resp)
                      ++ lit " - " ++ Http.resp_text resp))]));
    unfold answer; rewrite (Hdown Hok); reflexivity.
Qed.

Variables data result : json.
Hypothesis Hok : Http.ok resp = true.
Hypothesis Hdata : Http.resp_json resp = Returns data.
Hypothesis Herror : truthyv (get data (lit "error")) = false.
Hypothesis Hresult : get data (lit "result") = Some result.
Hypothesis Hnull : result <> JNull.

Lemma answer_is_200 :
  answer
  = Http.mkResponse 200 Http.application_json
      (Http.Stringify (JObj (object
         [ (lit "signature", get result (lit "signature"));
           (lit "assetId", get result (lit "assetId")) ]))).
Proof.
  destruct payload_fields as (Hn & Hs & Ho & _).
  unfold answer.
  apply (@mint_proxy_ok_exchange sv request payload endpoint forwarded resp
           data result);
    auto.
  - rewrite Hn. now apply truthy_text.
  - rewrite Hs. now apply truthy_text.
  - rewrite Ho. now apply truthy_text.
  - exact forwarded_is_sent.
Qed.


(** X27.  A mint can succeed without the user being told.  With no tree
    configured, when the provider's result has no [assetId] that is a
    string, the server mint still returns, but [onSuccess] throws before it
    shows anything: no success notification and no cache invalidation. *)
Theorem success_without_asset_id_is_lost :
  configuredTree w = false ->
  (forall id, get result (lit "assetId") <> Some (JStr id)) ->
  exists minted,
    snd (mintWithHeliusAPI W params addr) = Returns minted
    /\ onSuccess W minted = ([], Throws (Foreign (typeError w))).
Proof.
  intros Hcfg Hid.
  exists (mkResult (get result (lit "signature")) (get result (lit "assetId"))).
  split.
  - rewrite (@server_mint_reads_answer
               (JObj (object [ (lit "signature", get result (lit "signature"));
                               (lit "assetId", get result (lit "assetId")) ])))
      by (rewrite answer_is_200; reflexivity).
    rewrite answer_is_200. cbn [Http.status N.leb andb negb snd].
    destruct (get result (lit "signature")), (get result (lit "assetId"));
      reflexivity.
  - unfold onSuccess.
    replace (configuredTree W) with false by (symmetry; exact Hcfg).
    cbn [assetId].
    destruct (get result (lit "assetId")) as [[| | | id | |]|]; try reflexivity.
    exfalso. now apply (Hid id).
Qed.

End Exchange.

End BehindTheProxy.

Lemma empty_input_is_refused_by_the_proxy_witness :
  mintWithHeliusAPI
    (behind_proxy show no_parse minting_server
       (sample_world None Addr1 no_adapter None))
    (mkParams [] (lit "FOO") None None None) (lit "Addr1")
  = ([FetchMintProxy (JObj [(lit "name", JStr []);
                            (lit "symbol", JStr (lit "FOO"));
                            (lit "owner", JStr (lit "Addr1"))])],
     Throws (ServerMintError 400 (lit "[object Object]"))).
Proof.
  exact (proj1 (@empty_input_is_refused_by_the_proxy show no_parse minting_server
                  (sample_world None Addr1 no_adapter None)
                  (mkParams [] (lit "FOO") None None None) (lit "Addr1")
                  (or_introl eq_refl))).
Defined.

Lemma provider_failure_reaches_the_user_witness :
  message_of_outcome
    (snd (mintWithHeliusAPI
            (behind_proxy (fun v => show (match get v (lit "error") with
                                          | Some e => e
                                          | None => JNull
                                          end))
               no_parse ProxySamples.failing_server
               (sample_world None Addr1 no_adapter None))
            (params_Foo None) (lit "Addr1")))
  = Some (lit "Server mint error: 502 - Helius error: 503 - down").
Proof.
  rewrite (proj1 (@provider_failure_reaches_the_user _ no_parse
                    ProxySamples.failing_server
                    (sample_world None Addr1 no_adapter None)
                    (params_Foo None) (lit "Addr1") _ _
                    ltac:(discriminate) ltac:(discriminate) ltac:(discriminate)
                    eq_refl eq_refl eq_refl)).
  reflexivity.
Defined.


Lemma success_without_asset_id_is_lost_witness :
  exists minted,
    snd (mintWithHeliusAPI
           (behind_proxy show no_parse signing_only_server
              (sample_world None Addr1 no_adapter None))
           (params_Foo None) (lit "Addr1"))
    = Returns minted
    /\ onSuccess (behind_proxy show no_parse signing_only_server
                    (sample_world None Addr1 no_adapter None)) minted
       = ([], Throws (Foreign (mkError (lit "TypeError")
                                 (lit "Cannot read properties of null")))).
Proof.
  apply (@success_without_asset_id_is_lost show no_parse signing_only_server
           (sample_world None Addr1 no_adapter None)
           (params_Foo None) (lit "Addr1") _ _
           ltac:(discriminate) ltac:(discriminate) ltac:(discriminate)
           eq_refl eq_refl _ (JObj [(lit "signature", JStr (lit "sig1"))])
           eq_refl eq_refl eq_refl eq_refl ltac:(discriminate) eq_refl).
  intros id. discriminate.
Defined.

End EndToEndFacts.

(* ================================================================== *)
(** ** The two RPC endpoints of the client                             *)
(* ================================================================== *)

Module EndpointFacts.
Import JS Effects MintHook MintSamples MintHookFacts.
Local Open Scope N_scope.

(** A mint call is the server mint for some address, the user-signed mint
    with some signer, or an immediate failure. *)
Lemma mutationFn_cases (w : World) (params : MintCNFTParams) :
  (exists addr, mutationFn w params = mintWithHeliusAPI w params addr)
  \/ (exists adapter,
        mutationFn w params = mintWithExistingTree w params connection adapter)
  \/ (exists e, mutationFn w params = ([], Throws e)).
Proof.
  unfold mutationFn.
  destruct (useExistingTree (configuredTree w) (forced params)).
  - unfold mode1, resolveAdapter, phantomAdapter.
    destruct (publicKey (walletAdapter w)).
    + unfold bind, ret. cbn [app].
      destruct (signTransaction (walletAdapter w)).
      * right. left. exists (walletAdapter w).
        destruct (mintWithExistingTree w params connection (walletAdapter w)).
        reflexivity.
      * right. right. eexists. reflexivity.
    + destruct (match window_solana w with
                | Some sol => if isPhantom sol then Some sol else None
                | None => None
                end) as [sol|].
      * destruct (sol_publicKey sol) as [pk|].
        -- right. left.
           exists (mkAdapter (Some pk) (Some PhantomForwarder) (Some PhantomForwarder)).
           unfold bind, ret. cbn [app signTransaction].
           destruct (mintWithExistingTree w params connection _). reflexivity.
        -- right. right. eexists. reflexivity.
      * destruct (account_address w) as [addr|].
        -- left. exists addr. apply bind_early_return.
        -- right. right. eexists. reflexivity.
  - unfold mode2. destruct (account_address w) as [addr|].
    + left. eauto.
    + right. right. eexists. reflexivity.
Qed.

Lemma sdk_endpoint (w : World) (params : MintCNFTParams) (c : Connection)
    (adapter : WalletContextState) (call : MintV1) :
  In (SendAndConfirm call) (fst (mintWithExistingTree w params c adapter)) ->
  umi_endpoint call
  = match NEXT_PUBLIC_HELIUS_API_KEY (env w) with
    | Some (c0 :: key) =>
        lit "https://"
        ++ match NEXT_PUBLIC_SOLANA_NETWORK (env w) with
           | Some (c1 :: n) => c1 :: n
           | _ => lit "devnet"
           end
        ++ lit ".helius-rpc.com/?api-key=" ++ (c0 :: key)
    | _ => lit "https://api.devnet.solana.com"
    end.
Proof.
  run_hook.
  destruct (NEXT_PUBLIC_MERKLE_TREE_ADDRESS (env w)) as [[|u tree]|];
    try (intros []).
  destruct (publicKey adapter) as [pk|]; [|intros []].
  destruct (umiPublicKey w pk); [|intros []].
  destruct (umiPublicKey w (u :: tree)); [|intros []].
  cbn [app]. destruct (sendAndConfirm w _); cbn [fst];
    (intros [H | []]; inversion H; reflexivity).
Qed.

(** X28.  The wallet connection and the mint talk to different RPC
    endpoints: unless [NEXT_PUBLIC_SOLANA_RPC_URL] overrides it, the
    endpoint of [WalletAdapterProvider] is never the endpoint the SDK is
    given for a user-signed mint, with or without an API key and whatever
    the network name. *)
Theorem wallet_and_mint_endpoints_differ (w : World) (params : MintCNFTParams)
    (rpc : option jsstring) (call : MintV1) :
  truthy_str rpc = false ->
  In (SendAndConfirm call) (fst (mutationFn w params)) ->
  umi_endpoint call
  <> WalletProvider.endpoint rpc (NEXT_PUBLIC_SOLANA_NETWORK (env w)).
Proof.
  intros Hrpc Hin.
  assert (Hend : umi_endpoint call
                 = match NEXT_PUBLIC_HELIUS_API_KEY (env w) with
                   | Some (c0 :: key) =>
                       lit "https://"
                       ++ match NEXT_PUBLIC_SOLANA_NETWORK (env w) with
                          | Some (c1 :: n) => c1 :: n
                          | _ => lit "devnet"
                          end
                       ++ lit ".helius-rpc.com/?api-key=" ++ (c0 :: key)
                   | _ => lit "https://api.devnet.solana.com"
                   end).
  { destruct (mutationFn_cases w params) as [[addr H] | [[adapter H] | [e H]]];
      rewrite H in Hin.
    - rewrite mintWithHeliusAPI_trace in Hin.
      destruct Hin as [Hin | []]. discriminate Hin.
    - eapply sdk_endpoint; eauto.
    - destruct Hin. }
  rewrite Hend. clear Hend Hin.
  assert (Hwallet : WalletProvider.endpoint rpc (NEXT_PUBLIC_SOLANA_NETWORK (env w))
                    = lit "https://"
                      ++ match NEXT_PUBLIC_SOLANA_NETWORK (env w) with
                         | Some (c1 :: n) => c1 :: n
                         | _ => lit "devnet"
                         end
                      ++ lit ".rpcpool.com").
  { unfold WalletProvider.endpoint. destruct rpc as [[|]|]; try discriminate Hrpc;
      reflexivity. }
  rewrite Hwallet.
  set (network := match NEXT_PUBLIC_SOLANA_NETWORK (env w) with
                  | Some (c1 :: n) => c1 :: n
                  | _ => lit "devnet"
                  end).
  destruct (NEXT_PUBLIC_HELIUS_API_KEY (env w)) as [[|c0 key]|].
  - intros H. apply (f_equal (@rev N)) in H.
    rewrite !rev_app_distr in H. cbn in H. discriminate H.
  - intros H. apply app_inv_head in H. apply app_inv_head in H.
    cbn in H. discriminate H.
  - intros H. apply (f_equal (@rev N)) in H.
    rewrite !rev_app_distr in H. cbn in H. discriminate H.
Qed.

Lemma wallet_and_mint_endpoints_differ_witness :
  WalletProvider.endpoint None None = lit "https://devnet.rpcpool.com"
  /\ forall call,
       In (SendAndConfirm call)
          (fst (mutationFn (sample_world tree1 Addr1 adapter1 None) (params_Foo None))) ->
       umi_endpoint call <> lit "https://devnet.rpcpool.com".
Proof.
  split; [reflexivity|]. intros call Hin.
  exact (@wallet_and_mint_endpoints_differ
           (sample_world tree1 Addr1 adapter1 None) (params_Foo None) None call
           eq_refl Hin).
Defined.

End EndpointFacts.
